(** * Bulbshare Link Generator & Data Matcher: the data transformation of app.py

    A shallow embedding of the body of [main] in app.py: the cleaning of the
    two key columns, the Brief_Link column, the left merge, the result table,
    the empty-link filter and the two unmatched tables, together with the
    order in which the Streamlit calls are issued around them.

    pandas is modelled as far as app.py uses it. app.py pins no version of
    pandas, and one behaviour that it relies on differs between versions:
    [astype(str)] leaves a missing value missing from pandas 3 on and writes
    the text "nan" in pandas 1 and 2. The model takes that choice as a
    parameter of the runtime and every property is stated for both.
    A frame is a list of labelled columns; [pd.read_csv] is a parameter and
    the Streamlit calls are recorded, in order, and never raise.

    A text cell is a [string] whose characters are read as code points below
    256. *)

From Stdlib Require Import String Ascii List ZArith Bool Arith Lia.
From Stdlib Require Import DecimalString Sorting.Sorted.
Import ListNotations.
Open Scope string_scope.
Open Scope list_scope.

(** ** Python strings *)

Module PyStr.

(** [str.isspace] on the code points below 256: TAB, LF, VT, FF, CR, the four
    separators FS, GS, RS and US, SPACE, NEL and NBSP. *)
Definition isspace (c : ascii) : bool :=
  let n := nat_of_ascii c in
  (((9 <=? n) && (n <=? 13)) || ((28 <=? n) && (n <=? 32))
   || (n =? 133) || (n =? 160))%nat.

(** [str.lstrip()] *)
Fixpoint lstrip (s : string) : string :=
  match s with
  | EmptyString => EmptyString
  | String c s' => if isspace c then lstrip s' else s
  end.

(** [str.rstrip()] *)
Fixpoint rstrip (s : string) : string :=
  match s with
  | EmptyString => EmptyString
  | String c s' =>
      match rstrip s' with
      | EmptyString => if isspace c then EmptyString else String c EmptyString
      | t => String c t
      end
  end.

(** [str.strip()] *)
Definition strip (s : string) : string := rstrip (lstrip s).

(** [str(n)] for a Python int. *)
Definition str_int (z : Z) : string := NilZero.string_of_int (Z.to_int z).

(** [str(n)] for a length or a count. *)
Definition str_nat (n : nat) : string := str_int (Z.of_nat n).

End PyStr.

(** ** Exceptions

    The exceptions that the modelled pandas calls raise; [main] catches all of
    them in one [except Exception] clause. *)

Inductive exn : Type :=
| KeyError (l : string)
    (* df[l], left_on=l, right_on=l: no column carries the label *)
| KeyErrorNotInIndex (requested missing : list string)
    (* df[[...]]: some of the requested labels are missing *)
| ValueErrorNotUnique (l : string)
    (* merge: several columns carry the key label *)
| ValueErrorNot1D
    (* a frame where a Series is needed *)
| ParserError (msg : string).
    (* pd.read_csv *)

Definition res (A : Type) : Type := exn + A.

Definition ret {A} (a : A) : res A := inr a.
Definition raise {A} (e : exn) : res A := inl e.
Definition bind {A B} (m : res A) (k : A -> res B) : res B :=
  match m with
  | inl e => inl e
  | inr a => k a
  end.

Notation "x <- m ;; k" := (bind m (fun x => k))
  (at level 61, m at next level, right associativity).

(** ** Series and frames *)

Definition label := string.

(** What the model takes from the Python runtime: the float64 values other
    than NaN with Python's [str] on them, NumPy's cast from int64 and the
    equality of two float keys; the text of an exception, [str(e)]; and
    whether [Series.astype(str)] leaves a missing value missing, as pandas 3
    does, or writes the text "nan", as pandas 1 and 2 do. *)
Class Runtime (float : Type) : Type := {
  str_float : float -> string;
  float_of_int : Z -> float;
  float_eqb : float -> float -> bool;
  str_exn : exn -> string;
  astype_str_keeps_na : bool
}.

Section Frames.

Context {float : Type} `{Runtime float}.

(** A cell of a frame read by [pd.read_csv]. *)
Inductive scalar : Type :=
| SStr (s : string)
| SInt (z : Z)
| SFloat (f : float)
| SBool (b : bool)
| NaN.

(** Python's [str] on a cell. *)
Definition py_str (x : scalar) : string :=
  match x with
  | SStr s => s
  | SInt z => PyStr.str_int z
  | SFloat f => str_float f
  | SBool true => "True"
  | SBool false => "False"
  | NaN => "nan"
  end.

(** [pd.notna] *)
Definition notna (x : scalar) : bool :=
  match x with
  | NaN => false
  | _ => true
  end.

(** Equality of two keys in [merge] and [isin]: missing values are equal to
    each other. The key columns of app.py hold text and missing values
    only. *)
Definition key_eqb (x y : scalar) : bool :=
  match x, y with
  | SStr s, SStr t => String.eqb s t
  | SInt a, SInt b => Z.eqb a b
  | SFloat f, SFloat g => float_eqb f g
  | SBool a, SBool b => Bool.eqb a b
  | NaN, NaN => true
  | _, _ => false
  end.

Definition Series := list scalar.

(** A frame is its columns in order; the index is the default range. Labels
    are unique in a frame read by [pd.read_csv]; a selection or a merge can
    repeat one. *)
Definition DataFrame := list (label * Series).

Definition columns (df : DataFrame) : list label := map fst df.

(** [len(df)] *)
Definition len (df : DataFrame) : nat :=
  match df with
  | [] => 0
  | (_, s) :: _ => length s
  end.

Definition lookup_all (df : DataFrame) (l : label) : list Series :=
  map snd (filter (fun c => String.eqb (fst c) l) df).

(** [df[l]]: the columns that carry the label, a Series when there is one and
    a frame when there are several; KeyError when there is none. *)
Definition getitem_raw (df : DataFrame) (l : label) : res (list Series) :=
  match lookup_all df l with
  | [] => raise (KeyError l)
  | cols => ret cols
  end.

(** What a consumer that needs a Series does with the outcome of [df[l]]. *)
Definition one_dimensional (cols : list Series) : res Series :=
  match cols with
  | [s] => ret s
  | _ => raise ValueErrorNot1D
  end.

(** [df[l]] consumed at once as a Series. In the two frames read by
    [pd.read_csv] labels are unique and the second step cannot fail. *)
Definition getitem (df : DataFrame) (l : label) : res Series :=
  cols <- getitem_raw df l ;;
  one_dimensional cols.

(** [df[l] = s] *)
Definition setitem (df : DataFrame) (l : label) (s : Series) : DataFrame :=
  if existsb (String.eqb l) (columns df)
  then map (fun c => if String.eqb (fst c) l then (l, s) else c) df
  else df ++ [(l, s)].

Definition has_label (df : DataFrame) (l : label) : bool :=
  existsb (String.eqb l) (columns df).

(** [df[[l1, ..., ln]]]: the columns under each requested label, in the order
    of the request; KeyError when a requested label is missing. *)
Definition select (df : DataFrame) (ls : list label) : res DataFrame :=
  match filter (fun l => negb (has_label df l)) ls with
  | [] => ret (flat_map (fun l => map (pair l) (lookup_all df l)) ls)
  | missing => raise (KeyErrorNotInIndex ls missing)
  end.

(** [df[mask]] *)
Fixpoint mask_filter {A} (mask : list bool) (xs : list A) : list A :=
  match mask, xs with
  | b :: mask', x :: xs' =>
      if b then x :: mask_filter mask' xs' else mask_filter mask' xs'
  | _, _ => []
  end.

Definition filter_rows (df : DataFrame) (mask : list bool) : DataFrame :=
  map (fun c => (fst c, mask_filter mask (snd c))) df.

(** [s.astype(str)] on a cell: Python's [str] of the value; a missing value
    stays missing under pandas 3 and becomes the text of [str(nan)] under
    pandas 1 and 2. *)
Definition astype_str_cell (x : scalar) : scalar :=
  match x with
  | NaN => if astype_str_keeps_na then NaN else SStr (py_str NaN)
  | _ => SStr (py_str x)
  end.

(** [s.astype(str)] *)
Definition astype_str (s : Series) : Series := map astype_str_cell s.

(** [s.str.strip()] on a cell: a cell that is no text gives a missing
    value. *)
Definition str_strip_cell (x : scalar) : scalar :=
  match x with
  | SStr t => SStr (PyStr.strip t)
  | _ => NaN
  end.

(** [s.str.strip()] *)
Definition str_strip (s : Series) : Series := map str_strip_cell s.

(** [s.isin(values)] *)
Definition isin (s values : Series) : list bool :=
  map (fun x => existsb (key_eqb x) values) s.

(** *** [pd.merge(left, right, left_on=, right_on=, how='left')] *)

(** The positions of a key in the right key column, counted from [j]. *)
Fixpoint positions_from (k : scalar) (keys : Series) (j : nat) : list nat :=
  match keys with
  | [] => []
  | x :: rest =>
      if key_eqb k x then j :: positions_from k rest (S j)
      else positions_from k rest (S j)
  end.

Definition positions (k : scalar) (keys : Series) : list nat :=
  positions_from k keys 0.

(** The rows that left row [i] with key [k] contributes: one per equal right
    key, in the right frame's order, or a single row without a partner. *)
Definition join_row (rk : Series) (i : nat) (k : scalar)
  : list (nat * option nat) :=
  match positions k rk with
  | [] => [(i, None)]
  | js => map (fun j => (i, Some j)) js
  end.

Fixpoint left_indexer_from (lk rk : Series) (i : nat)
  : list (nat * option nat) :=
  match lk with
  | [] => []
  | k :: rest => join_row rk i k ++ left_indexer_from rest rk (S i)
  end.

(** The pairs (left position, right position) of the merged rows. *)
Definition left_indexer (lk rk : Series) : list (nat * option nat) :=
  left_indexer_from lk rk 0.

Definition take_left (s : Series) (idx : list (nat * option nat)) : Series :=
  map (fun p => nth (fst p) s NaN) idx.

Definition is_int (x : scalar) : bool :=
  match x with
  | SInt _ => true
  | _ => false
  end.

(** int64 cannot hold a missing value: the column becomes float64. *)
Definition upcast (x : scalar) : scalar :=
  match x with
  | SInt z => SFloat (float_of_int z)
  | _ => x
  end.

Definition no_partner (p : nat * option nat) : bool :=
  match snd p with
  | None => true
  | Some _ => false
  end.

Definition take_right (s : Series) (idx : list (nat * option nat)) : Series :=
  let vals :=
    map (fun p => match snd p with
                  | Some j => nth j s NaN
                  | None => NaN
                  end) idx in
  if existsb no_partner idx && forallb is_int s then map upcast vals else vals.

Definition drop_label (df : DataFrame) (l : label) : DataFrame :=
  filter (fun c => negb (String.eqb (fst c) l)) df.

(** A key label must select one column. *)
Definition key_values (df : DataFrame) (l : label) : res Series :=
  match lookup_all df l with
  | [] => raise (KeyError l)
  | [s] => ret s
  | _ => raise (ValueErrorNotUnique l)
  end.

(** The right key is looked up before the left key. When both keys carry
    the same label the right key column is dropped and the left one stands
    for both. Labels left on both sides get the suffixes _x and _y. Where the
    suffixes make a label occur twice pandas 2 and 3 raise MergeError and
    pandas 1 warns; app.py then fails in any case, at the latest in lines 89
    to 94, where the model raises, so that check is left out. *)
Definition merge (left right : DataFrame) (left_on right_on : label)
  : res DataFrame :=
  rk <- key_values right right_on ;;
  lk <- key_values left left_on ;;
  let idx := left_indexer lk rk in
  let right' :=
    if String.eqb left_on right_on then drop_label right right_on
    else right in
  let overlap l := has_label left l && has_label right' l in
  ret (map (fun c => (if overlap (fst c) then (fst c ++ "_x")%string
                      else fst c,
                      take_left (snd c) idx)) left
       ++
       map (fun c => (if overlap (fst c) then (fst c ++ "_y")%string
                      else fst c,
                      take_right (snd c) idx)) right').

(** ** app.py *)

(** The values returned by the five [st.selectbox] calls. *)
Record selectors : Type := {
  client_col : label;
  brief_name_col : label;
  brief_id_col : label;
  brief_req_col : label;
  issued_amount_col : label
}.

Definition base_url : string :=
  "https://app.bulbshare.com/2/briefs/create_brief.html?brief=".

(** [df[col] = df[col].astype(str).str.strip()] *)
Definition clean (df : DataFrame) (col : label) : res DataFrame :=
  s <- getitem df col ;;
  ret (setitem df col (str_strip (astype_str s))).

(** [lambda x: base_url + x.strip() if pd.notna(x) and x.strip() != '' else '']
    applied to a cell of the column that [astype(str)] returned, which is a
    text or a missing value; [and] does not evaluate [x.strip()] on a
    missing value. *)
Definition brief_link (x : scalar) : scalar :=
  if notna x && negb (String.eqb (PyStr.strip (py_str x)) "")
  then SStr (base_url ++ PyStr.strip (py_str x))
  else SStr "".

(** [df1['Brief_Link'] = df1[brief_id_col].astype(str).apply(...)] *)
Definition add_links (df1 : DataFrame) (sel : selectors) : res DataFrame :=
  s <- getitem df1 (brief_id_col sel) ;;
  ret (setitem df1 "Brief_Link" (map brief_link (astype_str s))).

(** [merged_df = pd.merge(df1[[...]], df2[[...]], left_on=brief_name_col,
    right_on=brief_req_col, how='left')] *)
Definition merge_frames (df1 df2 : DataFrame) (sel : selectors)
  : res DataFrame :=
  left <- select df1 [client_col sel; brief_name_col sel; brief_id_col sel;
                      "Brief_Link"] ;;
  right <- select df2 [brief_req_col sel; issued_amount_col sel] ;;
  merge left right (brief_name_col sel) (brief_req_col sel).

(** [result_df = pd.DataFrame({...})]: the four values of the dict are
    evaluated first, then the constructor takes each of them as a column. *)
Definition build_result (merged_df : DataFrame) (sel : selectors)
  : res DataFrame :=
  c <- getitem_raw merged_df (client_col sel) ;;
  n <- getitem_raw merged_df (brief_name_col sel) ;;
  l <- getitem_raw merged_df "Brief_Link" ;;
  a <- getitem_raw merged_df (issued_amount_col sel) ;;
  c <- one_dimensional c ;;
  n <- one_dimensional n ;;
  l <- one_dimensional l ;;
  a <- one_dimensional a ;;
  ret [("Client_Name", c); ("Brief_Name", n); ("Brief_Link", l);
       ("Issued_Amount", a)].

(** [x != ''] on a cell. *)
Definition ne_empty (x : scalar) : bool :=
  match x with
  | SStr s => negb (String.eqb s "")
  | _ => true
  end.

(** [result_df = result_df[result_df['Brief_Link'] != '']] *)
Definition drop_empty_links (result_df : DataFrame) : res DataFrame :=
  l <- getitem result_df "Brief_Link" ;;
  ret (filter_rows result_df (map ne_empty l)).

(** [df[~df[col].isin(other[other_col])]] *)
Definition unmatched (df : DataFrame) (col : label)
           (other : DataFrame) (other_col : label) : res DataFrame :=
  s <- getitem df col ;;
  v <- getitem other other_col ;;
  ret (filter_rows df (map negb (isin s v))).

(** The frames that lines 68 to 97 of app.py leave behind. *)
Record tables : Type := {
  t_df1 : DataFrame;
  t_df2 : DataFrame;
  t_merged_df : DataFrame;
  t_result_df : DataFrame
}.

Definition generate (df1 df2 : DataFrame) (sel : selectors) : res tables :=
  df1 <- clean df1 (brief_name_col sel) ;;
  df2 <- clean df2 (brief_req_col sel) ;;
  df1 <- add_links df1 sel ;;
  merged_df <- merge_frames df1 df2 sel ;;
  result_df <- build_result merged_df sel ;;
  result_df <- drop_empty_links result_df ;;
  ret {| t_df1 := df1; t_df2 := df2; t_merged_df := merged_df;
         t_result_df := result_df |}.

(** *** The Streamlit calls of [main], in the order they are issued *)

Inductive st_call : Type :=
| st_title (body : string)
| st_write (body : string)
| st_write_list (body : string) (items : list label)
| st_columns (n : nat)
| st_subheader (body : string)
| st_file_uploader (lbl key : string)
| st_expander (lbl : string)
| st_dataframe (df : DataFrame)
| st_selectbox (lbl : string) (options : list label) (index : Z)
| st_button (lbl : string)
| st_metric (lbl : string) (value : nat)
| st_download_button (lbl : string) (data : DataFrame)
                     (file_name mime : string)
| st_error (body : string)
| st_info (body : string).

(** A computation that issues Streamlit calls and may raise. The calls issued
    before an exception stay on the page. *)
Definition ui (A : Type) : Type := list st_call * res A.

Definition ui_ret {A} (a : A) : ui A := ([], inr a).

Definition ui_bind {A B} (m : ui A) (k : A -> ui B) : ui B :=
  match m with
  | (tr, inl e) => (tr, inl e)
  | (tr, inr a) => let (tr', r) := k a in (tr ++ tr', r)
  end.

Definition emit (c : st_call) : ui unit := ([c], inr tt).

Definition lift {A} (r : res A) : ui A := ([], r).

Notation "x <~ m ;; k" := (ui_bind m (fun x => k))
  (at level 61, m at next level, right associativity).
Notation "m ;;; k" := (ui_bind m (fun _ => k))
  (at level 61, right associativity).

(** [df.head()] *)
Definition head (df : DataFrame) : DataFrame :=
  map (fun c => (fst c, firstn 5 (snd c))) df.

(** [f"Shape: {df.shape}"] *)
Definition shape_text (df : DataFrame) : string :=
  "Shape: (" ++ PyStr.str_nat (len df) ++ ", "
  ++ PyStr.str_nat (length df) ++ ")".

Definition preview (lbl : string) (df : DataFrame) : ui unit :=
  emit (st_expander lbl) ;;;
  emit (st_write (shape_text df)) ;;;
  emit (st_dataframe (head df)) ;;;
  emit (st_write_list "Columns:" (columns df)).

Definition index_or_0 (df : DataFrame) (i : nat) : Z :=
  if (i <? length (columns df))%nat then Z.of_nat i else 0%Z.

(** [f"**{len(df)} records from CSV k had no match:**"] *)
Definition no_match_text (df : DataFrame) (k : string) : string :=
  "**" ++ PyStr.str_nat (len df) ++ " records from CSV " ++ k
  ++ " had no match:**".

(** The body of [if st.button(...)]. *)
Definition process (df1 df2 : DataFrame) (sel : selectors) : ui unit :=
  t <~ lift (generate df1 df2 sel) ;;
  let df1 := t_df1 t in
  let df2 := t_df2 t in
  let result_df := t_result_df t in
  emit (st_subheader "✅ Results") ;;;
  emit (st_columns 3) ;;;
  emit (st_metric "Total Matches Found" (len result_df)) ;;;
  emit (st_metric "Records from CSV 1" (len df1)) ;;;
  emit (st_metric "Records from CSV 2" (len df2)) ;;;
  emit (st_dataframe result_df) ;;;
  emit (st_download_button "📥 Download Results as CSV" result_df
          "bulbshare_links_matched.csv" "text/csv") ;;;
  unmatched_from_csv1 <~
    lift (unmatched df1 (brief_name_col sel) df2 (brief_req_col sel)) ;;
  unmatched_from_csv2 <~
    lift (unmatched df2 (brief_req_col sel) df1 (brief_name_col sel)) ;;
  if (0 <? len unmatched_from_csv1)%nat || (0 <? len unmatched_from_csv2)%nat
  then
    emit (st_expander "⚠️ Unmatched Records") ;;;
    (if (0 <? len unmatched_from_csv1)%nat
     then
       emit (st_write (no_match_text unmatched_from_csv1 "1")) ;;;
       shown <~ lift (select unmatched_from_csv1
                        [client_col sel; brief_name_col sel]) ;;
       emit (st_dataframe shown)
     else ui_ret tt) ;;;
    (if (0 <? len unmatched_from_csv2)%nat
     then
       emit (st_write (no_match_text unmatched_from_csv2 "2")) ;;;
       shown <~ lift (select unmatched_from_csv2
                        [brief_req_col sel; issued_amount_col sel]) ;;
       emit (st_dataframe shown)
     else ui_ret tt)
  else ui_ret tt.

(** An uploaded file, and [pd.read_csv] on it. *)
Context {upload : Type}.
Variable read_csv : upload -> res DataFrame.

(** The body of [try:]. [clicked] is what [st.button] returns. *)
Definition try_block (csv1 csv2 : upload) (sel : selectors) (clicked : bool)
  : ui unit :=
  df1 <~ lift (read_csv csv1) ;;
  df2 <~ lift (read_csv csv2) ;;
  preview "📋 Preview CSV 1" df1 ;;;
  preview "📋 Preview CSV 2" df2 ;;;
  emit (st_subheader "🔧 Column Mapping") ;;;
  emit (st_columns 2) ;;;
  emit (st_write "**CSV 1 Column Selection:**") ;;;
  emit (st_selectbox "Client Name Column" (columns df1) 0) ;;;
  emit (st_selectbox "Brief Name Column" (columns df1) (index_or_0 df1 2)) ;;;
  emit (st_selectbox "Brief ID Column" (columns df1)
          (Z.of_nat (length (columns df1)) - 1)) ;;;
  emit (st_write "**CSV 2 Column Selection:**") ;;;
  emit (st_selectbox "Brief Requirements Column" (columns df2)
          (index_or_0 df2 3)) ;;;
  emit (st_selectbox "Issued Amount Column" (columns df2)
          (index_or_0 df2 7)) ;;;
  emit (st_button "🚀 Generate Links & Match Data") ;;;
  if clicked then process df1 df2 sel else ui_ret tt.

Definition example_csv1 : DataFrame :=
  [("Client_Name", [SStr "Client A"; SStr "Client B"; SStr "Client C"]);
   ("Column_B", [SStr "Data"; SStr "Data"; SStr "Data"]);
   ("Brief_Name",
    [SStr "Project Alpha"; SStr "Project Beta"; SStr "Project Gamma"]);
   ("Brief_ID",
    [SStr "brief-67DE3E4D-6D16-11F0-8992-06546FE76FA3";
     SStr "brief-89C21275-5E2D-11F0-8992-06546FE76FA3";
     SStr "brief-12345678-1234-11F0-8992-06546FE76FA3"])].

Definition example_csv2 : DataFrame :=
  let data := [SStr "Data"; SStr "Data"; SStr "Data"] in
  [("Col_A", data); ("Col_B", data); ("Col_C", data);
   ("Brief_Requirements",
    [SStr "Project Alpha"; SStr "Project Beta"; SStr "Project Delta"]);
   ("Col_E", data); ("Col_F", data); ("Col_G", data);
   ("Issued_Amount", [SInt 1000; SInt 1500; SInt 2000])].

(** The handler of [except Exception as e]. *)
Definition on_error (e : exn) : list st_call :=
  [st_error ("❌ Error processing files: " ++ str_exn e);
   st_write "Please check that your CSV files are formatted correctly."].

(** [main()]: the calls issued in one run of the script. [csv1] and [csv2] are
    what the two [st.file_uploader] calls return. *)
Definition main (csv1 csv2 : option upload) (sel : selectors) (clicked : bool)
  : list st_call :=
  [st_title "🔗 Bulbshare Link Generator & Data Matcher";
   st_write "Upload two CSVs to generate Bulbshare links with matched data";
   st_columns 2;
   st_subheader "CSV 1 - Main Data";
   st_write
     "Should contain: Client Name (Col A), Brief Name (Col C), Brief ID (Col ID)";
   st_file_uploader "Upload CSV 1" "csv1";
   st_subheader "CSV 2 - Requirements & Amounts";
   st_write "Should contain: Brief Requirements (Col D), Issued Amount (Col H)";
   st_file_uploader "Upload CSV 2" "csv2"]
  ++
  match csv1, csv2 with
  | Some csv1, Some csv2 =>
      match try_block csv1 csv2 sel clicked with
      | (calls, inr _) => calls
      | (calls, inl e) => calls ++ on_error e
      end
  | _, _ =>
      [st_info "👆 Please upload both CSV files to get started";
       st_expander "📋 Expected CSV Format";
       st_write "**CSV 1 should look like:**";
       st_dataframe example_csv1;
       st_write "**CSV 2 should look like:**";
       st_dataframe example_csv2]
  end.

(** ** Vocabulary of the properties *)

(** The trimmed string form of a cell: for a value that is present, the text
    that the cleaning step leaves in a key column. *)
Definition key_text (x : scalar) : string := PyStr.strip (py_str x).

(** The cell that the cleaning step writes in place of [x]. *)
Definition key_cell (x : scalar) : scalar :=
  str_strip_cell (astype_str_cell x).

(** Two cells that the cleaning step makes equal keys of. *)
Definition same_key (x y : scalar) : bool :=
  key_eqb (key_cell x) (key_cell y).

(** The contract of [normalize] as the specification words it: the string
    form with leading and trailing whitespace removed, a null value ending as
    the empty string. *)
Definition spec_normalize (x : scalar) : scalar :=
  match x with
  | NaN => SStr ""
  | _ => SStr (PyStr.strip (py_str x))
  end.

(** The link of a Brief ID cell as the code computes it. *)
Definition link_text (x : scalar) : string :=
  if notna (astype_str_cell x) && negb (String.eqb (key_text x) "")
  then base_url ++ key_text x
  else "".

(** The number of cells of [s] with the cleaned key of [x]. *)
Definition partners (x : scalar) (s : Series) : nat :=
  length (filter (same_key x) s).

(** The record at position [j], and the records of a frame in order. *)
Definition row (df : DataFrame) (j : nat) : list scalar :=
  map (fun c => nth j (snd c) NaN) df.

Definition rows (df : DataFrame) : list (list scalar) :=
  map (row df) (seq 0 (len df)).

(** The pairs of positions that the merge joins, for the two key columns as
    they were uploaded. *)
Definition row_pairs (s1 s2 : Series) : list (nat * option nat) :=
  left_indexer (str_strip (astype_str s1)) (str_strip (astype_str s2)).

(** A selection under which lines 68 to 97 raise nothing: every selected
    label names one column of its frame, the Primary frame has at most one
    column Brief_Link, and apart from the two key labels, which may be the
    same, the selected labels and Brief_Link are pairwise different. *)
Definition once (df : DataFrame) (l : label) : bool :=
  Nat.eqb (length (lookup_all df l)) 1.

Fixpoint distinct (ls : list label) : bool :=
  match ls with
  | [] => true
  | l :: rest => negb (existsb (String.eqb l) rest) && distinct rest
  end.

Definition well_chosen (df1 df2 : DataFrame) (sel : selectors) : bool :=
  once df1 (client_col sel) && once df1 (brief_name_col sel)
  && once df1 (brief_id_col sel)
  && once df2 (brief_req_col sel) && once df2 (issued_amount_col sel)
  && (length (lookup_all df1 "Brief_Link") <=? 1)%nat
  && distinct [client_col sel; brief_name_col sel; brief_id_col sel;
               "Brief_Link"; issued_amount_col sel]
  && distinct [client_col sel; brief_id_col sel; "Brief_Link";
               brief_req_col sel; issued_amount_col sel].

(** The calls of the results section of the page. *)
Definition is_result_call (c : st_call) : bool :=
  match c with
  | st_metric _ _ => true
  | st_download_button _ _ _ _ => true
  | st_subheader body => String.eqb body "✅ Results"
  | _ => false
  end.

Definition is_error_call (c : st_call) : bool :=
  match c with
  | st_error _ => true
  | _ => false
  end.

(** *** The selections before the user changes them *)

(** What [st.selectbox(lbl, options, index=i)] returns as long as no other
    option was picked: the option at position [i]. *)
Definition selectbox_default (options : list label) (index : Z) : label :=
  nth (Z.to_nat index) options "".

(** The five selections of lines 55 to 62 left at their defaults. *)
Definition default_selectors (df1 df2 : DataFrame) : selectors :=
  {| client_col := selectbox_default (columns df1) 0;
     brief_name_col := selectbox_default (columns df1) (index_or_0 df1 2);
     brief_id_col :=
       selectbox_default (columns df1) (Z.of_nat (length (columns df1)) - 1);
     brief_req_col := selectbox_default (columns df2) (index_or_0 df2 3);
     issued_amount_col := selectbox_default (columns df2) (index_or_0 df2 7) |}.

(** The first of the Brief Name, Brief Requirements and Brief ID selections,
    in the order in which lines 68, 69 and 75 read them, that names no
    column of its frame. *)
Definition first_missing (df1 df2 : DataFrame) (sel : selectors)
  : option label :=
  if negb (has_label df1 (brief_name_col sel)) then Some (brief_name_col sel)
  else if negb (has_label df2 (brief_req_col sel))
       then Some (brief_req_col sel)
       else if negb (has_label df1 (brief_id_col sel))
            then Some (brief_id_col sel)
            else None.

(** The record that a joined pair of positions, with its Issued Amount cell,
    contributes to the projection: client, cleaned name and link of the
    Primary record, then the amount. *)
Definition joined_record (clients names links : Series)
           (q : (nat * option nat) * scalar) : list scalar :=
  [nth (fst (fst q)) clients NaN; nth (fst (fst q)) names NaN;
   nth (fst (fst q)) links NaN; snd q].

(** A joined pair whose Secondary position is [k]. *)
Definition joined_with (k : nat) (p : nat * option nat) : bool :=
  match snd p with
  | Some k' => Nat.eqb k k'
  | None => false
  end.

(** *** Trimming, as the specification words it *)

(** A text of whitespace only. *)
Definition blank (s : string) : Prop :=
  forall c, In c (list_ascii_of_string s) -> PyStr.isspace c = true.

(** [t] is [s] with its leading and trailing whitespace removed: [s] is [t]
    between two texts of whitespace, and [t] neither starts nor ends with
    whitespace. *)
Definition trimmed_of (t s : string) : Prop :=
  (exists pre suf, s = (pre ++ t ++ suf)%string /\ blank pre /\ blank suf) /\
  (forall c u, t = String c u -> PyStr.isspace c = false) /\
  (forall c u, t = (u ++ String c EmptyString)%string ->
               PyStr.isspace c = false).

(** *** The records of the merged frame and of the unmatched lists *)

(** The frame that the merge takes the Secondary cells from: the selection
    of line 82, without its key column when both keys carry one label. *)
Definition right_side (right : DataFrame) (sel : selectors) : DataFrame :=
  if String.eqb (brief_name_col sel) (brief_req_col sel)
  then drop_label right (brief_req_col sel)
  else right.

(** The int64 columns of a frame cast to float64 where the pairs [idx] leave
    some row without partner. *)
Definition upcast_frame (idx : list (nat * option nat)) (df : DataFrame)
  : DataFrame :=
  map (fun c => (fst c,
                 if existsb no_partner idx && forallb is_int (snd c)
                 then map upcast (snd c)
                 else snd c)) df.

(** The record of a joined pair: the fields of the left record, then the
    fields of its partner, or as many missing values when it has none. *)
Definition merged_record (left right : DataFrame) (p : nat * option nat)
  : list scalar :=
  row left (fst p)
  ++ match snd p with
     | Some k => row right k
     | None => map (fun _ => NaN) right
     end.

(** [merged_df] holds, record by record and in order, the records of the
    two selections of lines 81 and 82 at the pairs [idx]. *)
Definition merged_along (t : tables) (sel : selectors)
           (idx : list (nat * option nat)) : Prop :=
  exists left right,
    select (t_df1 t) [client_col sel; brief_name_col sel; brief_id_col sel;
                      "Brief_Link"] = inr left /\
    select (t_df2 t) [brief_req_col sel; issued_amount_col sel] = inr right /\
    rows (t_merged_df t)
    = map (merged_record left (upcast_frame idx (right_side right sel))) idx.

(** The positions of the cells of [s] that have the cleaned key of [x]. *)
Definition same_key_positions (x : scalar) (s : Series) : list nat :=
  filter (fun k => same_key x (nth k s NaN)) (seq 0 (length s)).

(** The joined pairs as the contract of the join words them: for each
    Primary record, in the order of Primary, one pair with every Secondary
    record of the same key, in the order of Secondary, and a single pair
    without partner when there is none. *)
Definition spec_pairs (s1 s2 : Series) : list (nat * option nat) :=
  flat_map (fun jx => match same_key_positions (snd jx) s2 with
                      | [] => [(fst jx, None)]
                      | ks => map (fun k => (fst jx, Some k)) ks
                      end)
           (combine (seq 0 (length s1)) s1).

(** The positions of the cells of [s] whose cleaned key no cell of [v]
    has. *)
Definition lonely (s v : Series) : list nat :=
  filter (fun j => negb (existsb (same_key (nth j s NaN)) v))
         (seq 0 (length s)).


End Frames.

(** ** A runtime for the worked examples

    Floats with an integral value, written the way Python writes them. *)

Definition example_str_exn (e : exn) : string :=
  match e with
  | KeyError l => "'" ++ l ++ "'"
  | KeyErrorNotInIndex _ missing => "missing labels"
  | ValueErrorNotUnique l => "The column label '" ++ l ++ "' is not unique."
  | ValueErrorNot1D => "not a Series"
  | ParserError msg => msg
  end.

(** pandas 3. *)
#[export] Instance example_runtime : Runtime Z := {|
  str_float z := (PyStr.str_int z ++ ".0")%string;
  float_of_int z := z;
  float_eqb := Z.eqb;
  str_exn := example_str_exn;
  astype_str_keeps_na := true
|}.

(** pandas 1 and 2. *)
Definition legacy_runtime : Runtime Z := {|
  str_float z := (PyStr.str_int z ++ ".0")%string;
  float_of_int z := z;
  float_eqb := Z.eqb;
  str_exn := example_str_exn;
  astype_str_keeps_na := false
|}.

(** The example of the specification: two briefs, one requirement. *)
Definition spec_primary : DataFrame (float := Z) :=
  [("Client", [SStr "A"; SStr "B"]);
   ("Brief", [SStr "Alpha"; SStr "Beta"]);
   ("ID", [SStr "x1"; NaN])].

Definition spec_secondary : DataFrame (float := Z) :=
  [("Req", [SStr "Alpha"]); ("Amount", [SInt 1000])].

Definition spec_selectors : selectors :=
  {| client_col := "Client"; brief_name_col := "Brief"; brief_id_col := "ID";
     brief_req_col := "Req"; issued_amount_col := "Amount" |}.

(** One brief whose name is required twice. *)
Definition twice_primary : DataFrame (float := Z) :=
  [("Client", [SStr "A"]); ("Brief", [SStr "Alpha"]); ("ID", [SStr "x1"])].

Definition twice_secondary : DataFrame (float := Z) :=
  [("Req", [SStr "Alpha"; SStr "Alpha"]); ("Amount", [SInt 1000; SInt 2000])].

(** A Brief Name with blanks around it. *)
Definition blanks_primary : DataFrame (float := Z) :=
  [("Client", [SStr "A"]); ("Brief", [SStr " Alpha "]); ("ID", [SStr "x1"])].

Definition blanks_secondary : DataFrame (float := Z) :=
  [("Req", [SStr "Alpha"]); ("Amount", [SInt 1000])].

(** A missing Brief Name and a missing Brief Requirement. *)
Definition missing_primary : DataFrame (float := Z) :=
  [("Client", [SStr "A"; SStr "B"]); ("Brief", [SStr "Alpha"; NaN]);
   ("ID", [SStr "x1"; SStr "x2"])].

Definition missing_secondary : DataFrame (float := Z) :=
  [("Req", [NaN; SStr "Alpha"]); ("Amount", [SInt 500; SInt 1000])].

(** Four briefs in an order that is not the order of their requirements. *)
Definition order_primary : DataFrame (float := Z) :=
  [("Client", [SStr "A"; SStr "B"; SStr "C"; SStr "D"]);
   ("Brief", [SStr "Beta"; SStr "Alpha"; SStr "Beta"; SStr "Gamma"]);
   ("ID", [SStr "x1"; SStr "x2"; SStr "x3"; SStr "x4"])].

Definition order_secondary : DataFrame (float := Z) :=
  [("Req", [SStr "Alpha"; SStr "Beta"; SStr "Beta"]);
   ("Amount", [SInt 100; SInt 200; SInt 300])].

(** Uploads with a header and no records. *)
Definition header_only_primary : DataFrame (float := Z) :=
  [("Client", []); ("Brief", []); ("ID", [])].

Definition header_only_secondary : DataFrame (float := Z) :=
  [("Req", []); ("Amount", [])].

(** A reader for the worked examples: the upload is the frame that pandas
    would parse, and a file without columns is refused, as [pd.read_csv]
    refuses it with EmptyDataError. *)
Definition example_read_csv (csv : DataFrame (float := Z))
  : res (DataFrame (float := Z)) :=
  match csv with
  | [] => inl (ParserError "No columns to parse from file")
  | _ => inr csv
  end.

(** A selection whose Brief Name is no column of the Primary example. *)
Definition missing_name_selectors : selectors :=
  {| client_col := "Client"; brief_name_col := "Name"; brief_id_col := "ID";
     brief_req_col := "Req"; issued_amount_col := "Amount" |}.

(** * Properties *)

Section IndexerFacts.

Context {float : Type} `{Runtime float}.

Lemma positions_from_spec (k : scalar) (keys : Series) (j0 p : nat) :
  In p (positions_from k keys j0) <->
  exists y, j0 <= p /\ nth_error keys (p - j0) = Some y /\ key_eqb k y = true.
Proof.
  revert j0. induction keys as [|x rest IH]; intros j0; simpl.
  - split; [tauto|]. intros (y & _ & Hn & _).
    destruct (p - j0); discriminate.
  - destruct (key_eqb k x) eqn:E; simpl; rewrite IH; split.
    + intros [<- | (y & Hle & Hn & Hy)].
      * exists x. rewrite Nat.sub_diag. simpl. auto.
      * exists y. repeat split; try lia; auto.
        replace (p - j0) with (S (p - S j0)) by lia. exact Hn.
    + intros (y & Hle & Hn & Hy).
      destruct (Nat.eq_dec j0 p) as [->|Hne]; [now left|right].
      exists y. repeat split; try lia; auto.
      replace (p - j0) with (S (p - S j0)) in Hn by lia. exact Hn.
    + intros (y & Hle & Hn & Hy). exists y. repeat split; try lia; auto.
      replace (p - j0) with (S (p - S j0)) by lia. exact Hn.
    + intros (y & Hle & Hn & Hy).
      destruct (Nat.eq_dec j0 p) as [->|Hne].
      * rewrite Nat.sub_diag in Hn. simpl in Hn. congruence.
      * exists y. repeat split; try lia; auto.
        replace (p - j0) with (S (p - S j0)) in Hn by lia. exact Hn.
Qed.

Lemma positions_spec (k : scalar) (keys : Series) (p : nat) :
  In p (positions k keys) <->
  exists y, nth_error keys p = Some y /\ key_eqb k y = true.
Proof.
  unfold positions. rewrite positions_from_spec. split.
  - intros (y & _ & Hn & Hy). rewrite Nat.sub_0_r in Hn. eauto.
  - intros (y & Hn & Hy). exists y. rewrite Nat.sub_0_r. auto with arith.
Qed.

Lemma positions_from_length (k : scalar) (keys : Series) (j0 : nat) :
  length (positions_from k keys j0) = length (filter (key_eqb k) keys).
Proof.
  revert j0. induction keys as [|x rest IH]; intros j0; simpl; auto.
  destruct (key_eqb k x); simpl; auto.
Qed.

Lemma positions_from_sorted (k : scalar) (keys : Series) (j0 : nat) :
  StronglySorted lt (positions_from k keys j0).
Proof.
  revert j0. induction keys as [|x rest IH]; intros j0; simpl.
  - constructor.
  - destruct (key_eqb k x); auto. constructor; auto.
    apply Forall_forall. intros p Hp.
    apply positions_from_spec in Hp. destruct Hp as (_ & Hle & _). lia.
Qed.

Lemma positions_nil (k : scalar) (keys : Series) :
  positions k keys = [] <-> forall y, In y keys -> key_eqb k y = false.
Proof.
  split.
  - intros E y Hy. destruct (key_eqb k y) eqn:Ek; auto.
    apply In_nth_error in Hy. destruct Hy as [p Hp].
    assert (In p (positions k keys)) by (apply positions_spec; eauto).
    rewrite E in *. contradiction.
  - intros Hall. destruct (positions k keys) as [|p ps] eqn:E; auto.
    assert (Hin : In p (positions k keys)) by (rewrite E; now left).
    apply positions_spec in Hin. destruct Hin as (y & Hn & Hy).
    apply nth_error_In in Hn. rewrite Hall in Hy; auto. discriminate.
Qed.

Lemma join_row_spec (rk : Series) (i : nat) (k : scalar) (p : nat * option nat) :
  In p (join_row rk i k) <->
  fst p = i /\
  match snd p with
  | Some j => exists y, nth_error rk j = Some y /\ key_eqb k y = true
  | None => forall y, In y rk -> key_eqb k y = false
  end.
Proof.
  unfold join_row. destruct (positions k rk) as [|q qs] eqn:E.
  - pose proof (proj1 (positions_nil k rk) E) as Hnil.
    destruct p as [i' [j|]]; simpl; split.
    + intros [Heq|[]]. discriminate.
    + intros (_ & y & Hn & Hy). apply nth_error_In in Hn.
      rewrite Hnil in Hy; auto. discriminate.
    + intros [Heq|[]]. inversion Heq. auto.
    + intros (-> & _). now left.
  - rewrite <- E. rewrite in_map_iff. destruct p as [i' [j|]]; simpl; split.
    + intros (j' & Heq & Hin). inversion Heq; subst.
      split; auto. now apply positions_spec.
    + intros (-> & Hex). exists j. split; auto. now apply positions_spec.
    + intros (j' & Heq & _). discriminate.
    + intros (_ & Hall). apply positions_nil in Hall. rewrite Hall in E. discriminate.
Qed.

Lemma join_row_length (rk : Series) (i : nat) (k : scalar) :
  length (join_row rk i k) = Nat.max 1 (length (filter (key_eqb k) rk)).
Proof.
  unfold join_row, positions.
  rewrite <- (positions_from_length k rk 0).
  destruct (positions_from k rk 0) as [|q qs]; simpl; auto.
  now rewrite length_map.
Qed.

Lemma join_row_fst (rk : Series) (i : nat) (k : scalar) :
  map fst (join_row rk i k) = repeat i (length (join_row rk i k)).
Proof.
  unfold join_row. destruct (positions k rk) as [|q qs]; auto.
  rewrite map_map, length_map. generalize (q :: qs). intros l.
  induction l as [|a l IH]; simpl; [|f_equal; exact IH]; reflexivity.
Qed.

Lemma left_indexer_from_spec (lk rk : Series) (i0 : nat) (p : nat * option nat) :
  In p (left_indexer_from lk rk i0) <->
  exists x, i0 <= fst p /\ nth_error lk (fst p - i0) = Some x /\
            match snd p with
            | Some j => exists y, nth_error rk j = Some y /\ key_eqb x y = true
            | None => forall y, In y rk -> key_eqb x y = false
            end.
Proof.
  revert i0. induction lk as [|k rest IH]; intros i0; simpl.
  - split; [tauto|]. intros (x & _ & Hn & _).
    destruct (fst p - i0); discriminate.
  - rewrite in_app_iff, join_row_spec, IH. split.
    + intros [(Hi & Hm) | (x & Hle & Hn & Hm)].
      * exists k. subst i0. rewrite Nat.sub_diag. simpl. auto.
      * exists x. repeat split; try lia; auto.
        replace (fst p - i0) with (S (fst p - S i0)) by lia. exact Hn.
    + intros (x & Hle & Hn & Hm).
      destruct (Nat.eq_dec i0 (fst p)) as [Heq|Hne].
      * left. rewrite <- Heq, Nat.sub_diag in Hn. simpl in Hn.
        inversion Hn; subst. auto.
      * right. exists x. repeat split; try lia; auto.
        replace (fst p - i0) with (S (fst p - S i0)) in Hn by lia. exact Hn.
Qed.

Lemma left_indexer_spec (lk rk : Series) (p : nat * option nat) :
  In p (left_indexer lk rk) <->
  exists x, nth_error lk (fst p) = Some x /\
            match snd p with
            | Some j => exists y, nth_error rk j = Some y /\ key_eqb x y = true
            | None => forall y, In y rk -> key_eqb x y = false
            end.
Proof.
  unfold left_indexer. rewrite left_indexer_from_spec. split.
  - intros (x & _ & Hn & Hm). rewrite Nat.sub_0_r in Hn. eauto.
  - intros (x & Hn & Hm). exists x. rewrite Nat.sub_0_r. auto with arith.
Qed.

Lemma left_indexer_from_length (lk rk : Series) (i0 : nat) :
  length (left_indexer_from lk rk i0) =
  list_sum (map (fun x => Nat.max 1 (length (filter (key_eqb x) rk))) lk).
Proof.
  revert i0. induction lk as [|k rest IH]; intros i0; simpl; auto.
  rewrite length_app, join_row_length, IH. reflexivity.
Qed.

Lemma left_indexer_from_sorted (lk rk : Series) (i0 : nat) :
  StronglySorted le (map fst (left_indexer_from lk rk i0)).
Proof.
  revert i0. induction lk as [|k rest IH]; intros i0; simpl.
  - constructor.
  - rewrite map_app, join_row_fst.
    induction (length (join_row rk i0 k)) as [|n IHn]; simpl.
    + apply IH.
    + constructor; auto. apply Forall_app. split.
      * apply Forall_forall. intros a Ha. apply repeat_spec in Ha. lia.
      * apply Forall_forall. intros a Ha. apply in_map_iff in Ha.
        destruct Ha as (p & <- & Hp).
        apply left_indexer_from_spec in Hp. destruct Hp as (_ & Hle & _). lia.
Qed.

End IndexerFacts.

Section FrameFacts.

Context {float : Type} `{Runtime float}.

Local Abbreviation DataFrame := (@DataFrame float).
Local Abbreviation Series := (@Series float).

Lemma filter_none {A} (f : A -> bool) (l : list A) :
  (forall x, In x l -> f x = false) -> filter f l = [].
Proof.
  induction l as [|a l IH]; simpl; auto. intros Hf.
  rewrite (Hf a) by now left. auto.
Qed.

Lemma getitem_inv (df : DataFrame) (l : label) (s : Series) :
  getitem df l = inr s <-> lookup_all df l = [s].
Proof.
  unfold getitem, getitem_raw, one_dimensional, bind, raise, ret.
  destruct (lookup_all df l) as [|a [|b rest]]; split; intros E;
    try discriminate; congruence.
Qed.

Lemma key_values_inv (df : DataFrame) (l : label) (s : Series) :
  key_values df l = inr s <-> lookup_all df l = [s].
Proof.
  unfold key_values, raise, ret.
  destruct (lookup_all df l) as [|a [|b rest]]; split; intros E;
    try discriminate; congruence.
Qed.

Lemma lookup_all_app (d1 d2 : DataFrame) (l : label) :
  lookup_all (d1 ++ d2) l = lookup_all d1 l ++ lookup_all d2 l.
Proof. unfold lookup_all. now rewrite filter_app, map_app. Qed.

Lemma has_label_lookup (df : DataFrame) (l : label) :
  has_label df l = false <-> lookup_all df l = [].
Proof.
  unfold has_label, columns, lookup_all.
  induction df as [|[l' s'] rest IH]; simpl; [tauto|].
  rewrite (String.eqb_sym l l'). destruct (String.eqb l' l); simpl; auto.
  split; discriminate.
Qed.

Lemma lookup_all_setitem_same (df : DataFrame) (l : label) (s : Series) :
  lookup_all (setitem df l s) l =
  match lookup_all df l with
  | [] => [s]
  | xs => map (fun _ => s) xs
  end.
Proof.
  unfold setitem. fold (has_label df l).
  destruct (has_label df l) eqn:E.
  - assert (Hne : lookup_all df l <> []).
    { intros C. apply has_label_lookup in C. congruence. }
    assert (Hmap : lookup_all
                     (map (fun c => if String.eqb (fst c) l then (l, s) else c) df) l
                   = map (fun _ => s) (lookup_all df l)).
    { clear. unfold lookup_all.
      induction df as [|[l' s'] rest IH]; simpl; auto.
      destruct (String.eqb l' l) eqn:E; simpl.
      - rewrite String.eqb_refl. simpl. now f_equal.
      - rewrite E. exact IH. }
    rewrite Hmap. destruct (lookup_all df l); [contradiction|reflexivity].
  - apply has_label_lookup in E. rewrite lookup_all_app, E. simpl.
    unfold lookup_all. simpl. now rewrite String.eqb_refl.
Qed.

Lemma lookup_all_setitem_other (df : DataFrame) (l l' : label) (s : Series) :
  l' <> l -> lookup_all (setitem df l s) l' = lookup_all df l'.
Proof.
  intros Hne. apply String.eqb_neq in Hne.
  unfold setitem. destruct (existsb (String.eqb l) (columns df)).
  - unfold lookup_all. induction df as [|[l0 s0] rest IH]; simpl; auto.
    destruct (String.eqb l0 l) eqn:E; simpl.
    + apply String.eqb_eq in E. subst l0. rewrite String.eqb_sym, Hne.
      exact IH.
    + destruct (String.eqb l0 l'); simpl; now rewrite IH.
  - rewrite lookup_all_app. unfold lookup_all at 2. simpl.
    rewrite String.eqb_sym, Hne. simpl. now rewrite app_nil_r.
Qed.

Lemma getitem_setitem_same (df : DataFrame) (l : label) (s0 s : Series) :
  getitem df l = inr s0 -> getitem (setitem df l s) l = inr s.
Proof.
  rewrite !getitem_inv, lookup_all_setitem_same. now intros ->.
Qed.

Lemma lookup_all_filter_rows (df : DataFrame) (m : list bool) (l : label) :
  lookup_all (filter_rows df m) l = map (mask_filter m) (lookup_all df l).
Proof.
  unfold lookup_all, filter_rows.
  induction df as [|[l' s'] rest IH]; simpl; auto.
  destruct (String.eqb l' l); simpl; now rewrite IH.
Qed.

Lemma select_eq (df : DataFrame) (ls : list label) :
  Forall (fun l => lookup_all df l <> []) ls ->
  select df ls = inr (flat_map (fun l => map (pair l) (lookup_all df l)) ls).
Proof.
  intros Hall. unfold select.
  rewrite filter_none; [reflexivity|].
  intros l Hl. rewrite Forall_forall in Hall. apply Hall in Hl.
  destruct (has_label df l) eqn:E; auto.
  apply has_label_lookup in E. contradiction.
Qed.

Lemma select_inv (df : DataFrame) (ls : list label) (fr : DataFrame) :
  select df ls = inr fr ->
  Forall (fun l => lookup_all df l <> []) ls /\
  forall l, lookup_all fr l =
            flat_map (fun l' => if String.eqb l' l then lookup_all df l' else [])
                     ls.
Proof.
  unfold select. intros E.
  destruct (filter (fun l => negb (has_label df l)) ls) as [|m ms] eqn:F;
    [|discriminate].
  inversion E; subst fr. clear E. split.
  - apply Forall_forall. intros l Hl Habs.
    apply has_label_lookup in Habs.
    assert (Hin : In l (filter (fun l => negb (has_label df l)) ls)).
    { apply filter_In. split; auto. now rewrite Habs. }
    rewrite F in Hin. contradiction.
  - intros l. clear F. induction ls as [|l0 rest IH]; [reflexivity|].
    cbn [flat_map]. rewrite lookup_all_app, IH. f_equal.
    generalize (lookup_all df l0). intros cs. unfold lookup_all.
    induction cs as [|c cs IHc]; simpl.
    + now destruct (String.eqb l0 l).
    + destruct (String.eqb l0 l); simpl; [now f_equal|exact IHc].
Qed.

Lemma select_total (df : DataFrame) (ls : list label) :
  Forall (fun l => lookup_all df l <> []) ls ->
  exists fr, select df ls = inr fr.
Proof. intros Hall. rewrite select_eq by assumption. eauto. Qed.

End FrameFacts.

Section PipelineFacts.

Context {float : Type} `{Runtime float}.

Local Abbreviation DataFrame := (@DataFrame float).
Local Abbreviation Series := (@Series float).
Local Abbreviation scalar := (@scalar float).

Lemma bind_inr {A B} (m : res A) (k : A -> res B) (b : B) :
  bind m k = inr b -> exists a, m = inr a /\ k a = inr b.
Proof. destruct m as [e|a]; simpl; [discriminate|eauto]. Qed.

Lemma clean_inv (df df' : DataFrame) (col : label) :
  clean df col = inr df' ->
  exists s, getitem df col = inr s /\
            df' = setitem df col (str_strip (astype_str s)).
Proof.
  unfold clean. intros E. apply bind_inr in E. destruct E as (s & Hs & E).
  inversion E. eauto.
Qed.

Lemma add_links_inv (df1 df1' : DataFrame) (sel : selectors) :
  add_links df1 sel = inr df1' ->
  exists ids, getitem df1 (brief_id_col sel) = inr ids /\
              df1' = setitem df1 "Brief_Link" (map brief_link (astype_str ids)).
Proof.
  unfold add_links. intros E. apply bind_inr in E. destruct E as (s & Hs & E).
  inversion E. eauto.
Qed.

Lemma nonempty_length {A} (l : list A) : l <> [] -> 1 <= length l.
Proof. destruct l; simpl; [congruence|lia]. Qed.

(** What a successful run of lines 68 to 97 went through. *)
Lemma generate_inv (df1 df2 : DataFrame) (sel : selectors) (t : tables) :
  generate df1 df2 sel = inr t ->
  exists s1 s2 ids left right result0,
    getitem df1 (brief_name_col sel) = inr s1 /\
    getitem df2 (brief_req_col sel) = inr s2 /\
    getitem (setitem df1 (brief_name_col sel) (str_strip (astype_str s1)))
            (brief_id_col sel) = inr ids /\
    t_df1 t = setitem
                (setitem df1 (brief_name_col sel) (str_strip (astype_str s1)))
                "Brief_Link" (map brief_link (astype_str ids)) /\
    t_df2 t = setitem df2 (brief_req_col sel) (str_strip (astype_str s2)) /\
    select (t_df1 t) [client_col sel; brief_name_col sel; brief_id_col sel;
                      "Brief_Link"] = inr left /\
    select (t_df2 t) [brief_req_col sel; issued_amount_col sel] = inr right /\
    merge left right (brief_name_col sel) (brief_req_col sel)
      = inr (t_merged_df t) /\
    build_result (t_merged_df t) sel = inr result0 /\
    drop_empty_links result0 = inr (t_result_df t).
Proof.
  unfold generate. intros E.
  apply bind_inr in E. destruct E as (d1 & H1 & E).
  apply bind_inr in E. destruct E as (d2 & H2 & E).
  apply bind_inr in E. destruct E as (d1' & H3 & E).
  apply bind_inr in E. destruct E as (m & H4 & E).
  apply bind_inr in E. destruct E as (r0 & H5 & E).
  apply bind_inr in E. destruct E as (r1 & H6 & E).
  inversion E; subst t; simpl. clear E.
  apply clean_inv in H1. destruct H1 as (s1 & Hs1 & ->).
  apply clean_inv in H2. destruct H2 as (s2 & Hs2 & ->).
  apply add_links_inv in H3. destruct H3 as (ids & Hids & ->).
  unfold merge_frames in H4.
  apply bind_inr in H4. destruct H4 as (left & Hl & H4).
  apply bind_inr in H4. destruct H4 as (right & Hr & H4).
  exists s1, s2, ids, left, right, r0. repeat split; assumption.
Qed.

(** The key columns that reach the merge are the cleaned key columns. *)
Lemma generate_keys (df1 df2 : DataFrame) (sel : selectors) (t : tables) :
  generate df1 df2 sel = inr t ->
  exists s1 s2 left right,
    getitem df1 (brief_name_col sel) = inr s1 /\
    getitem df2 (brief_req_col sel) = inr s2 /\
    getitem (t_df1 t) (brief_name_col sel) = inr (str_strip (astype_str s1)) /\
    getitem (t_df2 t) (brief_req_col sel) = inr (str_strip (astype_str s2)) /\
    select (t_df1 t) [client_col sel; brief_name_col sel; brief_id_col sel;
                      "Brief_Link"] = inr left /\
    select (t_df2 t) [brief_req_col sel; issued_amount_col sel] = inr right /\
    key_values left (brief_name_col sel) = inr (str_strip (astype_str s1)) /\
    key_values right (brief_req_col sel) = inr (str_strip (astype_str s2)) /\
    merge left right (brief_name_col sel) (brief_req_col sel)
      = inr (t_merged_df t).
Proof.
  intros E. apply generate_inv in E.
  destruct E as (s1 & s2 & ids & left & right & r0 &
                 Hs1 & Hs2 & Hids & Hd1 & Hd2 & Hl & Hr & Hm & _ & _).
  exists s1, s2, left, right.
  assert (Hm' := Hm). unfold merge in Hm'.
  apply bind_inr in Hm'. destruct Hm' as (rk & Hrk & Hm').
  apply bind_inr in Hm'. destruct Hm' as (lk & Hlk & _).
  apply key_values_inv in Hlk. apply key_values_inv in Hrk.
  destruct (select_inv _ _ _ Hl) as [Hlall Hllook].
  destruct (select_inv _ _ _ Hr) as [Hrall Hrlook].
  (* the right key *)
  assert (Kr : lookup_all (t_df2 t) (brief_req_col sel)
               = [str_strip (astype_str s2)]).
  { rewrite Hd2, lookup_all_setitem_same.
    apply getitem_inv in Hs2. now rewrite Hs2. }
  assert (Er : rk = str_strip (astype_str s2)).
  { rewrite Hrlook in Hrk. cbn [flat_map] in Hrk.
    rewrite String.eqb_refl, Kr in Hrk. cbn [app] in Hrk. now inversion Hrk. }
  (* the left key *)
  inversion Hlall as [|? ? Hc Hlall1]; subst.
  inversion Hlall1 as [|? ? Hn Hlall2]; subst.
  inversion Hlall2 as [|? ? Hi Hlall3]; subst.
  inversion Hlall3 as [|? ? HL _]; subst.
  apply nonempty_length in Hc, Hn, Hi, HL.
  assert (Kl : lookup_all (t_df1 t) (brief_name_col sel) = [lk] /\
               String.eqb "Brief_Link" (brief_name_col sel) = false).
  { rewrite Hllook in Hlk. cbn [flat_map] in Hlk.
    rewrite String.eqb_refl in Hlk.
    assert (Hlen := f_equal (@length _) Hlk).
    rewrite !length_app in Hlen. cbn [length] in Hlen.
    destruct (String.eqb (client_col sel) (brief_name_col sel)).
    { exfalso. lia. }
    destruct (String.eqb (brief_id_col sel) (brief_name_col sel)).
    { exfalso. lia. }
    destruct (String.eqb "Brief_Link" (brief_name_col sel)).
    { exfalso. lia. }
    cbn [app] in Hlk. rewrite !app_nil_r in Hlk. auto. }
  destruct Kl as [Kl Hneq].
  assert (El : lk = str_strip (astype_str s1)).
  { rewrite Hd1, lookup_all_setitem_other in Kl.
    - rewrite lookup_all_setitem_same in Kl.
      apply getitem_inv in Hs1. rewrite Hs1 in Kl. simpl in Kl.
      now inversion Kl.
    - intros C. rewrite C, String.eqb_refl in Hneq. discriminate. }
  try subst lk. try subst rk.
  repeat split; try assumption.
  - now apply getitem_inv.
  - now apply getitem_inv.
  - now apply key_values_inv.
  - now apply key_values_inv.
Qed.

(** *** The cleaned key columns *)

Lemma cleaned_map (s : Series) :
  str_strip (astype_str s) = map key_cell s.
Proof.
  unfold str_strip, astype_str. rewrite map_map. reflexivity.
Qed.

Lemma cleaned_nth_error (s : Series) (j : nat) (v : scalar) :
  nth_error (str_strip (astype_str s)) j = Some v <->
  exists x, nth_error s j = Some x /\ v = key_cell x.
Proof.
  rewrite cleaned_map, nth_error_map.
  destruct (nth_error s j) as [x|]; simpl; split.
  - intros E. inversion E. eauto.
  - intros (x' & E & ->). now inversion E.
  - discriminate.
  - intros (x' & E & _). discriminate.
Qed.

Lemma cleaned_In (s : Series) (v : scalar) :
  In v (str_strip (astype_str s)) <-> exists x, In x s /\ v = key_cell x.
Proof.
  rewrite cleaned_map, in_map_iff. split; intros (x & A & B); eauto.
Qed.

Lemma cleaned_partners (x : scalar) (s : Series) :
  length (filter (key_eqb (key_cell x)) (str_strip (astype_str s)))
  = partners x s.
Proof.
  rewrite cleaned_map. unfold partners.
  induction s as [|y rest IH]; simpl; auto.
  fold (same_key x y). destruct (same_key x y); simpl; now rewrite IH.
Qed.

(** A cleaned cell is a text or a missing value. *)
Lemma key_cell_cases (x : scalar) :
  (x = NaN /\ astype_str_keeps_na = true /\ key_cell x = NaN) \/
  (notna (astype_str_cell x) = true /\ key_cell x = SStr (key_text x)).
Proof.
  unfold key_cell, key_text, astype_str_cell.
  destruct x; simpl; auto.
  destruct astype_str_keeps_na; simpl; auto.
Qed.

Lemma key_cell_text (x : scalar) :
  notna x = true -> key_cell x = SStr (key_text x).
Proof. destruct x; simpl; intros E; try reflexivity. discriminate. Qed.

(** On cleaned cells the equality of keys is equality. *)
Lemma same_key_eq (x y : scalar) :
  same_key x y = true <-> key_cell x = key_cell y.
Proof.
  unfold same_key.
  destruct (key_cell_cases x) as [(_ & _ & ->)|(_ & ->)];
    destruct (key_cell_cases y) as [(_ & _ & ->)|(_ & ->)]; simpl.
  - tauto.
  - split; discriminate.
  - split; discriminate.
  - rewrite String.eqb_eq. split; [now intros ->|]. intros E. now inversion E.
Qed.

Lemma same_key_sym (x y : scalar) : same_key x y = same_key y x.
Proof.
  destruct (same_key x y) eqn:E; destruct (same_key y x) eqn:E'; auto.
  - apply same_key_eq in E. symmetry in E. apply same_key_eq in E.
    congruence.
  - apply same_key_eq in E'. symmetry in E'. apply same_key_eq in E'.
    congruence.
Qed.

(** Keys that are present are the same exactly when their trimmed string
    forms are the same text. *)
Lemma same_key_text (x y : scalar) :
  notna x = true -> notna y = true ->
  (same_key x y = true <-> PyStr.strip (py_str x) = PyStr.strip (py_str y)).
Proof.
  intros Hx Hy. rewrite same_key_eq, (key_cell_text x Hx), (key_cell_text y Hy).
  unfold key_text. split; [intros E; now inversion E|now intros ->].
Qed.

(** Where [astype(str)] writes the text nan, every cleaned cell is the
    trimmed string form of the value. *)
Lemma key_cell_before_pandas_3 (x : scalar) :
  astype_str_keeps_na = false -> key_cell x = SStr (PyStr.strip (py_str x)).
Proof.
  intros K. destruct (key_cell_cases x) as [(_ & K' & _)|(_ & E)];
    [congruence|exact E].
Qed.

(** Missing keys are the same, whatever the cleaning step writes for them. *)
Lemma same_key_missing : same_key NaN NaN = true.
Proof. now apply same_key_eq. Qed.

(** Two positions are joined exactly when the cleaning step leaves the same
    key in the two cells. *)
Lemma row_pairs_match (s1 s2 : Series) (j k : nat) :
  In (j, Some k) (row_pairs s1 s2) <->
  exists x y, nth_error s1 j = Some x /\ nth_error s2 k = Some y /\
              same_key x y = true.
Proof.
  unfold row_pairs. rewrite left_indexer_spec. simpl. split.
  - intros (v & Hv & w & Hw & E).
    apply cleaned_nth_error in Hv. destruct Hv as (x & Hx & ->).
    apply cleaned_nth_error in Hw. destruct Hw as (y & Hy & ->).
    eauto.
  - intros (x & y & Hx & Hy & E).
    exists (key_cell x). split.
    + apply cleaned_nth_error. eauto.
    + exists (key_cell y). split.
      * apply cleaned_nth_error. eauto.
      * exact E.
Qed.

Lemma row_pairs_alone (s1 s2 : Series) (j : nat) :
  In (j, None) (row_pairs s1 s2) <->
  exists x, nth_error s1 j = Some x /\
            forall y, In y s2 -> same_key x y = false.
Proof.
  unfold row_pairs. rewrite left_indexer_spec. simpl. split.
  - intros (v & Hv & Hall).
    apply cleaned_nth_error in Hv. destruct Hv as (x & Hx & ->).
    exists x. split; auto. intros y Hy.
    assert (Hin : In (key_cell y) (str_strip (astype_str s2)))
      by (apply cleaned_In; eauto).
    apply Hall in Hin. exact Hin.
  - intros (x & Hx & Hall). exists (key_cell x). split.
    + apply cleaned_nth_error. eauto.
    + intros v Hv. apply cleaned_In in Hv. destruct Hv as (y & Hy & ->).
      apply Hall. exact Hy.
Qed.

Lemma row_pairs_length (s1 s2 : Series) :
  length (row_pairs s1 s2)
  = list_sum (map (fun x => Nat.max 1 (partners x s2)) s1).
Proof.
  unfold row_pairs, left_indexer. rewrite left_indexer_from_length.
  rewrite (cleaned_map s1), map_map.
  apply f_equal, map_ext. intros x. now rewrite cleaned_partners.
Qed.

(** *** The merged frame *)

Lemma take_left_length (s : Series) (idx : list (nat * option nat)) :
  length (take_left s idx) = length idx.
Proof. unfold take_left. apply length_map. Qed.

Lemma take_right_length (s : Series) (idx : list (nat * option nat)) :
  length (take_right s idx) = length idx.
Proof.
  unfold take_right.
  destruct (existsb no_partner idx && forallb is_int s);
    now rewrite ?length_map.
Qed.

Lemma take_right_alone (s : Series) (idx : list (nat * option nat))
      (p j : nat) :
  nth_error idx p = Some (j, None) ->
  nth_error (take_right s idx) p = Some NaN.
Proof.
  intros Hp. unfold take_right.
  destruct (existsb no_partner idx && forallb is_int s);
    rewrite ?nth_error_map, Hp; reflexivity.
Qed.

Lemma merge_inv (left right m : DataFrame) (left_on right_on : label) :
  merge left right left_on right_on = inr m ->
  exists lk rk right',
    key_values left left_on = inr lk /\
    key_values right right_on = inr rk /\
    right' = (if String.eqb left_on right_on then drop_label right right_on
              else right) /\
    map snd m = map (fun s => take_left s (left_indexer lk rk)) (map snd left)
                ++ map (fun s => take_right s (left_indexer lk rk))
                     (map snd right') /\
    Forall (fun c => length (snd c) = length (left_indexer lk rk)) m.
Proof.
  unfold merge. intros E.
  apply bind_inr in E. destruct E as (rk & Hrk & E).
  apply bind_inr in E. destruct E as (lk & Hlk & E).
  inversion E as [Em]. clear E.
  exists lk, rk. eexists. repeat split; eauto.
  - rewrite map_app, !map_map. reflexivity.
  - apply Forall_app. split; apply Forall_forall; intros c Hc;
      apply in_map_iff in Hc; destruct Hc as (c0 & <- & _); simpl.
    + apply take_left_length.
    + apply take_right_length.
Qed.

Lemma Forall_len (m : DataFrame) (n : nat) :
  m <> [] -> Forall (fun c => length (snd c) = n) m -> len m = n.
Proof.
  destruct m as [|[l s] rest]; [congruence|].
  intros _ Hall. inversion Hall. auto.
Qed.

Lemma getitem_in_two_steps (df : DataFrame) (l : label)
      (cols : list Series) (s : Series) :
  getitem_raw df l = inr cols -> one_dimensional cols = inr s ->
  getitem df l = inr s.
Proof. unfold getitem. now intros ->. Qed.

Lemma build_result_inv (merged_df result0 : DataFrame) (sel : selectors) :
  build_result merged_df sel = inr result0 ->
  exists c n l a,
    getitem merged_df (client_col sel) = inr c /\
    getitem merged_df (brief_name_col sel) = inr n /\
    getitem merged_df "Brief_Link" = inr l /\
    getitem merged_df (issued_amount_col sel) = inr a /\
    result0 = [("Client_Name", c); ("Brief_Name", n); ("Brief_Link", l);
               ("Issued_Amount", a)].
Proof.
  unfold build_result. intros E.
  apply bind_inr in E. destruct E as (cs & Hc & E).
  apply bind_inr in E. destruct E as (ns & Hn & E).
  apply bind_inr in E. destruct E as (ls & Hl & E).
  apply bind_inr in E. destruct E as (xs & Ha & E).
  apply bind_inr in E. destruct E as (c & Hc' & E).
  apply bind_inr in E. destruct E as (n & Hn' & E).
  apply bind_inr in E. destruct E as (l & Hl' & E).
  apply bind_inr in E. destruct E as (a & Ha' & E).
  inversion E. exists c, n, l, a.
  repeat split; eauto using getitem_in_two_steps.
Qed.

Lemma build_result_inv_link (merged_df result0 : DataFrame)
      (sel : selectors) :
  build_result merged_df sel = inr result0 ->
  exists l, getitem merged_df "Brief_Link" = inr l.
Proof.
  intros E. apply build_result_inv in E.
  destruct E as (_ & _ & l & _ & _ & _ & Hl & _). eauto.
Qed.

Lemma build_result_eq (merged_df : DataFrame) (sel : selectors)
      (c n l a : Series) :
  getitem merged_df (client_col sel) = inr c ->
  getitem merged_df (brief_name_col sel) = inr n ->
  getitem merged_df "Brief_Link" = inr l ->
  getitem merged_df (issued_amount_col sel) = inr a ->
  build_result merged_df sel
  = inr [("Client_Name", c); ("Brief_Name", n); ("Brief_Link", l);
         ("Issued_Amount", a)].
Proof.
  intros Hc Hn Hl Ha. apply getitem_inv in Hc, Hn, Hl, Ha.
  unfold build_result, getitem_raw. now rewrite Hc, Hn, Hl, Ha.
Qed.

End PipelineFacts.

Section RowFacts.

Context {float : Type} `{Runtime float}.

Local Abbreviation DataFrame := (@DataFrame float).
Local Abbreviation Series := (@Series float).
Local Abbreviation scalar := (@scalar float).

Lemma join_row_nonempty (rk : Series) (i : nat) (k : scalar) :
  join_row rk i k <> [].
Proof.
  unfold join_row. destruct (positions k rk); simpl; discriminate.
Qed.

Lemma join_row_filter (rk : Series) (i j : nat) (k : scalar) :
  filter (fun p => Nat.eqb (fst p) j) (join_row rk i k)
  = if Nat.eqb i j then join_row rk i k else [].
Proof.
  assert (Hfst : Forall (fun p => fst p = i) (join_row rk i k)).
  { apply Forall_forall. intros p Hp. now apply join_row_spec in Hp. }
  induction Hfst as [|p l Hp _ IH]; simpl.
  - now destruct (Nat.eqb i j).
  - rewrite Hp, IH. now destruct (Nat.eqb i j).
Qed.

Lemma left_indexer_from_filter (lk rk : Series) (i0 j : nat) (x : scalar) :
  i0 <= j -> nth_error lk (j - i0) = Some x ->
  filter (fun p => Nat.eqb (fst p) j) (left_indexer_from lk rk i0) = join_row rk j x.
Proof.
  revert i0. induction lk as [|k rest IH]; intros i0 Hle Hn; simpl.
  - destruct (j - i0); discriminate.
  - rewrite filter_app, join_row_filter.
    destruct (Nat.eqb_spec i0 j) as [->|Hne].
    + rewrite Nat.sub_diag in Hn. simpl in Hn. inversion Hn; subst.
      rewrite <- (app_nil_r (join_row rk j x)) at 2. f_equal.
      apply filter_none.
      intros p Hp. apply left_indexer_from_spec in Hp.
      destruct Hp as (_ & Hlt & _). apply Nat.eqb_neq. lia.
    + simpl. apply IH; [lia|].
      replace (j - i0) with (S (j - S i0)) in Hn by lia. exact Hn.
Qed.

Lemma left_indexer_from_rows (lk rk : Series) (i0 j : nat) :
  In j (map fst (left_indexer_from lk rk i0)) <-> i0 <= j < i0 + length lk.
Proof.
  revert i0. induction lk as [|k rest IH]; intros i0; simpl.
  - split; [tauto|lia].
  - rewrite map_app, in_app_iff, IH, join_row_fst. split.
    + intros [Hin|Hin]; [apply repeat_spec in Hin|]; lia.
    + intros Hj. destruct (Nat.eq_dec i0 j) as [->|Hne]; [left|right; lia].
      pose proof (join_row_nonempty rk j k) as Hne.
      destruct (join_row rk j k); [congruence|]. simpl. now left.
Qed.

(** The rows of the merge that stem from the Primary record at [j]: one per
    partner, and one when there is none. *)
Lemma row_pairs_per_record (s1 s2 : Series) (j : nat) (x : scalar) :
  nth_error s1 j = Some x ->
  length (filter (fun p => Nat.eqb (fst p) j) (row_pairs s1 s2))
  = Nat.max 1 (partners x s2).
Proof.
  intros Hx. unfold row_pairs, left_indexer.
  rewrite (left_indexer_from_filter _ _ 0 j (key_cell x)).
  - rewrite join_row_length. now rewrite cleaned_partners.
  - lia.
  - rewrite Nat.sub_0_r. apply cleaned_nth_error. eauto.
Qed.

Lemma row_pairs_sorted (s1 s2 : Series) :
  StronglySorted le (map fst (row_pairs s1 s2)).
Proof. apply left_indexer_from_sorted. Qed.

Lemma row_pairs_rows (s1 s2 : Series) (j : nat) :
  In j (map fst (row_pairs s1 s2)) <-> j < length s1.
Proof.
  unfold row_pairs, left_indexer. rewrite left_indexer_from_rows.
  rewrite cleaned_map, length_map. lia.
Qed.

Lemma list_sum_ge (f : scalar -> nat) (s : Series) :
  (forall x, 1 <= f x) -> length s <= list_sum (map f s).
Proof.
  intros Hf. induction s as [|x rest IH]; simpl; auto.
  specialize (Hf x). lia.
Qed.

Lemma list_sum_ones (f : scalar -> nat) (s : Series) :
  (forall x, In x s -> f x = 1) -> list_sum (map f s) = length s.
Proof.
  induction s as [|x rest IH]; simpl; auto. intros Hf.
  rewrite Hf, IH; auto.
Qed.

(** How a successful run forms [merged_df]: every column is a column of the
    selected frames taken along the joined positions. *)
Lemma merged_along_row_pairs (df1 df2 : DataFrame) (sel : selectors)
      (t : tables) :
  generate df1 df2 sel = inr t ->
  exists s1 s2 left right,
    getitem df1 (brief_name_col sel) = inr s1 /\
    getitem df2 (brief_req_col sel) = inr s2 /\
    select (t_df1 t) [client_col sel; brief_name_col sel; brief_id_col sel;
                      "Brief_Link"] = inr left /\
    select (t_df2 t) [brief_req_col sel; issued_amount_col sel] = inr right /\
    left <> [] /\
    map snd (t_merged_df t)
    = map (fun s => take_left s (row_pairs s1 s2)) (map snd left)
      ++ map (fun s => take_right s (row_pairs s1 s2))
           (map snd (if String.eqb (brief_name_col sel) (brief_req_col sel)
                     then drop_label right (brief_req_col sel)
                     else right)) /\
    Forall (fun c => length (snd c) = length (row_pairs s1 s2))
           (t_merged_df t).
Proof.
  intros E. apply generate_keys in E.
  destruct E as (s1 & s2 & left & right &
                 Hs1 & Hs2 & _ & _ & Hl & Hr & Hlk & Hrk & Hm).
  exists s1, s2, left, right.
  apply merge_inv in Hm.
  destruct Hm as (lk & rk & right' & Hlk' & Hrk' & -> & Hmap & Hall).
  rewrite Hlk in Hlk'. rewrite Hrk in Hrk'.
  inversion Hlk'; inversion Hrk'; subst lk rk.
  repeat split; auto.
  intros ->. apply key_values_inv in Hlk. discriminate.
Qed.

Lemma merged_len (df1 df2 : DataFrame) (sel : selectors) (t : tables)
      (s1 s2 : Series) :
  generate df1 df2 sel = inr t ->
  getitem df1 (brief_name_col sel) = inr s1 ->
  getitem df2 (brief_req_col sel) = inr s2 ->
  len (t_merged_df t) = length (row_pairs s1 s2).
Proof.
  intros E Hs1 Hs2. apply merged_along_row_pairs in E.
  destruct E as (s1' & s2' & left & right & Hs1' & Hs2' & _ & _ & Hne & Hmap
                 & Hall).
  rewrite Hs1 in Hs1'. rewrite Hs2 in Hs2'.
  inversion Hs1'; inversion Hs2'; subst s1' s2'.
  apply Forall_len; auto.
  intros C. rewrite C in Hmap. simpl in Hmap.
  destruct left; [congruence|discriminate].
Qed.

End RowFacts.

Section SelectorFacts.

Context {float : Type} `{Runtime float}.

Local Abbreviation DataFrame := (@DataFrame float).
Local Abbreviation Series := (@Series float).
Local Abbreviation scalar := (@scalar float).

Lemma string_length_append (a b : string) :
  String.length (a ++ b) = String.length a + String.length b.
Proof. induction a as [|c a IH]; simpl; auto. Qed.

(** No label with a merge suffix is the label Brief_Link. *)
Lemma suffixed_is_not_brief_link (l : label) :
  (l ++ "_x")%string <> "Brief_Link" /\ (l ++ "_y")%string <> "Brief_Link".
Proof.
  split; intros E; assert (L := f_equal String.length E);
    rewrite string_length_append in L; simpl in L;
    assert (Hl : String.length l = 8) by lia.
  - pose proof (append_correct2 l "_x" 1) as G.
    rewrite Hl, E in G. simpl in G. discriminate.
  - pose proof (append_correct2 l "_y" 1) as G.
    rewrite Hl, E in G. simpl in G. discriminate.
Qed.

Lemma lookup_all_renamed (cols : DataFrame) (ov : label -> bool)
      (sfx : string) (g : Series -> Series) (l : label) :
  (forall l', (l' ++ sfx)%string <> l) ->
  lookup_all (map (fun c => (if ov (fst c) then (fst c ++ sfx)%string
                             else fst c, g (snd c))) cols) l
  = if ov l then [] else map g (lookup_all cols l).
Proof.
  intros Hsfx. unfold lookup_all.
  induction cols as [|[l' s'] rest IH].
  - simpl. now destruct (ov l).
  - cbn [map filter fst snd]. destruct (ov l') eqn:O.
    + destruct (String.eqb_spec (l' ++ sfx) l) as [E|_].
      { now apply Hsfx in E. }
      rewrite IH. destruct (String.eqb_spec l' l) as [->|_]; [|reflexivity].
      now rewrite O.
    + destruct (String.eqb_spec l' l) as [->|_]; cbn [map snd]; rewrite IH;
        [|reflexivity].
      now rewrite O.
Qed.

(** The columns of a merged frame under a label that no suffix produces. *)
Lemma merge_lookup (left right m : DataFrame) (left_on right_on l : label) :
  merge left right left_on right_on = inr m ->
  (forall l', (l' ++ "_x")%string <> l) ->
  (forall l', (l' ++ "_y")%string <> l) ->
  lookup_all m l = [] \/
  length (lookup_all m l)
  = length (lookup_all left l)
    + length (lookup_all (if String.eqb left_on right_on
                          then drop_label right right_on else right) l).
Proof.
  unfold merge. intros E Hx Hy.
  apply bind_inr in E. destruct E as (rk & _ & E).
  apply bind_inr in E. destruct E as (lk & _ & E).
  inversion E as [Em]. clear E Em.
  set (right' := if String.eqb left_on right_on
                 then drop_label right right_on else right).
  set (ov := fun l0 => has_label left l0 && has_label right' l0).
  pose proof (lookup_all_renamed left ov "_x"
                (fun s => take_left s (left_indexer lk rk)) l Hx) as Rl.
  pose proof (lookup_all_renamed right' ov "_y"
                (fun s => take_right s (left_indexer lk rk)) l Hy) as Rr.
  cbv beta in Rl, Rr. rewrite lookup_all_app.
  subst ov. cbv beta in *. rewrite Rl, Rr.
  destruct (has_label left l && has_label right' l); [now left|right].
  now rewrite length_app, !length_map.
Qed.

(** The key label selects one column of the selection of the Primary frame
    only if no other selected label equals it. *)
Lemma key_in_selection (df left : DataFrame) (c n i : label) (lk : Series) :
  select df [c; n; i; "Brief_Link"] = inr left ->
  key_values left n = inr lk ->
  lookup_all df n = [lk] /\ c <> n /\ i <> n /\ n <> "Brief_Link".
Proof.
  intros Hl Hlk. apply key_values_inv in Hlk.
  destruct (select_inv _ _ _ Hl) as [Hall Hlook].
  inversion Hall as [|? ? Hc Hall1]; subst.
  inversion Hall1 as [|? ? Hn Hall2]; subst.
  inversion Hall2 as [|? ? Hi Hall3]; subst.
  inversion Hall3 as [|? ? HL _]; subst.
  apply nonempty_length in Hc, Hn, Hi, HL.
  rewrite Hlook in Hlk. cbn [flat_map] in Hlk.
  rewrite String.eqb_refl in Hlk.
  assert (Hlen := f_equal (@length _) Hlk).
  rewrite !length_app in Hlen. cbn [length] in Hlen.
  destruct (String.eqb_spec c n) as [->|Hcn]; [exfalso; lia|].
  destruct (String.eqb_spec i n) as [->|Hin]; [exfalso; lia|].
  destruct (String.eqb_spec "Brief_Link" n) as [<-|HLn]; [exfalso; lia|].
  cbn [app] in Hlk. rewrite !app_nil_r in Hlk. auto.
Qed.

(** A run that builds the tables found every selected column in its frame. *)
Lemma generate_selectors_present (df1 df2 : DataFrame) (sel : selectors)
      (t : tables) :
  generate df1 df2 sel = inr t ->
  has_label df1 (client_col sel) = true /\
  has_label df1 (brief_name_col sel) = true /\
  has_label df1 (brief_id_col sel) = true /\
  has_label df2 (brief_req_col sel) = true /\
  has_label df2 (issued_amount_col sel) = true.
Proof.
  intros E. apply generate_inv in E.
  destruct E as (s1 & s2 & ids & left & right & r0 &
                 Hs1 & Hs2 & Hids & Hd1 & Hd2 & Hl & Hr & Hm & Hb & _).
  assert (P : forall (df : DataFrame) l,
             lookup_all df l <> [] -> has_label df l = true).
  { intros df l Hne. destruct (has_label df l) eqn:Hh; auto.
    apply has_label_lookup in Hh. contradiction. }
  apply getitem_inv in Hs1, Hs2, Hids.
  assert (Pn : lookup_all df1 (brief_name_col sel) <> []) by congruence.
  assert (Pr : lookup_all df2 (brief_req_col sel) <> []) by congruence.
  assert (Hm' := Hm). unfold merge in Hm'.
  apply bind_inr in Hm'. destruct Hm' as (rk & _ & Hm').
  apply bind_inr in Hm'. destruct Hm' as (lk & Hlk & _).
  destruct (key_in_selection _ _ _ _ _ _ Hl Hlk) as (_ & Hcn & Hin & HnL).
  destruct (select_inv _ _ _ Hl) as [Hlall Hllook].
  destruct (select_inv _ _ _ Hr) as [Hrall _].
  inversion Hlall as [|? ? Hc _]; subst.
  inversion Hrall as [|? ? _ Hrall1]; subst.
  inversion Hrall1 as [|? ? Ha _]; subst.
  repeat split; apply P; auto.
  - (* the client column *)
    intros Habs.
    destruct (String.eqb_spec (client_col sel) "Brief_Link") as [EL|NL].
    + (* it is Brief_Link: the merged frame has no single such column *)
      apply build_result_inv_link in Hb. destruct Hb as (l & Hb).
      apply getitem_inv in Hb.
      destruct (merge_lookup _ _ _ _ _ "Brief_Link" Hm) as [Hnone|Hlen].
      * intros l'. apply suffixed_is_not_brief_link.
      * intros l'. apply suffixed_is_not_brief_link.
      * congruence.
      * rewrite Hb, Hllook in Hlen. cbn [flat_map] in Hlen.
        rewrite EL, String.eqb_refl in Hlen.
        rewrite EL in Hc. apply nonempty_length in Hc.
        rewrite !length_app in Hlen. simpl length in Hlen. lia.
    + rewrite Hd1 in Hc.
      rewrite lookup_all_setitem_other in Hc by assumption.
      rewrite lookup_all_setitem_other in Hc by assumption.
      contradiction.
  - (* the Brief ID column *)
    intros Habs.
    destruct (String.eqb_spec (brief_id_col sel) (brief_name_col sel))
      as [Ein|Nin]; [congruence|].
    rewrite lookup_all_setitem_other in Hids by assumption. congruence.
  - (* the amount column *)
    intros Habs.
    destruct (String.eqb_spec (issued_amount_col sel) (brief_req_col sel))
      as [Ear|Nar]; [congruence|].
    rewrite Hd2 in Ha.
    rewrite lookup_all_setitem_other in Ha by assumption. contradiction.
Qed.

End SelectorFacts.

Section Totality.

Context {float : Type} `{Runtime float}.

Local Abbreviation DataFrame := (@DataFrame float).
Local Abbreviation Series := (@Series float).
Local Abbreviation scalar := (@scalar float).

Lemma once_inv (df : DataFrame) (l : label) :
  once df l = true -> exists s, lookup_all df l = [s].
Proof.
  unfold once. intros E. apply Nat.eqb_eq in E.
  destruct (lookup_all df l) as [|s [|s' rest]]; try discriminate. eauto.
Qed.

Lemma drop_empty_links_total (c n l a : Series) :
  drop_empty_links [("Client_Name", c); ("Brief_Name", n); ("Brief_Link", l);
                    ("Issued_Amount", a)]
  = inr (filter_rows [("Client_Name", c); ("Brief_Name", n);
                      ("Brief_Link", l); ("Issued_Amount", a)]
                     (map ne_empty l)).
Proof. reflexivity. Qed.

Ltac eqb_false :=
  repeat match goal with
         | H : String.eqb ?x ?y = false |- context [String.eqb ?x ?y] =>
             rewrite H
         end;
  rewrite ?String.eqb_refl.

(** Lines 80 to 94 on a selection whose labels do not collide. *)
Lemma merge_and_build (L : label) (c n i r a : label)
      (sc sn si sl sr sa : Series) :
  String.eqb c n = false -> String.eqb c i = false ->
  String.eqb c L = false -> String.eqb c a = false ->
  String.eqb c r = false ->
  String.eqb n i = false -> String.eqb n L = false ->
  String.eqb n a = false ->
  String.eqb i L = false -> String.eqb i a = false ->
  String.eqb i r = false ->
  String.eqb L a = false -> String.eqb L r = false ->
  String.eqb r a = false ->
  exists m vc vn vl va,
    merge [(c, sc); (n, sn); (i, si); (L, sl)] [(r, sr); (a, sa)] n r = inr m /\
    lookup_all m c = [vc] /\ lookup_all m n = [vn] /\
    lookup_all m L = [vl] /\ lookup_all m a = [va].
Proof.
  intros Hcn Hci HcL Hca Hcr Hni HnL Hna HiL Hia Hir HLa HLr Hra.
  assert (Hnc := Hcn). rewrite String.eqb_sym in Hnc.
  assert (Hic := Hci). rewrite String.eqb_sym in Hic.
  assert (HLc := HcL). rewrite String.eqb_sym in HLc.
  assert (Hac := Hca). rewrite String.eqb_sym in Hac.
  assert (Hrc := Hcr). rewrite String.eqb_sym in Hrc.
  assert (Hin := Hni). rewrite String.eqb_sym in Hin.
  assert (HLn := HnL). rewrite String.eqb_sym in HLn.
  assert (Han := Hna). rewrite String.eqb_sym in Han.
  assert (HLi := HiL). rewrite String.eqb_sym in HLi.
  assert (Hai := Hia). rewrite String.eqb_sym in Hai.
  assert (Hri := Hir). rewrite String.eqb_sym in Hri.
  assert (HaL := HLa). rewrite String.eqb_sym in HaL.
  assert (HrL := HLr). rewrite String.eqb_sym in HrL.
  assert (Har := Hra). rewrite String.eqb_sym in Har.
  unfold merge, key_values, lookup_all, has_label, columns, drop_label.
  cbn [filter map fst snd]. eqb_false. cbn [map snd bind ret raise].
  destruct (String.eqb n r) eqn:Hnr.
  - apply String.eqb_eq in Hnr. subst r.
    cbn [filter map fst snd negb existsb orb andb]. eqb_false.
    cbn [filter map fst snd negb existsb orb andb app]. eqb_false.
    cbn [filter map fst snd negb existsb orb andb app]. eqb_false.
    do 5 eexists. split; [reflexivity|].
    cbn [filter map fst snd]. eqb_false. cbn [filter map fst snd].
    repeat split; reflexivity.
  - assert (Hrn := Hnr). rewrite String.eqb_sym in Hrn.
    cbn [filter map fst snd negb existsb orb andb]. eqb_false.
    cbn [filter map fst snd negb existsb orb andb app]. eqb_false.
    cbn [filter map fst snd negb existsb orb andb app]. eqb_false.
    do 5 eexists. split; [reflexivity|].
    cbn [filter map fst snd]. eqb_false. cbn [filter map fst snd].
    repeat split; reflexivity.
Qed.

(** With a well chosen selection lines 68 to 97 build the four tables. *)
Lemma generate_succeeds (df1 df2 : DataFrame) (sel : selectors) :
  well_chosen df1 df2 sel = true -> exists t, generate df1 df2 sel = inr t.
Proof.
  unfold well_chosen. intros W.
  repeat (apply andb_prop in W; let W' := fresh "W" in destruct W as [W W']).
  apply once_inv in W. destruct W as [sc Hc].
  apply once_inv in W6. destruct W6 as [sn Hn].
  apply once_inv in W5. destruct W5 as [si Hi].
  apply once_inv in W4. destruct W4 as [sr Hr].
  apply once_inv in W3. destruct W3 as [sa Ha].
  apply Nat.leb_le in W2.
  cbn [distinct existsb] in W1, W0.
  rewrite ?andb_true_r, ?orb_false_r in W1, W0.
  repeat (apply andb_prop in W1; let W' := fresh "D" in destruct W1 as [W' W1]).
  repeat (apply andb_prop in W0; let W' := fresh "E" in destruct W0 as [W' W0]).
  rewrite negb_true_iff in *.
  repeat match goal with
         | X : (_ || _) = false |- _ =>
             apply orb_false_iff in X; let X' := fresh "O" in destruct X as [X' X]
         end.
  remember "Brief_Link" as L eqn:HL.
  set (c := client_col sel) in *. set (n := brief_name_col sel) in *.
  set (i := brief_id_col sel) in *. set (r := brief_req_col sel) in *.
  set (a := issued_amount_col sel) in *.
  assert (Nin : i <> n).
  { intros ->. rewrite String.eqb_sym, String.eqb_refl in *. discriminate. }
  assert (NLn : L <> n).
  { intros ->. rewrite String.eqb_refl in *. discriminate. }
  assert (Ncn : c <> n).
  { intros ->. rewrite String.eqb_refl in *. discriminate. }
  assert (NcL : c <> L).
  { intros ->. rewrite String.eqb_refl in *. discriminate. }
  assert (NiL : i <> L).
  { intros ->. rewrite String.eqb_refl in *. discriminate. }
  assert (Nar : a <> r).
  { intros ->. rewrite String.eqb_refl in *. discriminate. }
  set (k1 := (str_strip (astype_str sn) : Series)).
  set (k2 := (str_strip (astype_str sr) : Series)).
  set (links := (map brief_link (astype_str si) : Series)).
  set (d1 := setitem df1 n k1).
  set (d2 := setitem df2 r k2).
  set (d1' := setitem d1 L links).
  assert (Lc : lookup_all d1' c = [sc]).
  { unfold d1', d1. now rewrite !lookup_all_setitem_other. }
  assert (Ln : lookup_all d1' n = [k1]).
  { unfold d1', d1. rewrite lookup_all_setitem_other by congruence.
    now rewrite lookup_all_setitem_same, Hn. }
  assert (Li : lookup_all d1' i = [si]).
  { unfold d1', d1. now rewrite !lookup_all_setitem_other. }
  assert (LL : lookup_all d1' L = [links]).
  { unfold d1', d1. rewrite lookup_all_setitem_same.
    rewrite lookup_all_setitem_other by assumption.
    destruct (lookup_all df1 L) as [|x [|y rest]]; auto.
    simpl in W2. lia. }
  assert (Lr : lookup_all d2 r = [k2]).
  { unfold d2. now rewrite lookup_all_setitem_same, Hr. }
  assert (La : lookup_all d2 a = [sa]).
  { unfold d2. now rewrite lookup_all_setitem_other. }
  assert (C1 : clean df1 n = inr d1).
  { unfold clean. now rewrite (proj2 (getitem_inv _ _ _) Hn). }
  assert (C2 : clean df2 r = inr d2).
  { unfold clean. now rewrite (proj2 (getitem_inv _ _ _) Hr). }
  assert (AL : add_links d1 sel = inr d1').
  { unfold add_links. fold i. rewrite <- HL.
    assert (G : getitem d1 i = inr si).
    { apply getitem_inv. unfold d1. now rewrite lookup_all_setitem_other. }
    now rewrite G. }
  destruct (merge_and_build L c n i r a sc k1 si links k2 sa)
    as (m & vc & vn & vl & va & Hm & Mc & Mn & ML & Ma);
    try assumption;
    try (rewrite String.eqb_sym; assumption).
  assert (MF : merge_frames d1' d2 sel = inr m).
  { unfold merge_frames. fold c n i r a. rewrite <- HL.
    rewrite (select_eq d1' [c; n; i; L]),
            (select_eq d2 [r; a]).
    - cbn [flat_map bind]. rewrite Lc, Ln, Li, LL, Lr, La. exact Hm.
    - repeat constructor; congruence.
    - repeat constructor; congruence. }
  assert (BR : build_result m sel
               = inr [("Client_Name", vc); ("Brief_Name", vn);
                      (L, vl); ("Issued_Amount", va)]).
  { rewrite HL in ML |- *.
    apply build_result_eq; apply getitem_inv; assumption. }
  unfold generate. fold n r. rewrite C1. cbn [bind]. rewrite C2. cbn [bind].
  rewrite AL. cbn [bind]. rewrite MF. cbn [bind]. rewrite BR. cbn [bind].
  rewrite HL, drop_empty_links_total. cbn [bind]. eexists. reflexivity.
Qed.

End Totality.

(** * The join *)

Section JoinProperties.

Context {float : Type} `{Runtime float}.

Local Abbreviation DataFrame := (@DataFrame float).
Local Abbreviation Series := (@Series float).
Local Abbreviation scalar := (@scalar float).

(** C8. The Primary-sourced columns of [merged_df] are the selected columns
    of the Primary frame read along a list of positions that never goes
    backwards and visits every Primary record: the joined rows keep the
    order of the Primary records. *)
Theorem C8_primary_order_preserved
        (df1 df2 : DataFrame) (sel : selectors) (t : tables) :
  generate df1 df2 sel = inr t ->
  exists s1 s2 left from,
    getitem df1 (brief_name_col sel) = inr s1 /\
    getitem df2 (brief_req_col sel) = inr s2 /\
    select (t_df1 t) [client_col sel; brief_name_col sel; brief_id_col sel;
                      "Brief_Link"] = inr left /\
    from = map fst (row_pairs s1 s2) /\
    firstn (length left) (map snd (t_merged_df t))
    = map (fun s => map (fun j => nth j s NaN) from) (map snd left) /\
    StronglySorted le from /\
    forall j, In j from <-> j < length s1.
Proof.
  intros E. apply merged_along_row_pairs in E.
  destruct E as (s1 & s2 & left & right & Hs1 & Hs2 & Hl & _ & _ & Hmap & _).
  exists s1, s2, left, (map fst (row_pairs s1 s2)).
  refine (conj Hs1 (conj Hs2 (conj Hl (conj eq_refl (conj _ (conj _ _)))))).
  - rewrite Hmap.
    rewrite firstn_app, firstn_all2 by (rewrite !length_map; lia).
    rewrite !length_map, Nat.sub_diag. simpl. rewrite app_nil_r.
    apply map_ext. intros s. unfold take_left. now rewrite map_map.
  - apply row_pairs_sorted.
  - intros j. apply row_pairs_rows.
Qed.

End JoinProperties.

(** * The unmatched records *)

Section UnmatchedProperties.

Context {float : Type} `{Runtime float}.

Local Abbreviation DataFrame := (@DataFrame float).
Local Abbreviation Series := (@Series float).
Local Abbreviation scalar := (@scalar float).

(** The mask [~s.isin(v)] over two cleaned key columns. *)
Lemma unmatched_mask_nth (s v : Series) (j : nat) (x : scalar) :
  nth_error s j = Some x ->
  nth_error (map negb (isin (str_strip (astype_str s))
                            (str_strip (astype_str v)))) j
  = Some (negb (existsb (same_key x) v)).
Proof.
  intros Hx. unfold isin.
  rewrite !cleaned_map, !map_map, nth_error_map, Hx. simpl.
  do 2 f_equal. induction v as [|y rest IH]; simpl; auto.
  now rewrite IH.
Qed.

Lemma unmatched_mask_length (s v : Series) :
  length (map negb (isin (str_strip (astype_str s))
                         (str_strip (astype_str v)))) = length s.
Proof. unfold isin. now rewrite !length_map, cleaned_map, length_map. Qed.

Lemma some_equal (x : scalar) (v : Series) :
  existsb (same_key x) v = true <->
  exists k y, nth_error v k = Some y /\ same_key x y = true.
Proof.
  rewrite existsb_exists. split.
  - intros (y & Hy & E). apply In_nth_error in Hy. destruct Hy as [k Hk].
    eauto.
  - intros (k & y & Hk & E). exists y. split; [|exact E].
    eapply nth_error_In; eauto.
Qed.

Lemma none_equal (x : scalar) (v : Series) :
  existsb (same_key x) v = false <->
  forall y, In y v -> same_key x y = false.
Proof.
  split.
  - intros E y Hy. destruct (same_key x y) eqn:C; [|reflexivity].
    assert (T : existsb (same_key x) v = true).
    { apply existsb_exists. exists y. split; auto. }
    congruence.
  - intros Hall.
    destruct (existsb (same_key x) v) eqn:E; auto.
    apply existsb_exists in E. destruct E as (y & Hy & E).
    rewrite (Hall y Hy) in E. discriminate.
Qed.

Lemma unmatched_eq (df other : DataFrame) (col other_col : label)
      (s v : Series) :
  getitem df col = inr s -> getitem other other_col = inr v ->
  unmatched df col other other_col
  = inr (filter_rows df (map negb (isin s v))).
Proof. unfold unmatched. now intros -> ->. Qed.

End UnmatchedProperties.

(** * The cleaning step and the links *)

Section CleaningProperties.

Context {float : Type} `{Runtime float}.

Local Abbreviation DataFrame := (@DataFrame float).
Local Abbreviation Series := (@Series float).
Local Abbreviation scalar := (@scalar float).

Lemma columns_setitem_present (df : DataFrame) (l : label) (s : Series) :
  lookup_all df l <> [] -> columns (setitem df l s) = columns df.
Proof.
  intros Hne. unfold setitem. fold (has_label df l).
  destruct (has_label df l) eqn:E.
  - unfold columns. rewrite map_map. apply map_ext_in. intros [l' s'] _.
    simpl. destruct (String.eqb l' l) eqn:El; auto.
    apply String.eqb_eq in El. now subst.
  - apply has_label_lookup in E. contradiction.
Qed.

Lemma In_setitem (df : DataFrame) (l : label) (s : Series) :
  In (l, s) (setitem df l s).
Proof.
  unfold setitem. destruct (existsb (String.eqb l) (columns df)) eqn:E.
  - apply existsb_exists in E. destruct E as (l' & Hin & El).
    apply String.eqb_eq in El. subst l'.
    unfold columns in Hin. apply in_map_iff in Hin.
    destruct Hin as ([l0 s0] & Hl & Hin). simpl in Hl. subst l0.
    apply in_map_iff. exists (l, s0). simpl.
    now rewrite String.eqb_refl.
  - apply in_or_app. right. now left.
Qed.

Lemma brief_link_text (x : scalar) :
  brief_link (astype_str_cell x) = (SStr (link_text x) : scalar).
Proof.
  unfold brief_link, link_text, key_text, astype_str_cell.
  destruct x; simpl;
    try (now destruct (String.eqb (PyStr.strip _) ""));
    try (now destruct b; destruct (String.eqb (PyStr.strip _) "")).
  destruct astype_str_keeps_na; simpl; [reflexivity|].
  now destruct (String.eqb (PyStr.strip "nan") "").
Qed.

End CleaningProperties.

(** * The result table *)

Section ResultProperties.

Context {float : Type} `{Runtime float}.

Local Abbreviation DataFrame := (@DataFrame float).
Local Abbreviation Series := (@Series float).
Local Abbreviation scalar := (@scalar float).

Lemma lookup_all_In (df : DataFrame) (l : label) (s : Series) :
  In s (lookup_all df l) -> In (l, s) df.
Proof.
  unfold lookup_all. rewrite in_map_iff.
  intros ([l' s'] & <- & Hin). apply filter_In in Hin.
  destruct Hin as [Hin El]. simpl in El. apply String.eqb_eq in El.
  now subst.
Qed.

Lemma getitem_In (df : DataFrame) (l : label) (s : Series) :
  getitem df l = inr s -> In (l, s) df.
Proof.
  intros E. apply getitem_inv in E. apply lookup_all_In. rewrite E. now left.
Qed.

Lemma rows_cons (A B C D : label) (x y z w : scalar) (c n l a : Series) :
  rows [(A, x :: c); (B, y :: n); (C, z :: l); (D, w :: a)]
  = [x; y; z; w] :: rows [(A, c); (B, n); (C, l); (D, a)].
Proof.
  unfold rows. simpl. f_equal. rewrite <- seq_shift, map_map. reflexivity.
Qed.

(** Filtering four columns of one length by a mask read off the third is
    filtering the records. *)
Lemma rows_filter_rows (A B C D : label) (f : scalar -> bool)
      (c n l a : Series) :
  length c = length l -> length n = length l -> length a = length l ->
  rows (filter_rows [(A, c); (B, n); (C, l); (D, a)] (map f l))
  = filter (fun r => f (nth 2 r NaN)) (rows [(A, c); (B, n); (C, l); (D, a)]).
Proof.
  revert c n a. induction l as [|z l IH]; intros c n a Hc Hn Ha.
  - destruct c; [|discriminate]. reflexivity.
  - destruct c as [|x c]; [discriminate|].
    destruct n as [|y n]; [discriminate|].
    destruct a as [|w a]; [discriminate|].
    simpl in Hc, Hn, Ha.
    rewrite rows_cons. simpl filter. rewrite <- IH by lia.
    unfold filter_rows. simpl. destruct (f z); [|reflexivity].
    now rewrite rows_cons.
Qed.


End ResultProperties.

(** * One run of [main] *)

Section MainProperties.

Context {float : Type} `{Runtime float}.
Context {upload : Type}.
Variable read_csv : upload -> res (@DataFrame float).

Local Abbreviation DataFrame := (@DataFrame float).
Local Abbreviation Series := (@Series float).
Local Abbreviation scalar := (@scalar float).

Lemma process_failed (df1 df2 : DataFrame) (sel : selectors) (e : exn) :
  generate df1 df2 sel = inl e -> process df1 df2 sel = ([], inl e).
Proof. unfold process. now intros ->. Qed.

(** Once the result table is built nothing raises any more: the results
    section is issued whole. *)
Lemma process_succeeded (df1 df2 : DataFrame) (sel : selectors) (t : tables) :
  generate df1 df2 sel = inr t ->
  exists calls,
    process df1 df2 sel = (calls, inr tt) /\
    existsb is_error_call calls = false /\
    In (st_dataframe (t_result_df t)) calls /\
    In (st_download_button "📥 Download Results as CSV" (t_result_df t)
          "bulbshare_links_matched.csv" "text/csv") calls.
Proof.
  intros E. unfold process. rewrite E.
  apply generate_keys in E.
  destruct E as (s1 & s2 & left & right & _ & _ & Hk1 & Hk2 & Hl & Hr & _).
  apply select_inv in Hl. destruct Hl as [Hl _].
  apply select_inv in Hr. destruct Hr as [Hr _].
  inversion Hl as [|? ? Hc Hl1]; subst.
  inversion Hl1 as [|? ? Hn _]; subst.
  inversion Hr as [|? ? Hq Hr1]; subst.
  inversion Hr1 as [|? ? Ha _]; subst.
  set (m1 := map negb (isin (str_strip (astype_str s1))
                            (str_strip (astype_str s2)))).
  set (m2 := map negb (isin (str_strip (astype_str s2))
                            (str_strip (astype_str s1)))).
  destruct (select_total (filter_rows (t_df1 t) m1)
              [client_col sel; brief_name_col sel]) as [shown1 Hshown1].
  { repeat constructor; rewrite lookup_all_filter_rows;
      intros C; apply map_eq_nil in C; contradiction. }
  destruct (select_total (filter_rows (t_df2 t) m2)
              [brief_req_col sel; issued_amount_col sel]) as [shown2 Hshown2].
  { repeat constructor; rewrite lookup_all_filter_rows;
      intros C; apply map_eq_nil in C; contradiction. }
  cbn [lift ui_bind emit fst snd app].
  rewrite (unmatched_eq _ _ _ _ _ _ Hk1 Hk2).
  rewrite (unmatched_eq _ _ _ _ _ _ Hk2 Hk1).
  fold m1 m2. cbn [ui_bind app].
  destruct (0 <? len (filter_rows (t_df1 t) m1))%nat;
    destruct (0 <? len (filter_rows (t_df2 t) m2))%nat;
    cbn [orb ui_bind ui_ret emit lift app];
    rewrite ?Hshown1, ?Hshown2; cbn [ui_bind ui_ret emit lift app];
    eexists; (split; [reflexivity|]);
    (split; [reflexivity|]); split; simpl; tauto.
Qed.

Lemma try_block_read (csv1 csv2 : upload) (sel : selectors) (clicked : bool)
      (df1 df2 : DataFrame) :
  read_csv csv1 = inr df1 -> read_csv csv2 = inr df2 ->
  exists pre,
    try_block read_csv csv1 csv2 sel clicked
    = (pre ++ fst (if clicked then process df1 df2 sel else ui_ret tt),
       snd (if clicked then process df1 df2 sel else ui_ret tt)) /\
    existsb is_error_call pre = false /\
    existsb is_result_call pre = false.
Proof.
  intros E1 E2. unfold try_block, preview. rewrite E1, E2.
  destruct clicked; cbn [lift ui_bind ui_ret emit app fst snd];
    [destruct (process df1 df2 sel) as [tr r]|];
    cbn [lift ui_bind ui_ret emit app fst snd];
    match goal with
    | |- exists pre, (?x, _) = _ /\ _ => exists (firstn 18 x)
    end;
    (split; [reflexivity|]); split; reflexivity.
Qed.

(** C10. A run on two uploads either fails, at [pd.read_csv] or while the
    tables are built, and then shows the message of the exception and issues
    no call of the results section; or it raises nothing and shows no error,
    and when the button was pressed the result table is shown and offered for
    download, which happens only if every selected column is present in its
    frame. *)
Theorem C10_all_or_nothing
        (csv1 csv2 : upload) (sel : selectors) (clicked : bool) :
  let calls := main read_csv (Some csv1) (Some csv2) sel clicked in
  (exists e,
     (read_csv csv1 = inl e \/
      (exists df1, read_csv csv1 = inr df1 /\ read_csv csv2 = inl e) \/
      (exists df1 df2,
         read_csv csv1 = inr df1 /\ read_csv csv2 = inr df2 /\
         clicked = true /\ generate df1 df2 sel = inl e)) /\
     In (st_error ("❌ Error processing files: " ++ str_exn e)) calls /\
     existsb is_result_call calls = false)
  \/
  (exists df1 df2,
     read_csv csv1 = inr df1 /\ read_csv csv2 = inr df2 /\
     existsb is_error_call calls = false /\
     match clicked with
     | false => existsb is_result_call calls = false
     | true =>
         exists t,
           generate df1 df2 sel = inr t /\
           In (st_dataframe (t_result_df t)) calls /\
           In (st_download_button "📥 Download Results as CSV" (t_result_df t)
                 "bulbshare_links_matched.csv" "text/csv") calls /\
           has_label df1 (client_col sel) = true /\
           has_label df1 (brief_name_col sel) = true /\
           has_label df1 (brief_id_col sel) = true /\
           has_label df2 (brief_req_col sel) = true /\
           has_label df2 (issued_amount_col sel) = true
     end).
Proof.
  intros calls. subst calls. unfold main.
  destruct (read_csv csv1) as [e|df1] eqn:E1.
  { left. exists e. split; [now left|].
    unfold try_block. rewrite E1. cbn [lift ui_bind].
    split; [|reflexivity]. apply in_or_app. right. simpl. now left. }
  destruct (read_csv csv2) as [e|df2] eqn:E2.
  { left. exists e. split; [right; left; eauto|].
    unfold try_block. rewrite E1, E2. cbn [lift ui_bind].
    split; [|reflexivity]. apply in_or_app. right. simpl. now left. }
  destruct (try_block_read csv1 csv2 sel clicked df1 df2 E1 E2)
    as (pre & Htry & Hpe & Hpr).
  rewrite Htry. destruct clicked.
  - destruct (generate df1 df2 sel) as [e|t] eqn:G.
    + left. exists e. split; [right; right; exists df1, df2; auto|].
      rewrite (process_failed _ _ _ _ G). cbn [fst snd].
      rewrite app_nil_r. split.
      * apply in_or_app. right. apply in_or_app. right. simpl. now left.
      * rewrite !existsb_app, Hpr. reflexivity.
    + right. exists df1, df2. split; [reflexivity|]. split; [reflexivity|].
      destruct (process_succeeded _ _ _ _ G) as (pc & Hp & Hpce & Hd & Hb).
      rewrite Hp. cbn [fst snd]. split.
      * rewrite !existsb_app, Hpe, Hpce. reflexivity.
      * exists t. split; [exact G|].
        split; [|split; [|exact (generate_selectors_present _ _ _ _ G)]];
          apply in_or_app; right; apply in_or_app; right; assumption.
  - right. exists df1, df2. split; [reflexivity|]. split; [reflexivity|].
    cbn [fst snd ui_ret]. rewrite app_nil_r.
    split; rewrite !existsb_app; [rewrite Hpe|rewrite Hpr]; reflexivity.
Qed.

End MainProperties.

(** * The selections *)

Section SelectionProperties.

Context {float : Type} `{Runtime float}.

Local Abbreviation DataFrame := (@DataFrame float).
Local Abbreviation Series := (@Series float).
Local Abbreviation scalar := (@scalar float).

Lemma label_once (df : DataFrame) (l : label) :
  NoDup (columns df) -> has_label df l = true ->
  exists s, lookup_all df l = [s].
Proof.
  induction df as [|[l0 s0] rest IH]; simpl.
  - intros _ E. discriminate.
  - intros Hnd Hl. inversion Hnd as [|? ? Hnotin Hnd']; subst.
    unfold lookup_all. simpl.
    destruct (String.eqb_spec l0 l) as [->|Hne].
    + exists s0. simpl. f_equal.
      assert (Hno : has_label rest l = false).
      { unfold has_label. destruct (existsb (String.eqb l) (columns rest)) eqn:E;
          auto.
        apply existsb_exists in E. destruct E as (l' & Hin & El).
        apply String.eqb_eq in El. subst l'. contradiction. }
      apply has_label_lookup in Hno. exact Hno.
    + unfold has_label in Hl. simpl in Hl.
      rewrite (proj2 (String.eqb_neq l l0)) in Hl by congruence.
      simpl in Hl. apply IH; assumption.
Qed.

Lemma generate_distinct_keys
        (df1 df2 : DataFrame) (sel : selectors) (t : tables) :
  generate df1 df2 sel = inr t ->
  client_col sel <> brief_name_col sel /\
  brief_id_col sel <> brief_name_col sel /\
  brief_name_col sel <> "Brief_Link" /\
  issued_amount_col sel <> brief_req_col sel.
Proof.
  intros E. apply generate_inv in E.
  destruct E as (s1 & s2 & ids & left & right & r0 &
                 _ & _ & _ & _ & _ & Hl & Hr & Hm & _ & _).
  unfold merge in Hm.
  apply bind_inr in Hm. destruct Hm as (rk & Hrk & Hm).
  apply bind_inr in Hm. destruct Hm as (lk & Hlk & _).
  destruct (key_in_selection _ _ _ _ _ _ Hl Hlk) as (_ & Hcn & Hin & HnL).
  refine (conj Hcn (conj Hin (conj HnL _))).
  apply key_values_inv in Hrk.
  destruct (select_inv _ _ _ Hr) as [Hall Hlook].
  inversion Hall as [|? ? Hq Hall1]; subst.
  inversion Hall1 as [|? ? Ha _]; subst.
  apply nonempty_length in Hq, Ha.
  rewrite Hlook in Hrk. cbn [flat_map] in Hrk.
  rewrite String.eqb_refl in Hrk.
  assert (Hlen := f_equal (@length _) Hrk).
  rewrite !length_app in Hlen. cbn [length] in Hlen.
  intros Ear. rewrite Ear, String.eqb_refl in Hlen. lia.
Qed.

(** X3. A run builds its tables only if the Brief Name selection differs from
    the Client Name selection, from the Brief ID selection and from the label
    Brief_Link, and the Issued Amount selection differs from the Brief
    Requirements selection: the merge refuses a key label that two columns of
    a selected frame carry. *)
Theorem X3_colliding_selections_fail
        (df1 df2 : DataFrame) (sel : selectors) (t : tables) :
  generate df1 df2 sel = inr t ->
  client_col sel <> brief_name_col sel /\
  brief_id_col sel <> brief_name_col sel /\
  brief_name_col sel <> "Brief_Link" /\
  issued_amount_col sel <> brief_req_col sel.
Proof. apply generate_distinct_keys. Qed.

(** X2. With the five selections left at their defaults a Primary frame of
    one, two or three columns, or a Secondary frame of one, two or three
    columns, never gets past the merge: two of the defaults then name the
    same column. *)
Theorem X2_defaults_need_four_columns (df1 df2 : DataFrame) :
  1 <= length (columns df1) < 4 \/ 1 <= length (columns df2) < 4 ->
  exists e, generate df1 df2 (default_selectors df1 df2) = inl e.
Proof.
  intros Hshort.
  destruct (generate df1 df2 (default_selectors df1 df2)) as [e|t] eqn:G;
    [eauto|exfalso].
  apply generate_distinct_keys in G.
  destruct G as (Hcn & Hin & _ & Har).
  unfold default_selectors, selectbox_default, index_or_0 in *.
  cbn [client_col brief_name_col brief_id_col brief_req_col issued_amount_col]
    in *.
  destruct Hshort as [H1|H2].
  - destruct (columns df1) as [|a [|b [|c [|d rest]]]]; simpl in H1; try lia.
    + apply Hcn. reflexivity.
    + apply Hcn. reflexivity.
    + apply Hin. reflexivity.
  - destruct (columns df2) as [|a [|b [|c [|d rest]]]]; simpl in H2; try lia;
      apply Har; reflexivity.
Qed.

(** X4. In frames with unique labels, a Brief Name, Brief Requirements or
    Brief ID selection that names no column of its frame ends the run with
    the KeyError of the first of them, in the order in which the code reads
    the three columns. *)
Theorem X4_missing_key_column
        (df1 df2 : DataFrame) (sel : selectors) (l : label) :
  NoDup (columns df1) -> NoDup (columns df2) ->
  first_missing df1 df2 sel = Some l ->
  generate df1 df2 sel = inl (KeyError l).
Proof.
  intros N1 N2. unfold first_missing, generate, clean.
  destruct (has_label df1 (brief_name_col sel)) eqn:Hn; cbn [negb].
  2:{ intros E. inversion E; subst l.
      apply has_label_lookup in Hn.
      unfold getitem, getitem_raw. now rewrite Hn. }
  destruct (label_once _ _ N1 Hn) as [s1 Hs1].
  rewrite (proj2 (getitem_inv _ _ _) Hs1). cbn [bind ret].
  destruct (has_label df2 (brief_req_col sel)) eqn:Hr; cbn [negb].
  2:{ intros E. inversion E; subst l.
      apply has_label_lookup in Hr.
      unfold getitem, getitem_raw. now rewrite Hr. }
  destruct (label_once _ _ N2 Hr) as [s2 Hs2].
  rewrite (proj2 (getitem_inv _ _ _) Hs2). cbn [bind ret].
  destruct (has_label df1 (brief_id_col sel)) eqn:Hi; cbn [negb];
    [discriminate|].
  intros E. inversion E; subst l.
  unfold add_links.
  assert (Hne : brief_id_col sel <> brief_name_col sel).
  { intros C. rewrite C in Hi. congruence. }
  apply has_label_lookup in Hi.
  unfold getitem, getitem_raw.
  rewrite lookup_all_setitem_other by assumption. now rewrite Hi.
Qed.

End SelectionProperties.

(** * Where the cells of the result come from *)

Section ProvenanceProperties.

Context {float : Type} `{Runtime float}.

Local Abbreviation DataFrame := (@DataFrame float).
Local Abbreviation Series := (@Series float).
Local Abbreviation scalar := (@scalar float).

Ltac eqb_rewrite :=
  repeat match goal with
         | H : String.eqb ?x ?y = false |- context [String.eqb ?x ?y] =>
             rewrite H
         | H : String.eqb ?x ?y = false |- context [String.eqb ?y ?x] =>
             rewrite (String.eqb_sym y x), H
         end;
  rewrite ?String.eqb_refl.

Lemma distinct_five (a b c d e : label) :
  distinct [a; b; c; d; e] = true ->
  String.eqb a b = false /\ String.eqb a c = false /\
  String.eqb a d = false /\ String.eqb a e = false /\
  String.eqb b c = false /\ String.eqb b d = false /\
  String.eqb b e = false /\ String.eqb c d = false /\
  String.eqb c e = false /\ String.eqb d e = false.
Proof.
  cbn [distinct existsb]. rewrite ?andb_true_r, ?orb_false_r.
  destruct (String.eqb a b), (String.eqb a c), (String.eqb a d),
    (String.eqb a e), (String.eqb b c), (String.eqb b d), (String.eqb b e),
    (String.eqb c d), (String.eqb c e), (String.eqb d e);
    cbn; intros E; try discriminate; repeat split; reflexivity.
Qed.

Lemma well_chosen_inv (df1 df2 : DataFrame) (sel : selectors) :
  well_chosen df1 df2 sel = true ->
  (exists sc sn si sr sa,
     lookup_all df1 (client_col sel) = [sc] /\
     lookup_all df1 (brief_name_col sel) = [sn] /\
     lookup_all df1 (brief_id_col sel) = [si] /\
     lookup_all df2 (brief_req_col sel) = [sr] /\
     lookup_all df2 (issued_amount_col sel) = [sa]) /\
  length (lookup_all df1 "Brief_Link") <= 1 /\
  distinct [client_col sel; brief_name_col sel; brief_id_col sel;
            "Brief_Link"; issued_amount_col sel] = true /\
  distinct [client_col sel; brief_id_col sel; "Brief_Link";
            brief_req_col sel; issued_amount_col sel] = true.
Proof.
  unfold well_chosen. intros W.
  repeat (apply andb_prop in W; let W' := fresh "W" in destruct W as [W W']).
  apply once_inv in W. destruct W as [sc Hc].
  apply once_inv in W6. destruct W6 as [sn Hn].
  apply once_inv in W5. destruct W5 as [si Hi].
  apply once_inv in W4. destruct W4 as [sr Hr].
  apply once_inv in W3. destruct W3 as [sa Ha].
  apply Nat.leb_le in W2.
  split; [exists sc, sn, si, sr, sa; auto|]. auto.
Qed.

(** The left merge of two selections whose labels do not collide. *)
Lemma merge_explicit (L : label) (c n i r a : label)
      (sc sn si sl sr sa : Series) :
  distinct [c; n; i; L; a] = true ->
  distinct [c; i; L; r; a] = true ->
  merge [(c, sc); (n, sn); (i, si); (L, sl)] [(r, sr); (a, sa)] n r
  = inr ([(c, take_left sc (left_indexer sn sr));
          (n, take_left sn (left_indexer sn sr));
          (i, take_left si (left_indexer sn sr));
          (L, take_left sl (left_indexer sn sr))]
         ++ (if String.eqb n r then []
             else [(r, take_right sr (left_indexer sn sr))])
         ++ [(a, take_right sa (left_indexer sn sr))]).
Proof.
  intros D1 D2.
  apply distinct_five in D1.
  destruct D1 as (Hcn & Hci & HcL & Hca & Hni & HnL & Hna & HiL & Hia & HLa).
  apply distinct_five in D2.
  destruct D2 as (_ & _ & Hcr & _ & _ & Hir & _ & HLr & _ & Hra).
  unfold merge, key_values, lookup_all, has_label, columns, drop_label.
  cbn [filter map fst snd]. eqb_rewrite. cbn [map snd bind ret raise].
  destruct (String.eqb n r) eqn:Hnr.
  - apply String.eqb_eq in Hnr. subst r.
    cbn [filter map fst snd negb existsb orb andb]. eqb_rewrite.
    cbn [filter map fst snd negb existsb orb andb app]. eqb_rewrite.
    cbn [filter map fst snd negb existsb orb andb app]. eqb_rewrite.
    reflexivity.
  - cbn [filter map fst snd negb existsb orb andb]. eqb_rewrite.
    cbn [filter map fst snd negb existsb orb andb app]. eqb_rewrite.
    cbn [filter map fst snd negb existsb orb andb app]. eqb_rewrite.
    reflexivity.
Qed.

Lemma brief_links_map (ids : Series) :
  (map brief_link (astype_str ids) : Series)
  = map (fun x => SStr (link_text x)) ids.
Proof.
  unfold astype_str. rewrite map_map. apply map_ext.
  intros x. apply brief_link_text.
Qed.

(** The merged frame of a well chosen selection, column by column. *)
Lemma generate_explicit (df1 df2 : DataFrame) (sel : selectors) :
  well_chosen df1 df2 sel = true ->
  exists sc s1 ids s2 sa t,
    getitem df1 (client_col sel) = inr sc /\
    getitem df1 (brief_name_col sel) = inr s1 /\
    getitem df1 (brief_id_col sel) = inr ids /\
    getitem df2 (brief_req_col sel) = inr s2 /\
    getitem df2 (issued_amount_col sel) = inr sa /\
    generate df1 df2 sel = inr t /\
    getitem (t_merged_df t) (client_col sel)
    = inr (take_left sc (row_pairs s1 s2)) /\
    getitem (t_merged_df t) (brief_name_col sel)
    = inr (take_left (map key_cell s1) (row_pairs s1 s2)) /\
    getitem (t_merged_df t) "Brief_Link"
    = inr (take_left (map (fun x => SStr (link_text x)) ids)
                     (row_pairs s1 s2)) /\
    getitem (t_merged_df t) (issued_amount_col sel)
    = inr (take_right sa (row_pairs s1 s2)).
Proof.
  intros W. destruct (generate_succeeds _ _ _ W) as [t G].
  destruct (well_chosen_inv _ _ _ W)
    as ((sc & sn & si & sr & sa & Hc & Hn & Hi & Hr & Ha) & HL1 & D1 & D2).
  exists sc, sn, si, sr, sa, t.
  pose proof (generate_inv _ _ _ _ G)
    as (s1 & s2 & ids & left & right & r0 &
        Hs1 & Hs2 & Hids & Hd1 & Hd2 & Hl & Hr' & Hm & _ & _).
  apply getitem_inv in Hs1, Hs2, Hids.
  rewrite Hn in Hs1. rewrite Hr in Hs2.
  inversion Hs1; inversion Hs2; subst s1 s2. clear Hs1 Hs2.
  pose proof (distinct_five _ _ _ _ _ D1)
    as (Hcn & Hci & HcL & Hca & Hni & HnL & Hna & HiL & Hia & HLa).
  pose proof (distinct_five _ _ _ _ _ D2)
    as (_ & _ & Hcr & _ & _ & Hir & _ & HLr & _ & Hra).
  assert (Nin : brief_id_col sel <> brief_name_col sel).
  { intros C. rewrite C, String.eqb_refl in Hni. discriminate. }
  assert (Ncn : client_col sel <> brief_name_col sel).
  { intros C. rewrite C, String.eqb_refl in Hcn. discriminate. }
  assert (NnL : brief_name_col sel <> "Brief_Link").
  { now apply String.eqb_neq. }
  assert (NcL : client_col sel <> "Brief_Link").
  { now apply String.eqb_neq. }
  assert (NiL : brief_id_col sel <> "Brief_Link").
  { now apply String.eqb_neq. }
  assert (Nar : issued_amount_col sel <> brief_req_col sel).
  { intros C. rewrite C, String.eqb_refl in Hra. discriminate. }
  rewrite lookup_all_setitem_other in Hids by assumption.
  rewrite Hi in Hids. inversion Hids; subst ids. clear Hids.
  assert (Lc : lookup_all (t_df1 t) (client_col sel) = [sc]).
  { rewrite Hd1. now rewrite !lookup_all_setitem_other. }
  assert (Ln : lookup_all (t_df1 t) (brief_name_col sel)
               = [str_strip (astype_str sn)]).
  { rewrite Hd1, lookup_all_setitem_other by assumption.
    now rewrite lookup_all_setitem_same, Hn. }
  assert (Li : lookup_all (t_df1 t) (brief_id_col sel) = [si]).
  { rewrite Hd1. now rewrite !lookup_all_setitem_other. }
  assert (LL : lookup_all (t_df1 t) "Brief_Link"
               = [map brief_link (astype_str si)]).
  { rewrite Hd1, lookup_all_setitem_same.
    rewrite lookup_all_setitem_other by congruence.
    destruct (lookup_all df1 "Brief_Link") as [|x [|y rest]]; auto.
    simpl in HL1. lia. }
  assert (Lr : lookup_all (t_df2 t) (brief_req_col sel)
               = [str_strip (astype_str sr)]).
  { rewrite Hd2. now rewrite lookup_all_setitem_same, Hr. }
  assert (La : lookup_all (t_df2 t) (issued_amount_col sel) = [sa]).
  { rewrite Hd2. now rewrite lookup_all_setitem_other. }
  rewrite select_eq in Hl by (repeat constructor; congruence).
  rewrite select_eq in Hr' by (repeat constructor; congruence).
  cbn [flat_map] in Hl, Hr'. rewrite Lc, Ln, Li, LL in Hl.
  rewrite Lr, La in Hr'. cbn [map app] in Hl, Hr'.
  inversion Hl; subst left. inversion Hr'; subst right. clear Hl Hr'.
  rewrite (merge_explicit _ _ _ _ _ _ _ _ _ _ _ _ D1 D2) in Hm.
  inversion Hm as [Em]. clear Hm.
  fold (row_pairs sn sr). rewrite brief_links_map, cleaned_map.
  apply getitem_inv in Hc, Hn, Hi, Hr, Ha.
  refine (conj Hc (conj Hn (conj Hi (conj Hr (conj Ha (conj G _)))))).
  repeat split; apply getitem_inv; unfold lookup_all;
    (destruct (String.eqb (brief_name_col sel) (brief_req_col sel)) eqn:Hnr;
     [apply String.eqb_eq in Hnr; rewrite <- Hnr in *|]);
    cbn [filter map fst snd app]; eqb_rewrite;
    cbn [filter map fst snd app]; eqb_rewrite; reflexivity.
Qed.

Lemma rows_length (df : DataFrame) : length (rows df) = len df.
Proof. unfold rows. now rewrite length_map, length_seq. Qed.

Lemma rows_of_takes (A B C D : label) (sc sn sl ar : Series)
      (idx : list (nat * option nat)) :
  length ar = length idx ->
  rows [(A, take_left sc idx); (B, take_left sn idx); (C, take_left sl idx);
        (D, ar)]
  = map (joined_record sc sn sl) (combine idx ar).
Proof.
  revert ar. induction idx as [|p idx IH]; intros ar Hlen.
  - destruct ar; [reflexivity|discriminate].
  - destruct ar as [|v ar]; [discriminate|]. simpl in Hlen.
    unfold take_left. cbn [map].
    etransitivity; [apply rows_cons|].
    fold (take_left sc idx) (take_left sn idx) (take_left sl idx).
    rewrite IH by lia. reflexivity.
Qed.

Lemma filter_map_swap {A B} (f : B -> bool) (g : A -> B) (l : list A) :
  filter f (map g l) = map g (filter (fun x => f (g x)) l).
Proof.
  induction l as [|x l IH]; simpl; auto.
  destruct (f (g x)); simpl; now rewrite IH.
Qed.

Lemma filter_combine_length {A B} (f : A -> bool) (l : list A) (r : list B) :
  length r = length l ->
  length (filter (fun q => f (fst q)) (combine l r)) = length (filter f l).
Proof.
  revert r. induction l as [|x l IH]; intros r Hlen; simpl; auto.
  destruct r as [|y r]; [discriminate|]. simpl.
  destruct (f x); simpl; rewrite IH; auto.
Qed.

Lemma take_right_cells (s : Series) (idx : list (nat * option nat))
      (p : nat * option nat) (v : scalar) :
  In (p, v) (combine idx (take_right s idx)) ->
  match snd p with
  | None => v = NaN
  | Some k => v = nth k s NaN \/ v = upcast (nth k s NaN)
  end.
Proof.
  unfold take_right.
  destruct (existsb no_partner idx && forallb is_int s).
  - rewrite map_map. induction idx as [|p0 idx IH]; simpl; [tauto|].
    intros [E|Hin]; [|now apply IH].
    inversion E; subst. destruct (snd p); auto.
  - induction idx as [|p0 idx IH]; simpl; [tauto|].
    intros [E|Hin]; [|now apply IH].
    inversion E; subst. destruct (snd p); auto.
Qed.

(** X6. With a well chosen selection the run builds its tables, and the four
    columns of [merged_df] that the result is made of are what their labels
    say: the Client Name column and the cleaned Brief Name column of Primary
    and the links of its Brief ID column, each read at the Primary position
    of the joined pair, and the Issued Amount column of Secondary read at the
    Secondary position of the pair. *)
Theorem X6_merged_columns_origin
        (df1 df2 : DataFrame) (sel : selectors) :
  well_chosen df1 df2 sel = true ->
  exists sc s1 ids s2 sa t,
    getitem df1 (client_col sel) = inr sc /\
    getitem df1 (brief_name_col sel) = inr s1 /\
    getitem df1 (brief_id_col sel) = inr ids /\
    getitem df2 (brief_req_col sel) = inr s2 /\
    getitem df2 (issued_amount_col sel) = inr sa /\
    generate df1 df2 sel = inr t /\
    getitem (t_merged_df t) (client_col sel)
    = inr (take_left sc (row_pairs s1 s2)) /\
    getitem (t_merged_df t) (brief_name_col sel)
    = inr (take_left (map key_cell s1) (row_pairs s1 s2)) /\
    getitem (t_merged_df t) "Brief_Link"
    = inr (take_left (map (fun x => SStr (link_text x)) ids)
                     (row_pairs s1 s2)) /\
    getitem (t_merged_df t) (issued_amount_col sel)
    = inr (take_right sa (row_pairs s1 s2)).
Proof. apply generate_explicit. Qed.

(** The records of the result of a run with a well chosen selection. *)
Lemma result_records (df1 df2 : DataFrame) (sel : selectors) :
  well_chosen df1 df2 sel = true ->
  exists sc s1 ids s2 sa t,
    getitem df1 (client_col sel) = inr sc /\
    getitem df1 (brief_name_col sel) = inr s1 /\
    getitem df1 (brief_id_col sel) = inr ids /\
    getitem df2 (brief_req_col sel) = inr s2 /\
    getitem df2 (issued_amount_col sel) = inr sa /\
    generate df1 df2 sel = inr t /\
    let links := map (fun x => SStr (link_text x)) ids in
    let pairs := row_pairs s1 s2 in
    rows (t_result_df t)
    = map (joined_record sc (map key_cell s1) links)
          (filter (fun q => ne_empty (nth (fst (fst q)) links NaN))
                  (combine pairs (take_right sa pairs))) /\
    (forall p v, In (p, v) (combine pairs (take_right sa pairs)) ->
                 match snd p with
                 | None => v = NaN
                 | Some k => v = nth k sa NaN \/ v = upcast (nth k sa NaN)
                 end) /\
    len (t_result_df t)
    = length (filter (fun p => ne_empty (nth (fst p) links NaN)) pairs).
Proof.
  intros W. destruct (generate_explicit _ _ _ W)
    as (sc & s1 & ids & s2 & sa & t & Hc & Hn & Hi & Hr & Ha & G &
        Mc & Mn & ML & Ma).
  exists sc, s1, ids, s2, sa, t.
  refine (conj Hc (conj Hn (conj Hi (conj Hr (conj Ha (conj G _)))))).
  cbv zeta.
  pose proof (generate_inv _ _ _ _ G)
    as (_ & _ & _ & _ & _ & r0 & _ & _ & _ & _ & _ & _ & _ & _ & Hb & Hd).
  apply build_result_inv in Hb.
  destruct Hb as (c & n & l & a & Hc' & Hn' & Hl' & Ha' & ->).
  rewrite Mc in Hc'. rewrite Mn in Hn'. rewrite ML in Hl'. rewrite Ma in Ha'.
  inversion Hc'; inversion Hn'; inversion Hl'; inversion Ha'; subst c n l a.
  clear Hc' Hn' Hl' Ha'.
  rewrite drop_empty_links_total in Hd. inversion Hd as [Er]. clear Hd.
  set (links := (map (fun x => SStr (link_text x)) ids : Series)) in *.
  set (pairs := row_pairs s1 s2) in *.
  assert (Hrows :
    rows (filter_rows
            [("Client_Name", take_left sc pairs);
             ("Brief_Name", take_left (map key_cell s1) pairs);
             ("Brief_Link", take_left links pairs);
             ("Issued_Amount", take_right sa pairs)]
            (map ne_empty (take_left links pairs)))
    = map (joined_record sc (map key_cell s1) links)
          (filter (fun q => ne_empty (nth (fst (fst q)) links NaN))
                  (combine pairs (take_right sa pairs)))).
  { rewrite rows_filter_rows
      by (rewrite ?take_left_length, ?take_right_length; reflexivity).
    rewrite rows_of_takes by apply take_right_length.
    rewrite filter_map_swap. reflexivity. }
  split; [exact Hrows|]. split.
  - intros p v. apply take_right_cells.
  - rewrite <- rows_length.
    etransitivity; [exact (f_equal (@length _) Hrows)|].
    rewrite length_map.
    apply (filter_combine_length
             (fun p : nat * option nat => ne_empty (nth (fst p) links NaN))).
    apply take_right_length.
Qed.


Lemma merge_lookup_cols (left right m : DataFrame)
      (left_on right_on l : label) (lk rk : Series) :
  key_values left left_on = inr lk ->
  key_values right right_on = inr rk ->
  merge left right left_on right_on = inr m ->
  (forall l', (l' ++ "_x")%string <> l) ->
  (forall l', (l' ++ "_y")%string <> l) ->
  lookup_all m l = [] \/
  lookup_all m l
  = map (fun s => take_left s (left_indexer lk rk)) (lookup_all left l)
    ++ map (fun s => take_right s (left_indexer lk rk))
         (lookup_all (if String.eqb left_on right_on
                      then drop_label right right_on else right) l).
Proof.
  unfold merge. intros Hlk Hrk E Hx Hy. rewrite Hlk, Hrk in E.
  cbn [bind] in E. inversion E as [Em]. clear E Em.
  set (right' := if String.eqb left_on right_on
                 then drop_label right right_on else right).
  set (ov := fun l0 => has_label left l0 && has_label right' l0).
  pose proof (lookup_all_renamed left ov "_x"
                (fun s => take_left s (left_indexer lk rk)) l Hx) as Rl.
  pose proof (lookup_all_renamed right' ov "_y"
                (fun s => take_right s (left_indexer lk rk)) l Hy) as Rr.
  cbv beta in Rl, Rr. rewrite lookup_all_app.
  subst ov. cbv beta in *. rewrite Rl, Rr.
  destruct (has_label left l && has_label right' l); [now left|now right].
Qed.

Lemma map_const_repeat {A B} (c : B) (l : list A) :
  map (fun _ => c) l = repeat c (length l).
Proof. induction l as [|a l IH]; simpl; [|rewrite IH]; reflexivity. Qed.




End ProvenanceProperties.

(** * The shape of the tables *)

Section ShapeProperties.

Context {float : Type} `{Runtime float}.

Local Abbreviation DataFrame := (@DataFrame float).
Local Abbreviation Series := (@Series float).
Local Abbreviation scalar := (@scalar float).

Lemma Forall_setitem (P : label * Series -> Prop) (df : DataFrame)
      (l : label) (s : Series) :
  Forall P df -> P (l, s) -> Forall P (setitem df l s).
Proof.
  intros Hdf Hs. unfold setitem.
  destruct (existsb (String.eqb l) (columns df)).
  - apply Forall_forall. intros c Hc. apply in_map_iff in Hc.
    destruct Hc as (c0 & <- & Hc0).
    destruct (String.eqb (fst c0) l); auto.
    rewrite Forall_forall in Hdf. auto.
  - apply Forall_app. split; auto.
Qed.

Lemma columns_setitem (df : DataFrame) (l : label) (s : Series) :
  columns (setitem df l s)
  = if has_label df l then columns df else columns df ++ [l].
Proof.
  unfold setitem. fold (has_label df l). destruct (has_label df l) eqn:E.
  - unfold columns. rewrite map_map. apply map_ext_in. intros [l' s'] _.
    simpl. destruct (String.eqb_spec l' l) as [->|]; reflexivity.
  - unfold columns. now rewrite map_app.
Qed.

Lemma mask_filter_length {A} (m : list bool) (l : list A) :
  length l = length m ->
  length (mask_filter m l) = length (filter (fun b => b) m).
Proof.
  revert l. induction m as [|b m IH]; intros l Hlen; simpl.
  - reflexivity.
  - destruct l as [|x l]; [discriminate|]. simpl in Hlen.
    destruct b; simpl; rewrite IH; auto.
Qed.

Lemma Forall_filter_rows (df : DataFrame) (m : list bool) :
  Forall (fun c => length (snd c) = length m) df ->
  Forall (fun c => length (snd c) = length (filter (fun b => b) m))
         (filter_rows df m).
Proof.
  intros Hall. unfold filter_rows. apply Forall_forall. intros c Hc.
  apply in_map_iff in Hc. destruct Hc as (c0 & <- & Hc0). simpl.
  rewrite Forall_forall in Hall. apply mask_filter_length. auto.
Qed.

Lemma setitem_nonempty (df : DataFrame) (l : label) (s : Series) :
  setitem df l s <> [].
Proof.
  unfold setitem. destruct (existsb (String.eqb l) (columns df)) eqn:E.
  - destruct df; [discriminate|]. discriminate.
  - destruct df; discriminate.
Qed.

(** The working frames of a run keep the rows of the uploads. *)
Lemma working_frames_shape (df1 df2 : DataFrame) (sel : selectors)
      (t : tables) (rows1 rows2 : nat) :
  generate df1 df2 sel = inr t ->
  Forall (fun c => length (snd c) = rows1) df1 ->
  Forall (fun c => length (snd c) = rows2) df2 ->
  Forall (fun c => length (snd c) = rows1) (t_df1 t) /\
  Forall (fun c => length (snd c) = rows2) (t_df2 t) /\
  len (t_df1 t) = rows1 /\ len (t_df2 t) = rows2.
Proof.
  intros G R1 R2.
  pose proof (generate_inv _ _ _ _ G)
    as (s1 & s2 & ids & _ & _ & _ & Hs1 & Hs2 & Hids & Hd1 & Hd2 & _).
  assert (L1 : length s1 = rows1).
  { rewrite Forall_forall in R1. apply (R1 _ (getitem_In _ _ _ Hs1)). }
  assert (L2 : length s2 = rows2).
  { rewrite Forall_forall in R2. apply (R2 _ (getitem_In _ _ _ Hs2)). }
  assert (R1' : Forall (fun c => length (snd c) = rows1)
                  (setitem df1 (brief_name_col sel)
                     (str_strip (astype_str s1)))).
  { apply Forall_setitem; auto. simpl.
    now rewrite cleaned_map, length_map. }
  assert (L3 : length ids = rows1).
  { rewrite Forall_forall in R1'. apply (R1' _ (getitem_In _ _ _ Hids)). }
  assert (A1 : Forall (fun c => length (snd c) = rows1) (t_df1 t)).
  { rewrite Hd1. apply Forall_setitem; auto. simpl.
    unfold astype_str. now rewrite !length_map. }
  assert (A2 : Forall (fun c => length (snd c) = rows2) (t_df2 t)).
  { rewrite Hd2. apply Forall_setitem; auto. simpl.
    now rewrite cleaned_map, length_map. }
  repeat split; auto.
  - apply Forall_len; auto. rewrite Hd1. apply setitem_nonempty.
  - apply Forall_len; auto. rewrite Hd2. apply setitem_nonempty.
Qed.


End ShapeProperties.

(** * What the page shows *)

Section PageProperties.

Context {float : Type} `{Runtime float}.
Context {upload : Type}.
Variable read_csv : upload -> res (@DataFrame float).

Local Abbreviation DataFrame := (@DataFrame float).
Local Abbreviation Series := (@Series float).
Local Abbreviation scalar := (@scalar float).

(** The calls of the results section, once the tables are built. *)
Lemma process_trace (df1 df2 : DataFrame) (sel : selectors) (t : tables) :
  generate df1 df2 sel = inr t ->
  exists s1 s2 u1 u2 shown1 shown2,
    getitem df1 (brief_name_col sel) = inr s1 /\
    getitem df2 (brief_req_col sel) = inr s2 /\
    u1 = filter_rows (t_df1 t)
           (map negb (isin (str_strip (astype_str s1))
                           (str_strip (astype_str s2)))) /\
    u2 = filter_rows (t_df2 t)
           (map negb (isin (str_strip (astype_str s2))
                           (str_strip (astype_str s1)))) /\
    select u1 [client_col sel; brief_name_col sel] = inr shown1 /\
    select u2 [brief_req_col sel; issued_amount_col sel] = inr shown2 /\
    process df1 df2 sel
    = ([st_subheader "✅ Results"; st_columns 3;
        st_metric "Total Matches Found" (len (t_result_df t));
        st_metric "Records from CSV 1" (len (t_df1 t));
        st_metric "Records from CSV 2" (len (t_df2 t));
        st_dataframe (t_result_df t);
        st_download_button "📥 Download Results as CSV" (t_result_df t)
          "bulbshare_links_matched.csv" "text/csv"]
       ++ (if (0 <? len u1)%nat || (0 <? len u2)%nat
           then st_expander "⚠️ Unmatched Records"
                :: (if (0 <? len u1)%nat
                    then [st_write (no_match_text u1 "1"); st_dataframe shown1]
                    else [])
                ++ (if (0 <? len u2)%nat
                    then [st_write (no_match_text u2 "2"); st_dataframe shown2]
                    else [])
           else []),
       inr tt).
Proof.
  intros E. unfold process. rewrite E.
  apply generate_keys in E.
  destruct E as (s1 & s2 & left & right & Hs1 & Hs2 & Hk1 & Hk2 & Hl & Hr & _).
  apply select_inv in Hl. destruct Hl as [Hl _].
  apply select_inv in Hr. destruct Hr as [Hr _].
  inversion Hl as [|? ? Hc Hl1]; subst.
  inversion Hl1 as [|? ? Hn _]; subst.
  inversion Hr as [|? ? Hq Hr1]; subst.
  inversion Hr1 as [|? ? Ha _]; subst.
  set (m1 := map negb (isin (str_strip (astype_str s1))
                            (str_strip (astype_str s2)))).
  set (m2 := map negb (isin (str_strip (astype_str s2))
                            (str_strip (astype_str s1)))).
  destruct (select_total (filter_rows (t_df1 t) m1)
              [client_col sel; brief_name_col sel]) as [shown1 Hshown1].
  { repeat constructor; rewrite lookup_all_filter_rows;
      intros C; apply map_eq_nil in C; contradiction. }
  destruct (select_total (filter_rows (t_df2 t) m2)
              [brief_req_col sel; issued_amount_col sel]) as [shown2 Hshown2].
  { repeat constructor; rewrite lookup_all_filter_rows;
      intros C; apply map_eq_nil in C; contradiction. }
  exists s1, s2, (filter_rows (t_df1 t) m1), (filter_rows (t_df2 t) m2),
    shown1, shown2.
  refine (conj Hs1 (conj Hs2 (conj eq_refl (conj eq_refl
            (conj Hshown1 (conj Hshown2 _)))))).
  cbn [lift ui_bind emit fst snd app].
  rewrite (unmatched_eq _ _ _ _ _ _ Hk1 Hk2).
  rewrite (unmatched_eq _ _ _ _ _ _ Hk2 Hk1).
  fold m1 m2. cbn [ui_bind app].
  destruct (0 <? len (filter_rows (t_df1 t) m1))%nat;
    destruct (0 <? len (filter_rows (t_df2 t) m2))%nat;
    cbn [orb ui_bind ui_ret emit lift app];
    rewrite ?Hshown1, ?Hshown2; cbn [ui_bind ui_ret emit lift app];
    reflexivity.
Qed.

Lemma existsb_false_In {A} (f : A -> bool) (l : list A) (x : A) :
  existsb f l = false -> In x l -> f x = false.
Proof.
  intros E Hin. destruct (f x) eqn:Fx; auto.
  assert (T : existsb f l = true) by (apply existsb_exists; eauto).
  congruence.
Qed.





(** X11. A download is offered only in a run in which both files were
    uploaded and parsed, the button was pressed and the tables were built;
    what it offers is the result table of that run under the fixed file name,
    the same table that is shown on the page, the number shown as Total
    Matches Found is its number of records, and the page shows no error. *)
Theorem X11_download_only_after_success
        (csv1 csv2 : option upload) (sel : selectors) (clicked : bool)
        (lbl : string) (data : DataFrame) (file_name mime : string) :
  In (st_download_button lbl data file_name mime)
     (main read_csv csv1 csv2 sel clicked) ->
  exists u1 u2 df1 df2 t,
    csv1 = Some u1 /\ csv2 = Some u2 /\ clicked = true /\
    read_csv u1 = inr df1 /\ read_csv u2 = inr df2 /\
    generate df1 df2 sel = inr t /\
    data = t_result_df t /\
    file_name = "bulbshare_links_matched.csv" /\ mime = "text/csv" /\
    In (st_dataframe data) (main read_csv csv1 csv2 sel clicked) /\
    In (st_metric "Total Matches Found" (len data))
       (main read_csv csv1 csv2 sel clicked) /\
    existsb is_error_call (main read_csv csv1 csv2 sel clicked) = false.
Proof.
  unfold main. intros Hin. apply in_app_or in Hin.
  destruct Hin as [Hin|Hin].
  { exfalso. simpl in Hin. intuition discriminate. }
  destruct csv1 as [u1|]; [|exfalso; simpl in Hin; intuition discriminate].
  destruct csv2 as [u2|]; [|exfalso; simpl in Hin; intuition discriminate].
  destruct (read_csv u1) as [e|df1] eqn:E1.
  { exfalso. unfold try_block in Hin. rewrite E1 in Hin.
    simpl in Hin. intuition discriminate. }
  destruct (read_csv u2) as [e|df2] eqn:E2.
  { exfalso. unfold try_block in Hin. rewrite E1, E2 in Hin.
    simpl in Hin. intuition discriminate. }
  destruct (try_block_read read_csv u1 u2 sel clicked df1 df2 E1 E2)
    as (pre & Htry & Hpe & Hpr).
  rewrite Htry in Hin |- *.
  assert (Npre : ~ In (st_download_button lbl data file_name mime) pre).
  { intros C. apply (existsb_false_In _ _ _ Hpr) in C. discriminate. }
  destruct clicked.
  2:{ exfalso. cbn [fst snd ui_ret] in Hin. rewrite app_nil_r in Hin.
      contradiction. }
  destruct (generate df1 df2 sel) as [e|t] eqn:G.
  { exfalso. rewrite (process_failed _ _ _ _ G) in Hin. cbn [fst snd] in Hin.
    rewrite app_nil_r in Hin. apply in_app_or in Hin.
    destruct Hin as [Hin|Hin]; [contradiction|].
    simpl in Hin. intuition discriminate. }
  destruct (process_succeeded _ _ _ _ G) as (pc & Hp & Hpce & Hd & Hb).
  destruct (process_trace _ _ _ _ G)
    as (s1 & s2 & w1 & w2 & z1 & z2 & _ & _ & _ & _ & _ & _ & Hp').
  rewrite Hp in Hin |- *. cbn [fst snd] in Hin |- *.
  apply in_app_or in Hin. destruct Hin as [Hin|Hin]; [contradiction|].
  assert (Hdata : data = t_result_df t /\
                  file_name = "bulbshare_links_matched.csv" /\
                  mime = "text/csv").
  { rewrite Hp in Hp'. inversion Hp' as [Epc]. rewrite Epc in Hin.
    cbn [In app] in Hin.
    destruct Hin as [Hin|[Hin|[Hin|[Hin|[Hin|[Hin|[Hin|Hin]]]]]]];
      try discriminate.
    - inversion Hin. auto.
    - exfalso. destruct (0 <? len w1)%nat; destruct (0 <? len w2)%nat;
        cbn [orb In app] in Hin; intuition discriminate. }
  destruct Hdata as (-> & -> & ->).
  exists u1, u2, df1, df2, t.
  repeat split; auto.
  - apply in_or_app. right. apply in_or_app. right. exact Hd.
  - apply in_or_app. right. apply in_or_app. right.
    rewrite Hp in Hp'. inversion Hp' as [Epc]. simpl. auto.
  - rewrite !existsb_app, Hpe, Hpce. reflexivity.
Qed.

Lemma filter_true_pos (m : list bool) :
  0 < length (filter (fun b => b) m) <-> In true m.
Proof.
  induction m as [|b m IH]; simpl; [split; [lia|tauto]|].
  destruct b; simpl; [split; auto with arith|].
  rewrite IH. split; [auto|]. intros [C|Hin]; [discriminate|auto].
Qed.

(** The mask of the unmatched records keeps some record exactly when some
    key of the column has no equal in the other column. *)
Lemma unmatched_mask_keeps (s v : Series) :
  In true (map negb (isin (str_strip (astype_str s))
                          (str_strip (astype_str v)))) <->
  exists x, In x s /\ forall y, In y v -> same_key x y = false.
Proof.
  split.
  - intros Hin. apply In_nth_error in Hin. destruct Hin as [j Hj].
    assert (Hlt : j < length s).
    { rewrite <- (unmatched_mask_length s v). apply nth_error_Some.
      congruence. }
    destruct (nth_error s j) as [x|] eqn:Hx;
      [|apply nth_error_None in Hx; lia].
    rewrite (unmatched_mask_nth s v j x Hx) in Hj.
    exists x. split; [eapply nth_error_In; eauto|].
    apply none_equal. inversion Hj as [E].
    now destruct (existsb _ v).
  - intros (x & Hx & Hall). apply In_nth_error in Hx. destruct Hx as [j Hj].
    apply (nth_error_In _ j).
    rewrite (unmatched_mask_nth s v j x Hj).
    apply none_equal in Hall. now rewrite Hall.
Qed.

Lemma len_filter_rows (df : DataFrame) (m : list bool) :
  df <> [] ->
  Forall (fun c => length (snd c) = length m) df ->
  len (filter_rows df m) = length (filter (fun b => b) m).
Proof.
  intros Hne Hall. apply Forall_len.
  - destruct df; [congruence|discriminate].
  - now apply Forall_filter_rows.
Qed.

(** X12. In a run that builds its tables from uploads whose columns have one
    length each, the Unmatched Records expander is shown exactly when some
    Primary record has a trimmed key that no Secondary record has, or some
    Secondary record has a trimmed key that no Primary record has. The
    trimmed key of a record is the cell that the cleaning step writes for its
    key: the text [PyStr.strip (py_str x)] for a key that is present, and
    for every key where [astype(str)] writes the text nan. *)
Theorem X12_unmatched_expander
        (df1 df2 : DataFrame) (sel : selectors) (t : tables)
        (rows1 rows2 : nat) :
  generate df1 df2 sel = inr t ->
  Forall (fun c => length (snd c) = rows1) df1 ->
  Forall (fun c => length (snd c) = rows2) df2 ->
  exists s1 s2,
    getitem df1 (brief_name_col sel) = inr s1 /\
    getitem df2 (brief_req_col sel) = inr s2 /\
    (In (st_expander "⚠️ Unmatched Records") (fst (process df1 df2 sel)) <->
     (exists x, In x s1 /\
                forall y, In y s2 -> key_cell x <> key_cell y) \/
     (exists y, In y s2 /\
                forall x, In x s1 -> key_cell x <> key_cell y)) /\
    (forall x y : scalar,
       notna x = true -> notna y = true ->
       (key_cell x <> key_cell y <->
        PyStr.strip (py_str x) <> PyStr.strip (py_str y))) /\
    (astype_str_keeps_na = false ->
     forall x : scalar, key_cell x = SStr (PyStr.strip (py_str x))).
Proof.
  intros G R1 R2.
  destruct (working_frames_shape _ _ _ _ _ _ G R1 R2) as (A1 & A2 & B1 & B2).
  destruct (process_trace _ _ _ _ G)
    as (s1 & s2 & u1 & u2 & w1 & w2 & Hs1 & Hs2 & Hu1 & Hu2 & _ & _ & Hp).
  exists s1, s2. refine (conj Hs1 (conj Hs2 (conj _ (conj _ _))));
    [|intros x y Nx Ny; rewrite <- (same_key_text x y Nx Ny), same_key_eq;
      tauto
     |intros K x; now apply key_cell_before_pandas_3].
  assert (L1 : length s1 = rows1).
  { rewrite Forall_forall in R1. apply (R1 _ (getitem_In _ _ _ Hs1)). }
  assert (L2 : length s2 = rows2).
  { rewrite Forall_forall in R2. apply (R2 _ (getitem_In _ _ _ Hs2)). }
  pose proof (generate_inv _ _ _ _ G)
    as (a1 & a2 & a3 & a4 & a5 & a6 & _ & _ & _ & Hd1 & Hd2 & _).
  assert (N1 : t_df1 t <> []).
  { rewrite Hd1. apply setitem_nonempty. }
  assert (N2 : t_df2 t <> []).
  { rewrite Hd2. apply setitem_nonempty. }
  assert (K1 : (0 <? len u1)%nat = true <->
               exists x, In x s1 /\
                 forall y, In y s2 -> same_key x y = false).
  { rewrite Hu1, len_filter_rows, Nat.ltb_lt, filter_true_pos;
      [apply unmatched_mask_keeps|assumption|].
    rewrite unmatched_mask_length, L1. exact A1. }
  assert (K2 : (0 <? len u2)%nat = true <->
               exists y, In y s2 /\
                 forall x, In x s1 -> same_key y x = false).
  { rewrite Hu2, len_filter_rows, Nat.ltb_lt, filter_true_pos;
      [apply unmatched_mask_keeps|assumption|].
    rewrite unmatched_mask_length, L2. exact A2. }
  rewrite Hp. cbn [fst].
  assert (Hexp : In (st_expander "⚠️ Unmatched Records")
                    ([st_subheader "✅ Results"; st_columns 3;
                      st_metric "Total Matches Found" (len (t_result_df t));
                      st_metric "Records from CSV 1" (len (t_df1 t));
                      st_metric "Records from CSV 2" (len (t_df2 t));
                      st_dataframe (t_result_df t);
                      st_download_button "📥 Download Results as CSV"
                        (t_result_df t) "bulbshare_links_matched.csv"
                        "text/csv"]
                     ++ (if (0 <? len u1)%nat || (0 <? len u2)%nat
                         then st_expander "⚠️ Unmatched Records"
                              :: (if (0 <? len u1)%nat
                                  then [st_write (no_match_text u1 "1");
                                        st_dataframe w1]
                                  else [])
                              ++ (if (0 <? len u2)%nat
                                  then [st_write (no_match_text u2 "2");
                                        st_dataframe w2]
                                  else [])
                         else []))
                 <-> (0 <? len u1)%nat || (0 <? len u2)%nat = true).
  { destruct (0 <? len u1)%nat; destruct (0 <? len u2)%nat;
      cbn [orb In app]; split; intros X;
      try reflexivity; try discriminate;
      try (do 7 right; left; reflexivity);
      repeat (destruct X as [X|X]; try discriminate); contradiction. }
  rewrite Hexp, orb_true_iff, K1, K2.
  assert (Q : forall x y : scalar,
             same_key x y = false <-> key_cell x <> key_cell y).
  { intros x y. rewrite <- same_key_eq. destruct (same_key x y);
      split; congruence. }
  split; (intros [(x & Hx & Hall)|(y & Hy & Hall)];
          [left; exists x; split; auto; intros y Hy; apply Q; auto|
           right; exists y; split; auto; intros x Hx]).
  - apply Q. rewrite same_key_sym. auto.
  - rewrite same_key_sym. apply Q. auto.
Qed.

End PageProperties.

(** * Uploads without records, cleaning twice, repeated keys *)

Section StripFacts.

Lemma rstrip_cons (c : ascii) (s : string) :
  PyStr.rstrip (String c s)
  = match PyStr.rstrip s with
    | EmptyString =>
        if PyStr.isspace c then EmptyString else String c EmptyString
    | t => String c t
    end.
Proof. reflexivity. Qed.

Lemma lstrip_head (s : string) (c : ascii) (t : string) :
  PyStr.lstrip s = String c t -> PyStr.isspace c = false.
Proof.
  induction s as [|d s IH]; simpl; [discriminate|].
  destruct (PyStr.isspace d) eqn:E; auto.
  intros E'. inversion E'; subst. exact E.
Qed.

Lemma lstrip_fixed (c : ascii) (t : string) :
  PyStr.isspace c = false -> PyStr.lstrip (String c t) = String c t.
Proof. intros E. simpl. now rewrite E. Qed.

Lemma rstrip_idempotent (s : string) :
  PyStr.rstrip (PyStr.rstrip s) = PyStr.rstrip s.
Proof.
  induction s as [|c s IH]; [reflexivity|].
  rewrite (rstrip_cons c s).
  destruct (PyStr.rstrip s) as [|d t] eqn:E.
  - destruct (PyStr.isspace c) eqn:Ec; [reflexivity|].
    rewrite rstrip_cons. simpl. now rewrite Ec.
  - rewrite rstrip_cons, IH. reflexivity.
Qed.

Lemma lstrip_strip (s : string) :
  PyStr.lstrip (PyStr.strip s) = PyStr.strip s.
Proof.
  unfold PyStr.strip. destruct (PyStr.lstrip s) as [|c u] eqn:E;
    [reflexivity|].
  pose proof (lstrip_head _ _ _ E) as Hc.
  rewrite rstrip_cons.
  destruct (PyStr.rstrip u); [rewrite Hc|]; apply lstrip_fixed; exact Hc.
Qed.

Lemma strip_idempotent (s : string) :
  PyStr.strip (PyStr.strip s) = PyStr.strip s.
Proof.
  unfold PyStr.strip at 1. rewrite lstrip_strip.
  unfold PyStr.strip. apply rstrip_idempotent.
Qed.

(** *** [strip] removes the whitespace at the two ends and nothing else *)

Lemma blank_nil : blank EmptyString.
Proof. intros c []. Qed.

Lemma blank_cons (c : ascii) (s : string) :
  PyStr.isspace c = true -> blank s -> blank (String c s).
Proof. intros Hc Hs d [<-|Hd]; auto. Qed.

Lemma lstrip_split (s : string) :
  exists pre, s = (pre ++ PyStr.lstrip s)%string /\ blank pre.
Proof.
  induction s as [|c s (pre & E & B)]; simpl.
  - exists EmptyString. split; [reflexivity|apply blank_nil].
  - destruct (PyStr.isspace c) eqn:Hc.
    + exists (String c pre). simpl. split; [now rewrite <- E|].
      now apply blank_cons.
    + exists EmptyString. split; [reflexivity|apply blank_nil].
Qed.

Lemma rstrip_split (s : string) :
  exists suf, s = (PyStr.rstrip s ++ suf)%string /\ blank suf.
Proof.
  induction s as [|c s (suf & E & B)].
  - exists EmptyString. split; [reflexivity|apply blank_nil].
  - rewrite rstrip_cons. destruct (PyStr.rstrip s) as [|d t].
    + simpl in E. destruct (PyStr.isspace c) eqn:Hc.
      * exists (String c suf). simpl. split; [now rewrite <- E|].
        now apply blank_cons.
      * exists suf. simpl. split; [now rewrite <- E|assumption].
    + exists suf. simpl. split; [|assumption].
      f_equal. exact E.
Qed.

Lemma rstrip_last (s u : string) (c : ascii) :
  PyStr.rstrip s = (u ++ String c EmptyString)%string ->
  PyStr.isspace c = false.
Proof.
  revert u. induction s as [|d s IH]; intros u.
  - simpl. destruct u; discriminate.
  - rewrite rstrip_cons. destruct (PyStr.rstrip s) as [|e t].
    + destruct (PyStr.isspace d) eqn:Hd.
      * destruct u; discriminate.
      * destruct u as [|a u]; simpl; intros E; inversion E; subst; auto.
        destruct u; discriminate.
    + destruct u as [|a u]; simpl; intros E; inversion E; subst.
      apply (IH u). assumption.
Qed.

Lemma strip_head (s u : string) (c : ascii) :
  PyStr.strip s = String c u -> PyStr.isspace c = false.
Proof.
  unfold PyStr.strip. destruct (PyStr.lstrip s) as [|d t] eqn:E.
  - discriminate.
  - pose proof (lstrip_head _ _ _ E) as Hd. rewrite rstrip_cons.
    destruct (PyStr.rstrip t); [rewrite Hd|]; intros X; inversion X;
      now subst.
Qed.

(** [str.strip()] gives the trimmed text of the specification. *)
Lemma strip_trimmed (s : string) : trimmed_of (PyStr.strip s) s.
Proof.
  repeat split.
  - destruct (lstrip_split s) as (pre & E & B).
    destruct (rstrip_split (PyStr.lstrip s)) as (suf & E' & B').
    exists pre, suf. fold (PyStr.strip s) in E'.
    split; [|split; assumption]. rewrite <- E'. exact E.
  - intros c u. apply strip_head.
  - intros c u. apply rstrip_last.
Qed.

End StripFacts.

(** * The records of the tables *)

Section RecordFacts.

Context {float : Type} `{Runtime float}.

Local Abbreviation DataFrame := (@DataFrame float).
Local Abbreviation Series := (@Series float).
Local Abbreviation scalar := (@scalar float).

Lemma map_nth_seq {A B} (g : A -> B) (l : list A) (d : A) :
  map (fun i => g (nth i l d)) (seq 0 (length l)) = map g l.
Proof.
  induction l as [|a l IH]; simpl; [reflexivity|].
  f_equal. rewrite <- seq_shift, map_map. exact IH.
Qed.

Lemma nth_map_in {A B} (f : A -> B) (l : list A) (i : nat) (d : A) (e : B) :
  i < length l -> nth i (map f l) e = f (nth i l d).
Proof.
  intros Hi. rewrite (nth_indep _ e (f d)) by now rewrite length_map.
  apply map_nth.
Qed.

(** *** The merged frame *)

Lemma take_right_cast (s : Series) (idx : list (nat * option nat)) :
  take_right s idx
  = map (fun p => match snd p with
                  | Some k =>
                      nth k (if existsb no_partner idx && forallb is_int s
                             then map upcast s else s) NaN
                  | None => NaN
                  end) idx.
Proof.
  unfold take_right.
  destruct (existsb no_partner idx && forallb is_int s); [|reflexivity].
  rewrite map_map. apply map_ext. intros p.
  destruct (snd p) as [k|]; [|reflexivity].
  change (@NaN float) with (upcast (@NaN float)) at 2.
  now rewrite map_nth.
Qed.

(** The records of the merged frame are the records of the joined pairs. *)
Lemma merged_rows (df1 df2 : DataFrame) (sel : selectors) (t : tables) :
  generate df1 df2 sel = inr t ->
  exists s1 s2,
    getitem df1 (brief_name_col sel) = inr s1 /\
    getitem df2 (brief_req_col sel) = inr s2 /\
    merged_along t sel (row_pairs s1 s2).
Proof.
  intros G.
  destruct (merged_along_row_pairs _ _ _ _ G)
    as (s1 & s2 & left & right & Hs1 & Hs2 & Hl & Hr & Hne & Hmap & Hall).
  exists s1, s2. refine (conj Hs1 (conj Hs2 _)).
  exists left, right. refine (conj Hl (conj Hr _)).
  pose proof (merged_len _ _ _ _ _ _ G Hs1 Hs2) as Hlen.
  set (pairs := row_pairs s1 s2) in *.
  unfold right_side.
  set (right' := if String.eqb (brief_name_col sel) (brief_req_col sel)
                 then drop_label right (brief_req_col sel)
                 else right) in *.
  unfold rows. rewrite Hlen.
  rewrite <- (map_nth_seq
                (merged_record left (upcast_frame pairs right')) pairs
                (0, None)).
  apply map_ext_in. intros q Hq. apply in_seq in Hq.
  assert (Hrow : row (t_merged_df t) q
                 = map (fun s : Series => nth q s NaN)
                       (map snd (t_merged_df t)))
    by (unfold row; now rewrite map_map).
  rewrite Hrow, Hmap.
  rewrite map_app, !map_map. unfold merged_record. f_equal.
  - unfold row. apply map_ext. intros c. unfold take_left.
    apply (nth_map_in (fun p => nth (fst p) (snd c) NaN)). lia.
  - transitivity
      (map (fun c : label * Series =>
              match snd (nth q pairs (0, None)) with
              | Some k =>
                  nth k (if existsb no_partner pairs && forallb is_int (snd c)
                         then map upcast (snd c) else snd c) NaN
              | None => NaN
              end) right').
    + apply map_ext. intros c. rewrite take_right_cast.
      apply (nth_map_in
               (fun p : nat * option nat =>
                  match snd p with
                  | Some k =>
                      nth k (if existsb no_partner pairs
                                && forallb is_int (snd c)
                             then map upcast (snd c) else snd c) NaN
                  | None => NaN
                  end)). lia.
    + destruct (snd (nth q pairs (0, None))) as [k|].
      * unfold row, upcast_frame. rewrite map_map. reflexivity.
      * unfold upcast_frame. rewrite map_map. reflexivity.
Qed.

(** *** The joined pairs *)

Lemma positions_from_filter (k : scalar) (keys : Series) (j0 : nat) :
  positions_from k keys j0
  = filter (fun p => key_eqb k (nth (p - j0) keys NaN))
           (seq j0 (length keys)).
Proof.
  revert j0. induction keys as [|y rest IH]; intros j0; simpl;
    [reflexivity|].
  rewrite Nat.sub_diag. rewrite IH.
  assert (E : filter (fun p => key_eqb k (nth (p - S j0) rest NaN))
                     (seq (S j0) (length rest))
              = filter (fun p => key_eqb k
                                   match p - j0 with
                                   | 0 => y
                                   | S m => nth m rest NaN
                                   end)
                       (seq (S j0) (length rest))).
  { apply filter_ext_in. intros p Hp. apply in_seq in Hp.
    replace (p - j0) with (S (p - S j0)) by lia. reflexivity. }
  rewrite E. destruct (key_eqb k y); reflexivity.
Qed.

Lemma positions_same_key (x : scalar) (s : Series) :
  positions (key_cell x) (map key_cell s) = same_key_positions x s.
Proof.
  unfold positions, same_key_positions.
  rewrite positions_from_filter, length_map.
  apply filter_ext_in. intros p Hp. apply in_seq in Hp.
  rewrite Nat.sub_0_r. unfold same_key. f_equal.
  apply (nth_map_in key_cell). lia.
Qed.

Lemma left_indexer_from_spec_pairs (s1 s2 : Series) (i0 : nat) :
  left_indexer_from (map key_cell s1) (map key_cell s2) i0
  = flat_map (fun jx => match same_key_positions (snd jx) s2 with
                        | [] => [(fst jx, None)]
                        | ks => map (fun k => (fst jx, Some k)) ks
                        end)
             (combine (seq i0 (length s1)) s1).
Proof.
  revert i0. induction s1 as [|x rest IH]; intros i0; simpl;
    [reflexivity|].
  rewrite IH. unfold join_row. now rewrite positions_same_key.
Qed.

(** The pairs of the merge are the pairs of the contract. *)
Lemma row_pairs_spec (s1 s2 : Series) : row_pairs s1 s2 = spec_pairs s1 s2.
Proof.
  unfold row_pairs, left_indexer, spec_pairs.
  rewrite !cleaned_map. apply left_indexer_from_spec_pairs.
Qed.

(** *** The records that a mask keeps *)

Lemma filter_seq_shift (f : nat -> bool) (n : nat) :
  filter f (seq 1 n) = map S (filter (fun j => f (S j)) (seq 0 n)).
Proof.
  rewrite <- seq_shift. induction (seq 0 n) as [|a l IH]; simpl;
    [reflexivity|].
  destruct (f (S a)); simpl; now rewrite IH.
Qed.

(** The positions that a mask keeps. *)
Lemma mask_filter_positions {A} (m : list bool) (l : list A) (d : A) :
  length l = length m ->
  mask_filter m l
  = map (fun j => nth j l d)
        (filter (fun j => nth j m false) (seq 0 (length m))).
Proof.
  revert l. induction m as [|b m IH]; intros l Hl.
  - destruct l; reflexivity.
  - destruct l as [|x l]; [discriminate|]. simpl in Hl.
    cbn [mask_filter length seq filter nth].
    rewrite filter_seq_shift, (IH l) by lia.
    destruct b; cbn [map nth]; rewrite map_map; reflexivity.
Qed.

(** The records of a filtered frame are the records at the positions that
    the mask keeps. *)
Lemma rows_filter_rows_positions (df : DataFrame) (m : list bool) :
  df <> [] ->
  Forall (fun c => length (snd c) = length m) df ->
  rows (filter_rows df m)
  = map (row df) (filter (fun j => nth j m false) (seq 0 (length m))).
Proof.
  intros Hne Hall.
  set (kept := filter (fun j => nth j m false) (seq 0 (length m))).
  assert (Hcols : forall c, In c df ->
            mask_filter m (snd c) = map (fun j => nth j (snd c) NaN) kept).
  { intros c Hc. apply mask_filter_positions.
    rewrite Forall_forall in Hall. auto. }
  assert (Hlen : len (filter_rows df m) = length kept).
  { destruct df as [|[l0 s0] rest]; [congruence|]. simpl.
    pose proof (Hcols (l0, s0) (or_introl eq_refl)) as E.
    cbn [snd] in E. rewrite E. apply length_map. }
  unfold rows. rewrite Hlen.
  rewrite <- (map_nth_seq (row df) kept 0).
  apply map_ext_in. intros i Hi. apply in_seq in Hi.
  unfold row, filter_rows. rewrite map_map. apply map_ext_in.
  intros c Hc. cbn [snd].
  etransitivity; [exact (f_equal (fun l => nth i l NaN) (Hcols c Hc))|].
  apply (nth_map_in (fun j => nth j (snd c) NaN)). lia.
Qed.

(** The positions that the mask of the unmatched records keeps. *)
Lemma unmatched_mask_positions (s v : Series) :
  filter (fun j => nth j (map negb (isin (str_strip (astype_str s))
                                         (str_strip (astype_str v)))) false)
         (seq 0 (length s))
  = lonely s v.
Proof.
  unfold lonely. apply filter_ext_in. intros j Hj. apply in_seq in Hj.
  destruct (nth_error s j) as [x|] eqn:Hx;
    [|apply nth_error_None in Hx; lia].
  apply nth_error_nth.
  rewrite (unmatched_mask_nth s v j x Hx).
  now rewrite (nth_error_nth _ _ NaN Hx).
Qed.

(** The records of an unmatched list. *)
Lemma unmatched_rows (df other : DataFrame) (col other_col : label)
      (s v : Series) :
  df <> [] ->
  Forall (fun c => length (snd c) = length s) df ->
  getitem df col = inr (str_strip (astype_str s)) ->
  getitem other other_col = inr (str_strip (astype_str v)) ->
  exists um,
    unmatched df col other other_col = inr um /\
    rows um = map (row df) (lonely s v).
Proof.
  intros Hne Hall Hs Hv. eexists.
  split; [exact (unmatched_eq _ _ _ _ _ _ Hs Hv)|].
  rewrite rows_filter_rows_positions; auto.
  - now rewrite unmatched_mask_length, unmatched_mask_positions.
  - now rewrite unmatched_mask_length.
Qed.

Lemma lonely_spec (s v : Series) (j : nat) (x : scalar) :
  nth_error s j = Some x ->
  (In j (lonely s v) <-> forall y, In y v -> same_key x y = false).
Proof.
  intros Hx. unfold lonely. rewrite filter_In, in_seq.
  rewrite (nth_error_nth _ _ NaN Hx), negb_true_iff, none_equal.
  assert (j < length s) by (apply nth_error_Some; congruence).
  split; [tauto|]. intros Hall. split; [lia|assumption].
Qed.

(** A record is left out of the unmatched list exactly when the merge joins
    it with some record of the other frame. *)
Lemma not_lonely_left (s1 s2 : Series) (j : nat) (x : scalar) :
  nth_error s1 j = Some x ->
  (~ In j (lonely s1 s2) <-> exists k, In (j, Some k) (row_pairs s1 s2)).
Proof.
  intros Hx. rewrite (lonely_spec s1 s2 j x Hx), <- none_equal. split.
  - intros Hn. destruct (existsb (same_key x) s2) eqn:E; [|congruence].
    apply some_equal in E. destruct E as (k & y & Hy & E).
    exists k. apply row_pairs_match. eauto.
  - intros (k & Hin) C. apply row_pairs_match in Hin.
    destruct Hin as (x' & y & Hx' & Hy & E).
    rewrite Hx in Hx'. inversion Hx'; subst x'.
    assert (T : existsb (same_key x) s2 = true) by (apply some_equal; eauto).
    congruence.
Qed.

Lemma not_lonely_right (s1 s2 : Series) (k : nat) (y : scalar) :
  nth_error s2 k = Some y ->
  (~ In k (lonely s2 s1) <-> exists j, In (j, Some k) (row_pairs s1 s2)).
Proof.
  intros Hy. rewrite (lonely_spec s2 s1 k y Hy), <- none_equal. split.
  - intros Hn. destruct (existsb (same_key y) s1) eqn:E; [|congruence].
    apply some_equal in E. destruct E as (j & x & Hx & E).
    exists j. apply row_pairs_match. exists x, y.
    rewrite same_key_sym. auto.
  - intros (j & Hin) C. apply row_pairs_match in Hin.
    destruct Hin as (x & y' & Hx & Hy' & E).
    rewrite Hy in Hy'. inversion Hy'; subst y'.
    assert (T : existsb (same_key y) s1 = true).
    { apply some_equal. exists j, x. rewrite same_key_sym. auto. }
    congruence.
Qed.

End RecordFacts.

Section EdgeProperties.

Context {float : Type} `{Runtime float}.

Local Abbreviation DataFrame := (@DataFrame float).
Local Abbreviation Series := (@Series float).
Local Abbreviation scalar := (@scalar float).

Lemma setitem_twice (df : DataFrame) (l : label) (s : Series) :
  has_label df l = true -> setitem (setitem df l s) l s = setitem df l s.
Proof.
  intros Hl.
  assert (Hl' : has_label (setitem df l s) l = true).
  { unfold has_label. rewrite columns_setitem, Hl. exact Hl. }
  unfold setitem at 1. fold (has_label (setitem df l s) l). rewrite Hl'.
  unfold setitem. fold (has_label df l). rewrite Hl.
  rewrite map_map. apply map_ext. intros [l' s']. simpl.
  destruct (String.eqb_spec l' l) as [->|Hne]; simpl.
  - now rewrite String.eqb_refl.
  - apply String.eqb_neq in Hne. now rewrite Hne.
Qed.

Lemma key_cell_idempotent (x : scalar) : key_cell (key_cell x) = key_cell x.
Proof.
  destruct (key_cell_cases x) as [(_ & K & ->)|(_ & ->)].
  - unfold key_cell, astype_str_cell. now rewrite K.
  - unfold key_cell, astype_str_cell, str_strip_cell, key_text. simpl py_str.
    now rewrite strip_idempotent.
Qed.

(** X13. Cleaning a column that is already cleaned changes nothing, and no
    cell of a cleaned column has whitespace left at either end: every cell
    is text that [lstrip] and [rstrip] leave as it is; where [astype(str)]
    keeps missing values, and only there, a cell can also be a missing
    value. *)
Theorem X13_cleaning_twice (df d : DataFrame) (col : label) :
  clean df col = inr d ->
  clean d col = inr d /\
  exists s, getitem d col = inr s /\
            forall v, In v s ->
                      (astype_str_keeps_na = true /\ v = NaN) \/
                      exists x, v = SStr x /\ PyStr.lstrip x = x /\
                                PyStr.rstrip x = x.
Proof.
  intros E. apply clean_inv in E. destruct E as (s0 & Hs0 & ->).
  pose proof (getitem_setitem_same _ _ _ (str_strip (astype_str s0)) Hs0)
    as Hg.
  split.
  - unfold clean. rewrite Hg. cbn [bind]. unfold ret. f_equal.
    replace (str_strip (astype_str (str_strip (astype_str s0))))
      with (str_strip (astype_str s0) : Series).
    + apply setitem_twice.
      destruct (has_label df col) eqn:E; [reflexivity|].
      apply has_label_lookup in E. apply getitem_inv in Hs0.
      rewrite E in Hs0. discriminate.
    + rewrite !cleaned_map, map_map. apply map_ext. intros x.
      now rewrite key_cell_idempotent.
  - exists (str_strip (astype_str s0)). split; [exact Hg|].
    intros v Hv. apply cleaned_In in Hv. destruct Hv as (x & _ & ->).
    destruct (key_cell_cases x) as [(_ & K & ->)|(_ & ->)]; [left; auto|].
    right. exists (key_text x). split; [reflexivity|]. unfold key_text. split.
    + apply lstrip_strip.
    + apply rstrip_idempotent.
Qed.

(** *** A frame without records *)

Lemma left_indexer_from_alone (lk : Series) (i0 : nat) :
  left_indexer_from lk [] i0 = map (fun j => (j, None)) (seq i0 (length lk)).
Proof.
  revert i0. induction lk as [|k rest IH]; intros i0; simpl; [reflexivity|].
  now rewrite IH.
Qed.

Lemma take_right_no_partner (s : Series) (n i0 : nat) :
  take_right s (map (fun j => (j, None)) (seq i0 n)) = repeat NaN n.
Proof.
  assert (V : map (fun p : nat * option nat =>
                     match snd p with
                     | Some j => nth j s NaN
                     | None => NaN
                     end) (map (fun j => (j, None)) (seq i0 n))
              = repeat NaN n).
  { rewrite map_map. simpl. revert i0.
    induction n as [|n IH]; intros i0; simpl; [reflexivity|].
    now rewrite IH. }
  unfold take_right. rewrite V.
  destruct (existsb no_partner _ && forallb is_int s); [|reflexivity].
  clear V. induction n as [|n IH]; simpl; [reflexivity|]. now rewrite IH.
Qed.

Lemma mask_filter_all {A} (l : list A) :
  mask_filter (repeat true (length l)) l = l.
Proof. induction l as [|a l IH]; simpl; [|rewrite IH]; reflexivity. Qed.

Lemma filter_rows_all (df : DataFrame) (n : nat) :
  Forall (fun c => length (snd c) = n) df ->
  filter_rows df (repeat true n) = df.
Proof.
  intros Hall. unfold filter_rows.
  induction Hall as [|[l s] rest Hs _ IH]; simpl; [reflexivity|].
  simpl in Hs. rewrite IH, <- Hs, mask_filter_all. reflexivity.
Qed.

Lemma mask_filter_nil {A} (m : list bool) : mask_filter m (@nil A) = [].
Proof. destruct m as [|[|] m]; reflexivity. Qed.

Lemma unmatched_mask_nil (s : Series) :
  map negb (isin s []) = repeat true (length s).
Proof.
  unfold isin. rewrite map_map.
  induction s as [|x s IH]; simpl; [reflexivity|f_equal; exact IH].
Qed.

Lemma header_only_column (df : DataFrame) (l : label) (s : Series) :
  Forall (fun c => snd c = []) df -> getitem df l = inr s -> s = [].
Proof.
  intros Hall Hs. apply getitem_In in Hs. rewrite Forall_forall in Hall.
  apply (Hall _ Hs).
Qed.

Lemma header_only_rectangular (df : DataFrame) :
  Forall (fun c => snd c = []) df ->
  Forall (fun c => length (snd c) = 0) df.
Proof.
  intros Hall. eapply Forall_impl; [|exact Hall].
  intros c Hc. simpl in Hc. now rewrite Hc.
Qed.

(** X9. A Secondary upload that has a header and no records, under a well
    chosen selection and a Primary upload whose columns have one length:
    the run succeeds, the merged frame has one row per Primary record, the
    amount column of the merged frame holds missing values only, every
    record of the result has a missing amount, every Primary record is in
    the unmatched list of CSV 1 and the unmatched list of CSV 2 is empty. *)
Theorem X9_header_only_secondary
        (df1 df2 : DataFrame) (sel : selectors) (rows1 : nat) :
  well_chosen df1 df2 sel = true ->
  Forall (fun c => length (snd c) = rows1) df1 ->
  Forall (fun c => snd c = []) df2 ->
  exists t,
    generate df1 df2 sel = inr t /\
    len (t_merged_df t) = rows1 /\
    getitem (t_merged_df t) (issued_amount_col sel) = inr (repeat NaN rows1) /\
    (forall rec, In rec (rows (t_result_df t)) ->
                 exists c n l, rec = [c; n; l; NaN]) /\
    unmatched (t_df1 t) (brief_name_col sel) (t_df2 t) (brief_req_col sel)
    = inr (t_df1 t) /\
    unmatched (t_df2 t) (brief_req_col sel) (t_df1 t) (brief_name_col sel)
    = inr (t_df2 t) /\
    len (t_df2 t) = 0.
Proof.
  intros W R1 R2.
  destruct (result_records _ _ _ W)
    as (sc & s1 & ids & s2 & sa & t & Hc & Hn & Hi & Hr & Ha & G & Hrows
        & _ & _).
  destruct (generate_explicit _ _ _ W)
    as (sc' & s1' & ids' & s2' & sa' & t' & _ & Hn' & _ & Hr' & Ha' & G' &
        _ & _ & _ & Ma).
  rewrite G in G'. inversion G'; subst t'. clear G'.
  rewrite Hn in Hn'. rewrite Hr in Hr'. rewrite Ha in Ha'.
  inversion Hn'; inversion Hr'; inversion Ha'; subst s1' s2' sa'.
  clear Hn' Hr' Ha'.
  pose proof (header_only_column _ _ _ R2 Hr) as E2. subst s2.
  assert (L1 : length s1 = rows1).
  { rewrite Forall_forall in R1. apply (R1 _ (getitem_In _ _ _ Hn)). }
  assert (P : row_pairs s1 [] = map (fun j => (j, None)) (seq 0 rows1)).
  { unfold row_pairs, left_indexer. cbn [astype_str str_strip map].
    rewrite left_indexer_from_alone, cleaned_map, length_map, L1.
    reflexivity. }
  cbv zeta in Hrows. rewrite P in *. rewrite take_right_no_partner in *.
  pose proof (working_frames_shape _ _ _ _ _ _ G R1
                (header_only_rectangular _ R2)) as (A1 & A2 & _ & Z2).
  pose proof (generate_keys _ _ _ _ G)
    as (k1 & k2 & _ & _ & Hk1 & Hk2 & T1 & T2 & _).
  rewrite Hn in Hk1. rewrite Hr in Hk2.
  inversion Hk1; inversion Hk2; subst k1 k2. clear Hk1 Hk2.
  exists t. split; [exact G|]. split.
  { rewrite (merged_len _ _ _ _ _ _ G Hn Hr), P.
    now rewrite length_map, length_seq. }
  split; [exact Ma|]. split.
  { intros rec Hrec. rewrite Hrows in Hrec. apply in_map_iff in Hrec.
    destruct Hrec as ([p v] & <- & Hq). apply filter_In in Hq.
    destruct Hq as [Hq _]. apply in_combine_r in Hq.
    apply repeat_spec in Hq. subst v. unfold joined_record. simpl. eauto. }
  split.
  { rewrite (unmatched_eq _ _ _ _ _ _ T1 T2). f_equal.
    cbn [astype_str str_strip map]. rewrite unmatched_mask_nil.
    apply filter_rows_all. rewrite cleaned_map, length_map, L1. exact A1. }
  split; [|exact Z2].
  rewrite (unmatched_eq _ _ _ _ _ _ T2 T1). f_equal.
  cbn [astype_str str_strip map isin]. apply (filter_rows_all _ 0). exact A2.
Qed.

(** X10. A Primary upload that has a header and no records, in a run that
    builds its tables: the merged frame and the result have no rows, the
    unmatched list of CSV 1 is empty and every Secondary record is in the
    unmatched list of CSV 2. *)
Theorem X10_header_only_primary
        (df1 df2 : DataFrame) (sel : selectors) (t : tables) (rows2 : nat) :
  generate df1 df2 sel = inr t ->
  Forall (fun c => snd c = []) df1 ->
  Forall (fun c => length (snd c) = rows2) df2 ->
  len (t_df1 t) = 0 /\
  len (t_merged_df t) = 0 /\
  len (t_result_df t) = 0 /\
  rows (t_result_df t) = [] /\
  unmatched (t_df1 t) (brief_name_col sel) (t_df2 t) (brief_req_col sel)
  = inr (t_df1 t) /\
  unmatched (t_df2 t) (brief_req_col sel) (t_df1 t) (brief_name_col sel)
  = inr (t_df2 t).
Proof.
  intros G R1 R2.
  pose proof (working_frames_shape _ _ _ _ _ _ G
                (header_only_rectangular _ R1) R2) as (A1 & A2 & Z1 & _).
  pose proof (generate_keys _ _ _ _ G)
    as (s1 & s2 & _ & _ & Hs1 & Hs2 & T1 & T2 & _).
  pose proof (header_only_column _ _ _ R1 Hs1) as E1. subst s1.
  assert (L2 : length s2 = rows2).
  { rewrite Forall_forall in R2. apply (R2 _ (getitem_In _ _ _ Hs2)). }
  assert (M : len (t_merged_df t) = 0).
  { rewrite (merged_len _ _ _ _ _ _ G Hs1 Hs2). reflexivity. }
  assert (Z : len (t_result_df t) = 0).
  { pose proof (merged_along_row_pairs _ _ _ _ G)
      as (s1' & s2' & _ & _ & Hs1' & Hs2' & _ & _ & _ & _ & Hall).
    rewrite Hs1 in Hs1'. rewrite Hs2 in Hs2'.
    inversion Hs1'; inversion Hs2'; subst s1' s2'.
    pose proof (generate_inv _ _ _ _ G)
      as (_ & _ & _ & _ & _ & r0 & _ & _ & _ & _ & _ & _ & _ & _ & Hb & Hd).
    apply build_result_inv in Hb.
    destruct Hb as (c & n & l & a & Hc & _ & _ & _ & ->).
    rewrite drop_empty_links_total in Hd. inversion Hd as [Er].
    apply getitem_In in Hc. rewrite Forall_forall in Hall.
    apply Hall in Hc. simpl in Hc.
    apply length_zero_iff_nil in Hc. subst c.
    unfold filter_rows. simpl. now rewrite mask_filter_nil. }
  repeat split; auto.
  - unfold rows. now rewrite Z.
  - rewrite (unmatched_eq _ _ _ _ _ _ T1 T2). f_equal.
    cbn [astype_str str_strip map isin]. apply (filter_rows_all _ 0).
    exact A1.
  - rewrite (unmatched_eq _ _ _ _ _ _ T2 T1). f_equal.
    cbn [astype_str str_strip map]. rewrite unmatched_mask_nil.
    apply filter_rows_all. rewrite cleaned_map, length_map, L2. exact A2.
Qed.

(** *** Repeated keys *)

Lemma sorted_NoDup (l : list nat) : StronglySorted lt l -> NoDup l.
Proof.
  induction 1 as [|a l _ IH Hall]; constructor; auto.
  intros Hin. rewrite Forall_forall in Hall. apply Hall in Hin. lia.
Qed.

Lemma once_in_sorted (k : nat) (l : list nat) :
  StronglySorted lt l ->
  length (filter (Nat.eqb k) l) = if existsb (Nat.eqb k) l then 1 else 0.
Proof.
  induction 1 as [|a l _ IH Hall]; simpl; [reflexivity|].
  destruct (Nat.eqb_spec k a) as [->|Hne]; simpl; [|exact IH].
  rewrite filter_none; [reflexivity|].
  intros x Hx. rewrite Forall_forall in Hall. apply Hall in Hx.
  apply Nat.eqb_neq. lia.
Qed.

Lemma count_position (x : scalar) (rk : Series) (k : nat) (y : scalar) :
  nth_error rk k = Some y ->
  length (filter (Nat.eqb k) (positions x rk))
  = if key_eqb x y then 1 else 0.
Proof.
  intros Hy. unfold positions.
  rewrite once_in_sorted by apply positions_from_sorted.
  fold (positions x rk).
  destruct (existsb (Nat.eqb k) (positions x rk)) eqn:E.
  - apply existsb_exists in E. destruct E as (k' & Hin & Ek).
    apply Nat.eqb_eq in Ek. subst k'. apply positions_spec in Hin.
    destruct Hin as (y' & Hy' & Hk). rewrite Hy in Hy'.
    inversion Hy'; subst y'. now rewrite Hk.
  - destruct (key_eqb x y) eqn:Hk; [|reflexivity].
    assert (T : existsb (Nat.eqb k) (positions x rk) = true).
    { apply existsb_exists. exists k. split; [|apply Nat.eqb_refl].
      apply positions_spec. eauto. }
    congruence.
Qed.

Lemma join_row_partner (rk : Series) (i k : nat) (x y : scalar) :
  nth_error rk k = Some y ->
  length (filter (joined_with k) (join_row rk i x))
  = if key_eqb x y then 1 else 0.
Proof.
  intros Hy. rewrite <- (count_position x rk k y Hy).
  unfold join_row. destruct (positions x rk) as [|j js]; [reflexivity|].
  generalize (j :: js). intros l.
  induction l as [|a l IH]; simpl; [reflexivity|].
  unfold joined_with at 1. simpl.
  destruct (Nat.eqb k a); simpl; now rewrite IH.
Qed.

Lemma left_indexer_from_partner (lk rk : Series) (i0 k : nat) (y : scalar) :
  nth_error rk k = Some y ->
  length (filter (joined_with k) (left_indexer_from lk rk i0))
  = length (filter (fun x => key_eqb x y) lk).
Proof.
  intros Hy. revert i0. induction lk as [|x rest IH]; intros i0; simpl;
    [reflexivity|].
  rewrite filter_app, length_app, (join_row_partner rk i0 k x y Hy), IH.
  destruct (key_eqb x y); reflexivity.
Qed.

Lemma join_row_NoDup (rk : Series) (i : nat) (x : scalar) :
  NoDup (join_row rk i x).
Proof.
  unfold join_row.
  assert (N : NoDup (positions x rk))
    by apply sorted_NoDup, positions_from_sorted.
  destruct (positions x rk) as [|j js].
  - constructor; [simpl; tauto|constructor].
  - induction N as [|a l Hnin _ IH]; simpl; constructor; auto.
    intros Hin. apply in_map_iff in Hin. destruct Hin as (b & Eb & Hb).
    inversion Eb; subst b. contradiction.
Qed.

Lemma left_indexer_from_NoDup (lk rk : Series) (i0 : nat) :
  NoDup (left_indexer_from lk rk i0).
Proof.
  revert i0. induction lk as [|x rest IH]; intros i0; simpl;
    [constructor|].
  apply NoDup_app; auto using join_row_NoDup.
  intros p Hp Hq. apply join_row_spec in Hp. destruct Hp as [Hp _].
  apply left_indexer_from_spec in Hq. destruct Hq as (_ & Hle & _). lia.
Qed.

Lemma row_pairs_per_secondary (s1 s2 : Series) (k : nat) (y : scalar) :
  nth_error s2 k = Some y ->
  length (filter (joined_with k) (row_pairs s1 s2)) = partners y s1.
Proof.
  intros Hy. unfold row_pairs, left_indexer.
  rewrite (left_indexer_from_partner _ _ 0 k (key_cell y)).
  - rewrite cleaned_map. unfold partners.
    induction s1 as [|x rest IH]; simpl; [reflexivity|].
    fold (same_key x y). rewrite (same_key_sym x y).
    destruct (same_key y x); simpl; now rewrite IH.
  - apply cleaned_nth_error. eauto.
Qed.

(** X14. The records of the merged frame are the records of the joined
    pairs, no pair is joined twice, and a Secondary record is in as many
    records of the merged frame as there are Primary records with its
    trimmed key: an amount is repeated in the merged frame once per Primary
    record that asks for it, and is absent when none does. *)
Theorem X14_rows_per_secondary_record
        (df1 df2 : DataFrame) (sel : selectors) (t : tables) :
  generate df1 df2 sel = inr t ->
  exists s1 s2,
    getitem df1 (brief_name_col sel) = inr s1 /\
    getitem df2 (brief_req_col sel) = inr s2 /\
    merged_along t sel (row_pairs s1 s2) /\
    NoDup (row_pairs s1 s2) /\
    forall k y, nth_error s2 k = Some y ->
                length (filter (joined_with k) (row_pairs s1 s2))
                = partners y s1.
Proof.
  intros G. destruct (merged_rows _ _ _ _ G) as (s1 & s2 & Hs1 & Hs2 & M).
  exists s1, s2. refine (conj Hs1 (conj Hs2 (conj M (conj _ _)))).
  - apply left_indexer_from_NoDup.
  - intros k y. apply row_pairs_per_secondary.
Qed.

End EdgeProperties.

(** * The contracts of the specification *)

Section ContractProperties.

Context {float : Type} `{Runtime float}.

Local Abbreviation DataFrame := (@DataFrame float).
Local Abbreviation Series := (@Series float).
Local Abbreviation scalar := (@scalar float).


Lemma key_cell_present (x y : scalar) :
  notna x = true -> notna y = true ->
  (key_cell x = key_cell y <->
   PyStr.strip (py_str x) = PyStr.strip (py_str y)).
Proof.
  intros Nx Ny. rewrite <- (same_key_text x y Nx Ny). symmetry.
  apply same_key_eq.
Qed.

Lemma key_cell_missing :
  key_cell (NaN : scalar)
  = (if astype_str_keeps_na then NaN else SStr "nan") /\
  key_cell (NaN : scalar) <> SStr "".
Proof.
  unfold key_cell, astype_str_cell.
  destruct astype_str_keeps_na; simpl; split; try reflexivity; discriminate.
Qed.

(** *** The link *)

(** The column Brief_Link of the working frame of a run. *)
Lemma working_link_column
      (df1 df2 : DataFrame) (sel : selectors) (t : tables) :
  generate df1 df2 sel = inr t ->
  exists ids,
    getitem df1 (brief_id_col sel) = inr ids /\
    getitem (setitem df1 (brief_name_col sel)
               (str_strip (astype_str
                  match getitem df1 (brief_name_col sel) with
                  | inr s1 => s1
                  | inl _ => []
                  end))) (brief_id_col sel) = inr ids /\
    getitem (t_df1 t) "Brief_Link"
    = inr (map (fun x => SStr (link_text x)) ids) /\
    client_col sel <> "Brief_Link" /\
    brief_id_col sel <> "Brief_Link".
Proof.
  intros G.
  pose proof (generate_distinct_keys _ _ _ _ G) as (_ & Hin & _ & _).
  pose proof (generate_keys _ _ _ _ G)
    as (s1 & s2 & left & right & Hs1 & Hs2 & _ & _ & Hl & Hr & Hlk & Hrk & Hm).
  pose proof (generate_inv _ _ _ _ G)
    as (s1' & _ & ids & _ & _ & r0 & Hs1' & _ & Hids & Hd1 & _ & _ & _ & _
        & Hb & _).
  rewrite Hs1 in Hs1'. inversion Hs1'; subst s1'. clear Hs1'.
  exists ids. rewrite Hs1.
  assert (Hids' := Hids).
  apply getitem_inv in Hids'.
  rewrite lookup_all_setitem_other in Hids' by assumption.
  apply getitem_inv in Hids'.
  refine (conj Hids' (conj Hids _)).
  apply build_result_inv_link in Hb. destruct Hb as (l & Hb).
  apply getitem_inv in Hb.
  destruct (select_inv _ _ _ Hl) as [Hall Hlook].
  inversion Hall as [|? ? Hc Hall1]; subst.
  inversion Hall1 as [|? ? _ Hall2]; subst.
  inversion Hall2 as [|? ? Hi _]; subst.
  apply nonempty_length in Hc, Hi.
  assert (HA : exists k, lookup_all (t_df1 t) "Brief_Link"
                         = repeat (map brief_link (astype_str ids)) (S k)).
  { rewrite Hd1, lookup_all_setitem_same.
    destruct (lookup_all
                (setitem df1 (brief_name_col sel) (str_strip (astype_str s1)))
                "Brief_Link") as [|x xs].
    - exists 0. reflexivity.
    - exists (length xs).
      apply (map_const_repeat (map brief_link (astype_str ids)) (x :: xs)). }
  destruct HA as [k HA].
  destruct (merge_lookup_cols _ _ _ _ _ "Brief_Link" _ _ Hlk Hrk Hm)
    as [Hnone|Hcols].
  - intros l'. apply suffixed_is_not_brief_link.
  - intros l'. apply suffixed_is_not_brief_link.
  - congruence.
  - rewrite Hb, Hlook in Hcols. cbn [flat_map] in Hcols.
    rewrite String.eqb_refl, HA, app_nil_r in Hcols.
    rewrite !map_app in Hcols.
    assert (Hlen := f_equal (@length _) Hcols).
    rewrite !length_app, !length_map, repeat_length in Hlen.
    cbn [length] in Hlen.
    assert (k = 0) by lia. subst k. cbn [repeat] in HA.
    destruct (String.eqb_spec (client_col sel) "Brief_Link") as [C|NC];
      [exfalso; lia|].
    destruct (String.eqb_spec (brief_id_col sel) "Brief_Link") as [C|NI];
      [exfalso; lia|].
    refine (conj _ (conj NC NI)).
    apply getitem_inv. rewrite HA, brief_links_map. reflexivity.
Qed.



(** Under pandas 1 and 2 the link of a missing Brief ID is the prefix
    followed by nan, and the guard [pd.notna(x)] of line 76 is never
    false. *)
Lemma link_of_missing_id_before_pandas_3
      (df1 df2 : DataFrame) (sel : selectors) (t : tables) :
  astype_str_keeps_na = false ->
  generate df1 df2 sel = inr t ->
  exists ids links,
    getitem df1 (brief_id_col sel) = inr ids /\
    getitem (t_df1 t) "Brief_Link" = inr links /\
    forall j, nth_error ids j = Some NaN ->
              nth_error links j = Some (SStr (base_url ++ "nan")).
Proof.
  intros K G.
  destruct (working_link_column _ _ _ _ G) as (ids & Hids & _ & HL & _).
  exists ids. eexists. refine (conj Hids (conj HL _)).
  intros j Hj. rewrite nth_error_map, Hj. simpl.
  unfold link_text, key_text, astype_str_cell. now rewrite K.
Qed.

(** *** The cleaning step *)

(** C3. Cleaning a column replaces every value that is present by its
    string form with the leading and trailing whitespace removed, keeps the
    number and the order of the cells, and leaves the labels and every other
    column as they were. A missing value does not become the empty string:
    it stays missing where [astype(str)] keeps missing values and becomes
    the text nan elsewhere. *)
Theorem C3_clean_column (df : DataFrame) (col : label) (s : Series) :
  getitem df col = inr s ->
  exists df' s',
    clean df col = inr df' /\
    getitem df' col = inr s' /\
    length s' = length s /\
    (forall j x,
       nth_error s j = Some x -> notna x = true ->
       nth_error s' j = Some (SStr (PyStr.strip (py_str x))) /\
       trimmed_of (PyStr.strip (py_str x)) (py_str x)) /\
    (forall j,
       nth_error s j = Some NaN ->
       nth_error s' j
       = Some (if astype_str_keeps_na then NaN else SStr "nan") /\
       nth_error s' j <> Some (SStr "")) /\
    columns df' = columns df /\
    (forall l, l <> col -> lookup_all df' l = lookup_all df l).
Proof.
  intros Hs. exists (setitem df col (str_strip (astype_str s))).
  exists (map key_cell s).
  unfold clean. rewrite Hs. cbn [bind]. unfold ret.
  refine (conj eq_refl (conj _ (conj _ (conj _ (conj _ (conj _ _)))))).
  - rewrite <- cleaned_map. eapply getitem_setitem_same; eauto.
  - apply length_map.
  - intros j x Hx Nx. rewrite nth_error_map, Hx. cbn [option_map].
    rewrite (key_cell_text x Nx). split; [reflexivity|apply strip_trimmed].
  - intros j Hj. rewrite nth_error_map, Hj. cbn [option_map].
    destruct key_cell_missing as [E N]. rewrite E. split; [reflexivity|].
    rewrite <- E. intros C. inversion C as [C']. now apply N.
  - apply columns_setitem_present. apply getitem_inv in Hs. congruence.
  - intros l Hl. now apply lookup_all_setitem_other.
Qed.

(** *** The join *)

(** C2. The records of [merged_df] are, for each Primary record in order,
    one record per Secondary record whose cleaned key equals its own, in the
    order of Secondary, and a single record, in which every Secondary field
    is missing, when there is none. The number of joined records is
    therefore the sum of these per-record counts; it is never less than the
    number of Primary records and equal to it when no Primary record has two
    partners. *)
Theorem C2_rows_per_primary_record
        (df1 df2 : DataFrame) (sel : selectors) (t : tables) :
  generate df1 df2 sel = inr t ->
  exists s1 s2,
    getitem df1 (brief_name_col sel) = inr s1 /\
    getitem df2 (brief_req_col sel) = inr s2 /\
    merged_along t sel (row_pairs s1 s2) /\
    row_pairs s1 s2 = spec_pairs s1 s2 /\
    (forall j x, nth_error s1 j = Some x ->
       length (filter (fun p => Nat.eqb (fst p) j) (row_pairs s1 s2))
       = Nat.max 1 (partners x s2)) /\
    len (t_merged_df t)
    = list_sum (map (fun x => Nat.max 1 (partners x s2)) s1) /\
    length s1 <= len (t_merged_df t) /\
    ((forall x, In x s1 -> partners x s2 <= 1) ->
     len (t_merged_df t) = length s1).
Proof.
  intros G. destruct (merged_rows _ _ _ _ G) as (s1 & s2 & Hs1 & Hs2 & M).
  exists s1, s2.
  pose proof (merged_len _ _ _ _ _ _ G Hs1 Hs2) as Hlen.
  refine (conj Hs1 (conj Hs2 (conj M (conj (row_pairs_spec s1 s2)
            (conj _ _))))).
  - intros j x Hx. now apply row_pairs_per_record.
  - rewrite Hlen, row_pairs_length. split; [reflexivity|split].
    + apply list_sum_ge. intros x. lia.
    + intros Hone. apply list_sum_ones. intros x Hx.
      specialize (Hone x Hx). lia.
Qed.

(** C5. The join compares the cleaned keys: the Primary record at [j] and
    the Secondary record at [k] make a record of [merged_df] exactly when
    the cleaning step leaves the same key in their key cells, which for keys
    that are present means that their string forms with the leading and
    trailing whitespace removed are the same text, compared character by
    character. *)
Theorem C5_match_iff_trimmed_keys_equal
        (df1 df2 : DataFrame) (sel : selectors) (t : tables) :
  generate df1 df2 sel = inr t ->
  exists s1 s2,
    getitem df1 (brief_name_col sel) = inr s1 /\
    getitem df2 (brief_req_col sel) = inr s2 /\
    merged_along t sel (row_pairs s1 s2) /\
    (forall j k,
       In (j, Some k) (row_pairs s1 s2) <->
       exists x y, nth_error s1 j = Some x /\ nth_error s2 k = Some y /\
                   key_cell x = key_cell y) /\
    (forall x y : scalar,
       notna x = true -> notna y = true ->
       (key_cell x = key_cell y <->
        PyStr.strip (py_str x) = PyStr.strip (py_str y))) /\
    (forall s, trimmed_of (PyStr.strip s) s).
Proof.
  intros G. destruct (merged_rows _ _ _ _ G) as (s1 & s2 & Hs1 & Hs2 & M).
  exists s1, s2.
  refine (conj Hs1 (conj Hs2 (conj M (conj _
            (conj key_cell_present strip_trimmed))))).
  intros j k. rewrite row_pairs_match.
  split; intros (x & y & Hx & Hy & E); exists x, y;
    (split; [assumption|split; [assumption|]]); now apply same_key_eq.
Qed.

(** *** The unmatched records *)

(** The records of the two unmatched lists of a run. *)
Lemma unmatched_lists (df1 df2 : DataFrame) (sel : selectors) (t : tables)
      (rows1 rows2 : nat) (s1 s2 : Series) :
  generate df1 df2 sel = inr t ->
  Forall (fun c => length (snd c) = rows1) df1 ->
  Forall (fun c => length (snd c) = rows2) df2 ->
  getitem df1 (brief_name_col sel) = inr s1 ->
  getitem df2 (brief_req_col sel) = inr s2 ->
  exists um1 um2,
    unmatched (t_df1 t) (brief_name_col sel) (t_df2 t) (brief_req_col sel)
    = inr um1 /\
    rows um1 = map (row (t_df1 t)) (lonely s1 s2) /\
    unmatched (t_df2 t) (brief_req_col sel) (t_df1 t) (brief_name_col sel)
    = inr um2 /\
    rows um2 = map (row (t_df2 t)) (lonely s2 s1).
Proof.
  intros G R1 R2 Hs1 Hs2.
  destruct (working_frames_shape _ _ _ _ _ _ G R1 R2) as (A1 & A2 & _ & _).
  pose proof (generate_keys _ _ _ _ G)
    as (k1 & k2 & _ & _ & Hk1 & Hk2 & T1 & T2 & _).
  rewrite Hs1 in Hk1. rewrite Hs2 in Hk2.
  inversion Hk1; inversion Hk2; subst k1 k2. clear Hk1 Hk2.
  pose proof (generate_inv _ _ _ _ G)
    as (a1 & a2 & a3 & a4 & a5 & a6 & _ & _ & _ & Hd1 & Hd2 & _).
  assert (N1 : t_df1 t <> []) by (rewrite Hd1; apply setitem_nonempty).
  assert (N2 : t_df2 t <> []) by (rewrite Hd2; apply setitem_nonempty).
  assert (L1 : length s1 = rows1).
  { rewrite Forall_forall in R1. apply (R1 _ (getitem_In _ _ _ Hs1)). }
  assert (L2 : length s2 = rows2).
  { rewrite Forall_forall in R2. apply (R2 _ (getitem_In _ _ _ Hs2)). }
  destruct (unmatched_rows (t_df1 t) (t_df2 t) (brief_name_col sel)
              (brief_req_col sel) s1 s2 N1)
    as (um1 & U1 & V1); auto; [now rewrite L1|].
  destruct (unmatched_rows (t_df2 t) (t_df1 t) (brief_req_col sel)
              (brief_name_col sel) s2 s1 N2)
    as (um2 & U2 & V2); auto; [now rewrite L2|].
  exists um1, um2. auto.
Qed.


(** C7. A missing Brief Name or Brief Requirement is never cleaned to the
    empty string: the cleaning step leaves it missing where [astype(str)]
    keeps missing values and writes the text nan elsewhere. Either way the
    two cleaned keys are equal, so a Primary record with a missing Brief
    Name makes a record of [merged_df] with every Secondary record with a
    missing Brief Requirement, and neither of the two records is in the
    unmatched lists. *)
Theorem C7_missing_keys_join
        (df1 df2 : DataFrame) (sel : selectors) (t : tables)
        (rows1 rows2 : nat) (s1 s2 : Series) (j k : nat) :
  generate df1 df2 sel = inr t ->
  Forall (fun c => length (snd c) = rows1) df1 ->
  Forall (fun c => length (snd c) = rows2) df2 ->
  getitem df1 (brief_name_col sel) = inr s1 ->
  getitem df2 (brief_req_col sel) = inr s2 ->
  nth_error s1 j = Some NaN ->
  nth_error s2 k = Some NaN ->
  exists lk rk um1 um2,
    getitem (t_df1 t) (brief_name_col sel) = inr lk /\
    getitem (t_df2 t) (brief_req_col sel) = inr rk /\
    nth_error lk j = Some (if astype_str_keeps_na then NaN else SStr "nan") /\
    nth_error rk k = Some (if astype_str_keeps_na then NaN else SStr "nan") /\
    nth_error lk j <> Some (SStr "") /\
    nth_error rk k <> Some (SStr "") /\
    In (j, Some k) (row_pairs s1 s2) /\
    merged_along t sel (row_pairs s1 s2) /\
    unmatched (t_df1 t) (brief_name_col sel) (t_df2 t) (brief_req_col sel)
    = inr um1 /\
    rows um1 = map (row (t_df1 t)) (lonely s1 s2) /\
    ~ In j (lonely s1 s2) /\
    unmatched (t_df2 t) (brief_req_col sel) (t_df1 t) (brief_name_col sel)
    = inr um2 /\
    rows um2 = map (row (t_df2 t)) (lonely s2 s1) /\
    ~ In k (lonely s2 s1).
Proof.
  intros G R1 R2 Hs1 Hs2 Hj Hk.
  destruct (merged_rows _ _ _ _ G) as (s1' & s2' & Hs1' & Hs2' & M).
  rewrite Hs1 in Hs1'. rewrite Hs2 in Hs2'.
  inversion Hs1'; inversion Hs2'; subst s1' s2'. clear Hs1' Hs2'.
  destruct (unmatched_lists _ _ _ _ _ _ _ _ G R1 R2 Hs1 Hs2)
    as (um1 & um2 & U1 & V1 & U2 & V2).
  pose proof (generate_keys _ _ _ _ G)
    as (k1 & k2 & _ & _ & Hk1 & Hk2 & T1 & T2 & _).
  rewrite Hs1 in Hk1. rewrite Hs2 in Hk2.
  inversion Hk1; inversion Hk2; subst k1 k2. clear Hk1 Hk2.
  assert (Hpair : In (j, Some k) (row_pairs s1 s2)).
  { apply row_pairs_match. exists NaN, NaN. auto using same_key_missing. }
  destruct key_cell_missing as [E N].
  assert (Cj : nth_error (str_strip (astype_str s1)) j
               = Some (if astype_str_keeps_na then NaN else SStr "nan")).
  { rewrite <- E. apply cleaned_nth_error. eauto. }
  assert (Ck : nth_error (str_strip (astype_str s2)) k
               = Some (if astype_str_keeps_na then NaN else SStr "nan")).
  { rewrite <- E. apply cleaned_nth_error. eauto. }
  exists (str_strip (astype_str s1)), (str_strip (astype_str s2)), um1, um2.
  refine (conj T1 (conj T2 (conj Cj (conj Ck (conj _ (conj _ (conj Hpair
            (conj M (conj U1 (conj V1 (conj _ (conj U2 (conj V2 _))))))))))))).
  - rewrite Cj, <- E. intros C. inversion C as [C']. now apply N.
  - rewrite Ck, <- E. intros C. inversion C as [C']. now apply N.
  - apply (not_lonely_left s1 s2 j NaN Hj). eauto.
  - apply (not_lonely_right s1 s2 k NaN Hk). eauto.
Qed.

(** *** A second run *)




End ContractProperties.

(** * Worked examples *)

Example strip_alpha : PyStr.strip " Alpha " = "Alpha".
Proof. reflexivity. Qed.

Example strip_keeps_inner_blanks : PyStr.strip "  a b	 " = "a b".
Proof. reflexivity. Qed.

Example str_int_negative : PyStr.str_int (-1500) = "-1500".
Proof. reflexivity. Qed.

(** The example of the specification, with the empty Brief ID of record B
    read as a missing value, under pandas 3: B gets the empty link, is left
    out of the result and is reported as unmatched. *)
Example spec_example_result :
  exists t,
    generate spec_primary spec_secondary spec_selectors = inr t /\
    t_result_df t
    = [("Client_Name", [SStr "A"]);
       ("Brief_Name", [SStr "Alpha"]);
       ("Brief_Link", [SStr (base_url ++ "x1")]);
       ("Issued_Amount", [SFloat 1000%Z])] /\
    unmatched (t_df1 t) "Brief" (t_df2 t) "Req"
    = inr [("Client", [SStr "B"]); ("Brief", [SStr "Beta"]); ("ID", [NaN]);
           ("Brief_Link", [SStr ""])] /\
    unmatched (t_df2 t) "Req" (t_df1 t) "Brief"
    = inr [("Req", []); ("Amount", [])].
Proof. eexists. repeat split; reflexivity. Qed.

(** The same example under pandas 1 and 2: B keeps a link, which ends in
    nan, and stays in the result. *)
Example spec_example_result_before_pandas_3 :
  exists t,
    generate (H := legacy_runtime) spec_primary spec_secondary spec_selectors
    = inr t /\
    t_result_df t
    = [("Client_Name", [SStr "A"; SStr "B"]);
       ("Brief_Name", [SStr "Alpha"; SStr "Beta"]);
       ("Brief_Link", [SStr (base_url ++ "x1"); SStr (base_url ++ "nan")]);
       ("Issued_Amount", [SFloat 1000%Z; NaN])].
Proof. eexists. split; reflexivity. Qed.

(** A missing Brief Name is joined with a missing Brief Requirement under
    either pandas; under pandas 1 and 2 it is also joined with the text nan
    between blanks. *)
Example missing_key_and_the_text_nan :
  row_pairs (float := Z) [NaN] [SStr " nan "; NaN] = [(0, Some 1)] /\
  row_pairs (H := legacy_runtime) [NaN] [SStr " nan "; NaN]
  = [(0, Some 0); (0, Some 1)].
Proof. split; reflexivity. Qed.

(** A selected amount column that carries the label of the client column:
    the merge renames both and the lookup of the client column fails. *)
Example overlapping_labels_fail :
  generate spec_primary
           [("Req", [SStr "Alpha"]); ("Client", [SInt 1000])]
           {| client_col := "Client"; brief_name_col := "Brief";
              brief_id_col := "ID"; brief_req_col := "Req";
              issued_amount_col := "Client" |}
  = inl (KeyError "Client").
Proof. reflexivity. Qed.

(** The same column selected as client and as brief name: the key label is
    carried by two columns of the selection and the merge refuses it. *)
Example client_selected_as_name_fails :
  generate spec_primary spec_secondary
           {| client_col := "Brief"; brief_name_col := "Brief";
              brief_id_col := "ID"; brief_req_col := "Req";
              issued_amount_col := "Amount" |}
  = inl (ValueErrorNotUnique "Brief").
Proof. reflexivity. Qed.

(** Both key columns under one label: the merged frame has a single key
    column. *)
Example shared_key_label :
  exists t,
    generate spec_primary
             [("Brief", [SStr "Alpha"]); ("Amount", [SInt 1000])]
             {| client_col := "Client"; brief_name_col := "Brief";
                brief_id_col := "ID"; brief_req_col := "Brief";
                issued_amount_col := "Amount" |} = inr t /\
    columns (t_merged_df t)
    = ["Client"; "Brief"; "ID"; "Brief_Link"; "Amount"].
Proof. eexists. split; reflexivity. Qed.

(** A selected column that the frame does not have. *)
Example missing_column_fails :
  generate spec_primary spec_secondary
           {| client_col := "Customer"; brief_name_col := "Brief";
              brief_id_col := "ID"; brief_req_col := "Req";
              issued_amount_col := "Amount" |}
  = inl (KeyErrorNotInIndex ["Customer"; "Brief"; "ID"; "Brief_Link"]
                            ["Customer"]).
Proof. reflexivity. Qed.

(** A run whose first upload cannot be parsed shows the error and nothing of
    the results section. *)
Example parse_error_run :
  main (fun csv : option (@DataFrame Z) =>
          match csv with
          | Some df => inr df
          | None => inl (ParserError "Error tokenizing data")
          end)
       (Some None) (Some (Some spec_secondary)) spec_selectors true
  = [st_title "🔗 Bulbshare Link Generator & Data Matcher";
     st_write "Upload two CSVs to generate Bulbshare links with matched data";
     st_columns 2;
     st_subheader "CSV 1 - Main Data";
     st_write
       "Should contain: Client Name (Col A), Brief Name (Col C), Brief ID (Col ID)";
     st_file_uploader "Upload CSV 1" "csv1";
     st_subheader "CSV 2 - Requirements & Amounts";
     st_write
       "Should contain: Brief Requirements (Col D), Issued Amount (Col H)";
     st_file_uploader "Upload CSV 2" "csv2";
     st_error "❌ Error processing files: Error tokenizing data";
     st_write "Please check that your CSV files are formatted correctly."].
Proof. reflexivity. Qed.


Lemma C2_counterexample_key_required_twice :
  exists t,
    generate twice_primary twice_secondary spec_selectors = inr t /\
    len twice_primary = 1 /\
    len (t_merged_df t) = 2 /\
    rows (t_merged_df t)
    = [[SStr "A"; SStr "Alpha"; SStr "x1"; SStr (base_url ++ "x1");
        SStr "Alpha"; SInt 1000];
       [SStr "A"; SStr "Alpha"; SStr "x1"; SStr (base_url ++ "x1");
        SStr "Alpha"; SInt 2000]].
Proof. eexists. repeat split; reflexivity. Qed.

Lemma C2_witness_key_required_twice :
  exists t,
    generate twice_primary twice_secondary spec_selectors = inr t /\
    rows (t_merged_df t)
    = [[SStr "A"; SStr "Alpha"; SStr "x1"; SStr (base_url ++ "x1");
        SStr "Alpha"; SInt 1000];
       [SStr "A"; SStr "Alpha"; SStr "x1"; SStr (base_url ++ "x1");
        SStr "Alpha"; SInt 2000]] /\
    exists s1 s2,
      getitem twice_primary (brief_name_col spec_selectors) = inr s1 /\
      getitem twice_secondary (brief_req_col spec_selectors) = inr s2 /\
      merged_along t spec_selectors (row_pairs s1 s2) /\
      row_pairs s1 s2 = spec_pairs s1 s2 /\
      (forall j x, nth_error s1 j = Some x ->
         length (filter (fun p => Nat.eqb (fst p) j) (row_pairs s1 s2))
         = Nat.max 1 (partners x s2)) /\
      len (t_merged_df t)
      = list_sum (map (fun x => Nat.max 1 (partners x s2)) s1) /\
      length s1 <= len (t_merged_df t) /\
      ((forall x, In x s1 -> partners x s2 <= 1) ->
       len (t_merged_df t) = length s1).
Proof.
  eexists. split; [reflexivity|].
  split; [reflexivity|].
  apply (C2_rows_per_primary_record twice_primary twice_secondary
           spec_selectors);
    reflexivity.
Defined.

(** A missing Brief Name is cleaned to a missing value under pandas 3 and
    to the text nan under pandas 1 and 2, and in neither case to the empty
    string of the contract. *)
Lemma C3_counterexample_missing_value :
  getitem missing_primary "Brief" = inr [SStr "Alpha"; NaN] /\
  (exists df',
     clean missing_primary "Brief" = inr df' /\
     getitem df' "Brief" = inr [SStr "Alpha"; NaN] /\
     getitem df' "Brief" <> inr (map spec_normalize [SStr "Alpha"; NaN])) /\
  (exists df',
     clean (H := legacy_runtime) missing_primary "Brief" = inr df' /\
     getitem df' "Brief" = inr [SStr "Alpha"; SStr "nan"] /\
     getitem df' "Brief" <> inr (map spec_normalize [SStr "Alpha"; NaN])).
Proof.
  split; [reflexivity|].
  split; eexists; (split; [reflexivity|]); (split; [reflexivity|]);
    discriminate.
Qed.

(** The Brief Name between blanks is cleaned to the plain name. *)
Lemma C3_witness_brief_names :
  getitem blanks_primary "Brief" = inr [SStr " Alpha "] /\
  (exists df',
     clean blanks_primary "Brief" = inr df' /\
     getitem df' "Brief" = inr [SStr "Alpha"]) /\
  exists df' s',
    clean blanks_primary "Brief" = inr df' /\
    getitem df' "Brief" = inr s' /\
    length s' = length ([SStr " Alpha "] : @Series Z) /\
    (forall j x,
       nth_error ([SStr " Alpha "] : @Series Z) j = Some x -> notna x = true ->
       nth_error s' j = Some (SStr (PyStr.strip (py_str x))) /\
       trimmed_of (PyStr.strip (py_str x)) (py_str x)) /\
    (forall j,
       nth_error ([SStr " Alpha "] : @Series Z) j = Some NaN ->
       nth_error s' j
       = Some (if astype_str_keeps_na (float := Z) then NaN else SStr "nan") /\
       nth_error s' j <> Some (SStr "")) /\
    columns df' = columns blanks_primary /\
    (forall l, l <> "Brief" -> lookup_all df' l = lookup_all blanks_primary l).
Proof.
  split; [reflexivity|]. split; [eexists; split; reflexivity|].
  apply (C3_clean_column blanks_primary "Brief"). reflexivity.
Defined.


(** The Brief Name between blanks is joined with the plain Brief Requirement
    and the record carries its amount. *)
Lemma C5_witness_blanks_around_alpha :
  exists t,
    generate blanks_primary blanks_secondary spec_selectors = inr t /\
    rows (t_merged_df t)
    = [[SStr "A"; SStr "Alpha"; SStr "x1"; SStr (base_url ++ "x1");
        SStr "Alpha"; SInt 1000]] /\
    row_pairs (float := Z) [SStr " Alpha "] [SStr "Alpha"] = [(0, Some 0)] /\
    exists s1 s2,
      getitem blanks_primary (brief_name_col spec_selectors) = inr s1 /\
      getitem blanks_secondary (brief_req_col spec_selectors) = inr s2 /\
      merged_along t spec_selectors (row_pairs s1 s2) /\
      (forall j k,
         In (j, Some k) (row_pairs s1 s2) <->
         exists x y, nth_error s1 j = Some x /\ nth_error s2 k = Some y /\
                     key_cell x = key_cell y) /\
      (forall x y : @scalar Z,
         notna x = true -> notna y = true ->
         (key_cell x = key_cell y <->
          PyStr.strip (py_str x) = PyStr.strip (py_str y))) /\
      (forall s, trimmed_of (PyStr.strip s) s).
Proof.
  eexists. split; [reflexivity|].
  split; [reflexivity|].
  split; [reflexivity|].
  apply (C5_match_iff_trimmed_keys_equal blanks_primary blanks_secondary
           spec_selectors);
    reflexivity.
Defined.

Example spec_example_well_chosen :
  well_chosen spec_primary spec_secondary spec_selectors = true.
Proof. reflexivity. Qed.

(** " Alpha " in Primary is joined with "Alpha" in Secondary. *)
Example blanks_around_alpha_match :
  In (0, Some 0) (row_pairs (float := Z) [SStr " Alpha "] [SStr "Alpha"]).
Proof. simpl. now left. Qed.




(** A Brief ID of blanks gives the empty link, and the record is dropped. *)
Example blank_id_is_dropped :
  exists t,
    generate (float := Z)
             [("Client", [SStr "A"; SStr "B"]);
              ("Brief", [SStr "Alpha"; SStr "Beta"]);
              ("ID", [SStr "x1"; SStr "  "])]
             spec_secondary spec_selectors = inr t /\
    rows (t_merged_df t)
    = [[SStr "A"; SStr "Alpha"; SStr "x1"; SStr (base_url ++ "x1");
        SStr "Alpha"; SFloat 1000%Z];
       [SStr "B"; SStr "Beta"; SStr "  "; SStr ""; NaN; NaN]] /\
    rows (t_result_df t)
    = [[SStr "A"; SStr "Alpha"; SStr (base_url ++ "x1"); SFloat 1000%Z]].
Proof. eexists. split; [reflexivity|]. split; reflexivity. Qed.


(** Under pandas 3 the cleaned key of a missing Brief Name is a missing value
    and not the text nan. *)
Lemma C7_counterexample_missing_stays_missing :
  exists t lk,
    generate missing_primary missing_secondary spec_selectors = inr t /\
    getitem missing_primary "Brief" = inr [SStr "Alpha"; NaN] /\
    getitem (t_df1 t) "Brief" = inr lk /\
    nth_error lk 1 = Some NaN /\
    nth_error lk 1 <> Some (SStr "nan").
Proof.
  do 2 eexists. split; [reflexivity|]. split; [reflexivity|].
  split; [reflexivity|]. split; [reflexivity|]. discriminate.
Qed.

Lemma C7_witness_missing_keys :
  exists t,
    generate missing_primary missing_secondary spec_selectors = inr t /\
    rows (t_merged_df t)
    = [[SStr "A"; SStr "Alpha"; SStr "x1"; SStr (base_url ++ "x1");
        SStr "Alpha"; SInt 1000];
       [SStr "B"; NaN; SStr "x2"; SStr (base_url ++ "x2"); NaN; SInt 500]] /\
    exists lk rk um1 um2,
      getitem (t_df1 t) (brief_name_col spec_selectors) = inr lk /\
      getitem (t_df2 t) (brief_req_col spec_selectors) = inr rk /\
      nth_error lk 1
       = Some (if astype_str_keeps_na (float := Z)
               then NaN else SStr "nan") /\
      nth_error rk 0
       = Some (if astype_str_keeps_na (float := Z)
               then NaN else SStr "nan") /\
      nth_error lk 1 <> Some (SStr "") /\
      nth_error rk 0 <> Some (SStr "") /\
      In (1, Some 0) (row_pairs [SStr "Alpha"; NaN] [NaN; SStr "Alpha"]) /\
      merged_along t spec_selectors
         (row_pairs [SStr "Alpha"; NaN] [NaN; SStr "Alpha"]) /\
      unmatched (t_df1 t) (brief_name_col spec_selectors)
                 (t_df2 t) (brief_req_col spec_selectors)
      = inr um1 /\
      rows um1
       = map (row (t_df1 t)) (lonely [SStr "Alpha"; NaN] [NaN; SStr "Alpha"]) /\
      ~ In 1 (lonely [SStr "Alpha"; NaN] [NaN; SStr "Alpha"]) /\
      unmatched (t_df2 t) (brief_req_col spec_selectors)
                 (t_df1 t) (brief_name_col spec_selectors)
      = inr um2 /\
      rows um2
       = map (row (t_df2 t)) (lonely [NaN; SStr "Alpha"] [SStr "Alpha"; NaN]) /\
      ~ In 0 (lonely [NaN; SStr "Alpha"] [SStr "Alpha"; NaN]).
Proof.
  eexists. split; [reflexivity|].
  split; [reflexivity|].
  apply (C7_missing_keys_join missing_primary missing_secondary
           spec_selectors _ 2 2 [SStr "Alpha"; NaN] [NaN; SStr "Alpha"] 1 0);
    [reflexivity|repeat constructor..].
Defined.

(** Four briefs, two of them required twice: the joined records follow the
    order of the briefs. *)
Lemma C8_witness_four_records :
  exists t,
    generate order_primary order_secondary spec_selectors = inr t /\
    getitem (t_merged_df t) "Client"
    = inr [SStr "A"; SStr "A"; SStr "B"; SStr "C"; SStr "C"; SStr "D"] /\
    map fst (row_pairs (float := Z)
               [SStr "Beta"; SStr "Alpha"; SStr "Beta"; SStr "Gamma"]
               [SStr "Alpha"; SStr "Beta"; SStr "Beta"])
    = [0; 0; 1; 2; 2; 3] /\
    exists s1 s2 left from,
      getitem order_primary (brief_name_col spec_selectors) = inr s1 /\
      getitem order_secondary (brief_req_col spec_selectors) = inr s2 /\
      select (t_df1 t)
             [client_col spec_selectors; brief_name_col spec_selectors;
              brief_id_col spec_selectors; "Brief_Link"] = inr left /\
      from = map fst (row_pairs s1 s2) /\
      firstn (length left) (map snd (t_merged_df t))
      = map (fun s => map (fun j => nth j s NaN) from) (map snd left) /\
      StronglySorted le from /\
      forall j, In j from <-> j < length s1.
Proof.
  eexists. split; [reflexivity|].
  split; [reflexivity|].
  split; [reflexivity|].
  apply (C8_primary_order_preserved order_primary order_secondary
           spec_selectors);
    reflexivity.
Defined.


(** ** Instances of the further properties *)


(** The Primary example has three columns. *)
Lemma X2_witness_three_columns :
  exists e,
    generate spec_primary spec_secondary
             (default_selectors spec_primary spec_secondary) = inl e.
Proof.
  apply (X2_defaults_need_four_columns spec_primary spec_secondary).
  left. simpl. lia.
Defined.

Lemma X3_witness_spec_example :
  exists t,
    generate spec_primary spec_secondary spec_selectors = inr t /\
    client_col spec_selectors <> brief_name_col spec_selectors /\
    brief_id_col spec_selectors <> brief_name_col spec_selectors /\
    brief_name_col spec_selectors <> "Brief_Link" /\
    issued_amount_col spec_selectors <> brief_req_col spec_selectors.
Proof.
  eexists. split; [reflexivity|].
  eapply (X3_colliding_selections_fail spec_primary spec_secondary
            spec_selectors).
  reflexivity.
Defined.

Lemma X4_witness_missing_name :
  generate spec_primary spec_secondary missing_name_selectors
  = inl (KeyError "Name").
Proof.
  apply (X4_missing_key_column spec_primary spec_secondary
           missing_name_selectors "Name").
  - repeat constructor; simpl; intuition discriminate.
  - repeat constructor; simpl; intuition discriminate.
  - reflexivity.
Defined.


Lemma X6_witness_spec_example :
  exists sc s1 ids s2 sa t,
    getitem spec_primary (client_col spec_selectors) = inr sc /\
    getitem spec_primary (brief_name_col spec_selectors) = inr s1 /\
    getitem spec_primary (brief_id_col spec_selectors) = inr ids /\
    getitem spec_secondary (brief_req_col spec_selectors) = inr s2 /\
    getitem spec_secondary (issued_amount_col spec_selectors) = inr sa /\
    generate spec_primary spec_secondary spec_selectors = inr t /\
    getitem (t_merged_df t) (client_col spec_selectors)
    = inr (take_left sc (row_pairs s1 s2)) /\
    getitem (t_merged_df t) (brief_name_col spec_selectors)
    = inr (take_left (map key_cell s1) (row_pairs s1 s2)) /\
    getitem (t_merged_df t) "Brief_Link"
    = inr (take_left (map (fun x => SStr (link_text x)) ids)
                     (row_pairs s1 s2)) /\
    getitem (t_merged_df t) (issued_amount_col spec_selectors)
    = inr (take_right sa (row_pairs s1 s2)).
Proof.
  apply (X6_merged_columns_origin spec_primary spec_secondary
           spec_selectors);
    reflexivity.
Defined.



(** The Primary example against a Secondary upload without records. *)
Lemma X9_witness_no_requirements :
  exists t,
    generate spec_primary header_only_secondary spec_selectors = inr t /\
    len (t_merged_df t) = 2 /\
    getitem (t_merged_df t) (issued_amount_col spec_selectors)
    = inr (repeat NaN 2) /\
    (forall rec, In rec (rows (t_result_df t)) ->
                 exists c n l, rec = [c; n; l; NaN]) /\
    unmatched (t_df1 t) (brief_name_col spec_selectors)
              (t_df2 t) (brief_req_col spec_selectors)
    = inr (t_df1 t) /\
    unmatched (t_df2 t) (brief_req_col spec_selectors)
              (t_df1 t) (brief_name_col spec_selectors)
    = inr (t_df2 t) /\
    len (t_df2 t) = 0.
Proof.
  apply (X9_header_only_secondary spec_primary header_only_secondary
           spec_selectors 2);
    [reflexivity|repeat constructor..].
Defined.

(** A Primary upload without records against the Secondary example. *)
Lemma X10_witness_no_briefs :
  exists t,
    generate header_only_primary spec_secondary spec_selectors = inr t /\
    len (t_df1 t) = 0 /\
    len (t_merged_df t) = 0 /\
    len (t_result_df t) = 0 /\
    rows (t_result_df t) = [] /\
    unmatched (t_df1 t) (brief_name_col spec_selectors)
              (t_df2 t) (brief_req_col spec_selectors)
    = inr (t_df1 t) /\
    unmatched (t_df2 t) (brief_req_col spec_selectors)
              (t_df1 t) (brief_name_col spec_selectors)
    = inr (t_df2 t).
Proof.
  eexists. split; [reflexivity|].
  apply (X10_header_only_primary header_only_primary spec_secondary
           spec_selectors _ 1);
    [reflexivity|repeat constructor..].
Defined.

(** The download button of the page of the example. *)
Lemma X11_witness_spec_example :
  existsb is_error_call
          (main example_read_csv (Some spec_primary) (Some spec_secondary)
                spec_selectors true) = false.
Proof.
  destruct (X11_download_only_after_success
              example_read_csv (Some spec_primary) (Some spec_secondary)
              spec_selectors true "📥 Download Results as CSV"
              match generate spec_primary spec_secondary spec_selectors with
              | inr t => t_result_df t
              | inl _ => []
              end
              "bulbshare_links_matched.csv" "text/csv")
    as (u1 & u2 & df1 & df2 & t & _ & _ & _ & _ & _ & _ & _ & _ & _ & _ & _
        & He).
  - vm_compute. repeat (first [left; reflexivity | right]).
  - exact He.
Defined.

Lemma X12_witness_spec_example :
  exists s1 s2,
    getitem spec_primary (brief_name_col spec_selectors) = inr s1 /\
    getitem spec_secondary (brief_req_col spec_selectors) = inr s2 /\
    (In (st_expander "⚠️ Unmatched Records")
        (fst (process spec_primary spec_secondary spec_selectors)) <->
     (exists x, In x s1 /\
                forall y, In y s2 -> key_cell x <> key_cell y) \/
     (exists y, In y s2 /\
                forall x, In x s1 -> key_cell x <> key_cell y)) /\
    (forall x y : @scalar Z,
       notna x = true -> notna y = true ->
       (key_cell x <> key_cell y <->
        PyStr.strip (py_str x) <> PyStr.strip (py_str y))) /\
    (astype_str_keeps_na (float := Z) = false ->
     forall x : @scalar Z, key_cell x = SStr (PyStr.strip (py_str x))).
Proof.
  eapply (X12_unmatched_expander spec_primary spec_secondary
            spec_selectors _ 2 1);
    [reflexivity|repeat constructor..].
Defined.

Lemma X13_witness_blanks_around_alpha :
  exists d,
    clean blanks_primary "Brief" = inr d /\
    clean d "Brief" = inr d /\
    exists s, getitem d "Brief" = inr s /\
              forall v, In v s ->
                        (astype_str_keeps_na (float := Z) = true /\ v = NaN) \/
                        exists x, v = SStr x /\ PyStr.lstrip x = x /\
                                  PyStr.rstrip x = x.
Proof.
  eexists. split; [reflexivity|].
  apply (X13_cleaning_twice blanks_primary). reflexivity.
Defined.

Lemma X14_witness_key_required_twice :
  exists t,
    generate twice_primary twice_secondary spec_selectors = inr t /\
    exists s1 s2,
      getitem twice_primary (brief_name_col spec_selectors) = inr s1 /\
      getitem twice_secondary (brief_req_col spec_selectors) = inr s2 /\
      merged_along t spec_selectors (row_pairs s1 s2) /\
      NoDup (row_pairs s1 s2) /\
      forall k y, nth_error s2 k = Some y ->
                  length (filter (joined_with k) (row_pairs s1 s2))
                  = partners y s1.
Proof.
  eexists. split; [reflexivity|].
  apply (X14_rows_per_secondary_record twice_primary twice_secondary
           spec_selectors);
    reflexivity.
Defined.
